(** * forensicWeb: external-tool execution and result normalisation

    A shallow embedding of [backend/core/volatility_runner.py] and
    [backend/core/artifact_processor.py], followed by the properties of
    the plugin runner, the output parsers, the profile detector and the
    batch schedulers.

    Conventions.
    - A Python [str] is a [string]; every character is a code point below
      256, so the tables below ([isspace], [lower_char]) are the
      interpreter's tables restricted to that range.
    - [bytes] are strings too; decoding is an operation of the platform.
    - A [float] number of seconds and a [datetime] are rationals.
    - What the interpreter, the operating system and the external tools
      decide (the clock, the file system, the outcome of a subprocess, the
      JSON decoder) is read from an environment, and the calls that touch
      it are written in a small state monad that counts clock readings and
      logs every spawn request. *)

From Stdlib Require Import String Ascii List ZArith QArith Lia Bool.
From Stdlib Require Import DecimalString.
From stdpp Require Import gmap strings.

Import ListNotations.
Local Open Scope string_scope.
Local Open Scope list_scope.
Local Open Scope nat_scope.

(* ===================================================================== *)
(** * Part I: the program                                                 *)
(* ===================================================================== *)

(** ** Python string operations used by the sources *)

Module PyStr.

(** [str.isspace] on one character (code points below 256):
    TAB..CR, FS..US, SPACE, NEL and NBSP. *)
Definition isspace (c : ascii) : bool :=
  let n := nat_of_ascii c in
  ((9 <=? n) && (n <=? 13)) || ((28 <=? n) && (n <=? 32))
  || (n =? 133) || (n =? 160).

(** [s.lstrip()] *)
Fixpoint lstrip (s : string) : string :=
  match s with
  | String c s' => if isspace c then lstrip s' else s
  | EmptyString => EmptyString
  end.

(** [s.rstrip()] *)
Fixpoint rstrip (s : string) : string :=
  match s with
  | EmptyString => EmptyString
  | String c s' =>
      match rstrip s' with
      | EmptyString => if isspace c then EmptyString else String c EmptyString
      | r => String c r
      end
  end.

(** [s.strip()] *)
Definition strip (s : string) : string := rstrip (lstrip s).

(** Truth value of a string: [if s] holds for the non-empty ones. *)
Definition truthy (s : string) : bool :=
  match s with EmptyString => false | String _ _ => true end.

(** [s.startswith(p)] *)
Definition startswith (p s : string) : bool := String.prefix p s.

(** [p in s] *)
Fixpoint contains (p s : string) : bool :=
  String.prefix p s ||
  match s with
  | EmptyString => false
  | String _ s' => contains p s'
  end.

(** [s[:n]] *)
Fixpoint take (n : nat) (s : string) : string :=
  match n, s with
  | S n', String c s' => String c (take n' s')
  | _, _ => EmptyString
  end.

(** [s.split(sep)] for a one-character separator: never empty. *)
Fixpoint split_char (sep : ascii) (s : string) : list string :=
  match s with
  | EmptyString => [EmptyString]
  | String c s' =>
      if Ascii.eqb c sep then EmptyString :: split_char sep s'
      else match split_char sep s' with
           | h :: t => String c h :: t
           | [] => [String c EmptyString]
           end
  end.

Definition LF : ascii := ascii_of_nat 10.
Definition CR : ascii := ascii_of_nat 13.

(** [f.readlines()] of a text file opened with the default [newline]:
    a line ends at LF, CR LF or CR, its terminator is read as LF and
    stays on the line. *)
Fixpoint readlines (s : string) : list string :=
  match s with
  | EmptyString => []
  | String c s' =>
      if Ascii.eqb c LF then String LF EmptyString :: readlines s'
      else if Ascii.eqb c CR then
        match s' with
        | String c' s'' =>
            if Ascii.eqb c' LF then String LF EmptyString :: readlines s''
            else String LF EmptyString :: readlines s'
        | EmptyString => [String LF EmptyString]
        end
      else match readlines s' with
           | h :: t => String c h :: t
           | [] => [String c EmptyString]
           end
  end.

(** The first run of non-blank characters of [s] and what follows it. *)
Fixpoint span_field (s : string) : string * string :=
  match s with
  | EmptyString => (EmptyString, EmptyString)
  | String c s' =>
      if isspace c then (EmptyString, s)
      else let (f, r) := span_field s' in (String c f, r)
  end.

(** [s.split(None, maxsplit)]: at most [maxsplit] fields are cut off at
    runs of blanks; what is left, without its leading blanks, is the last
    element when it is not empty. *)
Fixpoint split_ws (maxsplit : nat) (s : string) : list string :=
  match lstrip s with
  | EmptyString => []
  | s1 =>
      match maxsplit with
      | O => [s1]
      | S m => let (f, r) := span_field s1 in f :: split_ws m r
      end
  end.

(** [s.split()]: no bound on the number of fields. *)
Definition fields (s : string) : list string := split_ws (String.length s) s.

(** [str.lower] on one character (code points below 256). *)
Definition lower_char (c : ascii) : ascii :=
  let n := nat_of_ascii c in
  if ((65 <=? n) && (n <=? 90))
     || ((192 <=? n) && (n <=? 222) && negb (n =? 215))
  then ascii_of_nat (n + 32) else c.

(** [s.lower()] *)
Fixpoint lower (s : string) : string :=
  match s with
  | EmptyString => EmptyString
  | String c s' => String (lower_char c) (lower s')
  end.

(** [s.replace(a, b)] for one-character [a] and [b]. *)
Fixpoint replace_char (a b : ascii) (s : string) : string :=
  match s with
  | EmptyString => EmptyString
  | String c s' =>
      String (if Ascii.eqb c a then b else c) (replace_char a b s')
  end.

(** Value of a decimal digit. *)
Definition digit_value (c : ascii) : option Z :=
  let n := nat_of_ascii c in
  if (48 <=? n) && (n <=? 57) then Some (Z.of_nat (n - 48)) else None.

(** Digits with single underscores between them; [prev] tells whether
    the previous character was a digit. *)
Fixpoint int_digits (acc : Z) (prev : bool) (s : string) : option Z :=
  match s with
  | EmptyString => if prev then Some acc else None
  | String c s' =>
      match digit_value c with
      | Some d => int_digits (10 * acc + d) true s'
      | None =>
          if Ascii.eqb c "_" && prev then int_digits acc false s' else None
      end
  end.

(** The blanks [int] removes around its argument. *)
Definition int_isspace (c : ascii) : bool :=
  let n := nat_of_ascii c in
  ((9 <=? n) && (n <=? 13)) || (n =? 32) || (n =? 133) || (n =? 160).

Fixpoint int_lstrip (s : string) : string :=
  match s with
  | String c s' => if int_isspace c then int_lstrip s' else s
  | EmptyString => EmptyString
  end.

Fixpoint int_rstrip (s : string) : string :=
  match s with
  | EmptyString => EmptyString
  | String c s' =>
      match int_rstrip s' with
      | EmptyString =>
          if int_isspace c then EmptyString else String c EmptyString
      | r => String c r
      end
  end.

(** The number of digits in a text. *)
Fixpoint count_digits (s : string) : Z :=
  match s with
  | EmptyString => 0%Z
  | String c s' =>
      match digit_value c with
      | Some _ => (1 + count_digits s')%Z
      | None => count_digits s'
      end
  end.

(** [sys.get_int_max_str_digits()], at the interpreter's default. *)
Definition int_max_str_digits : Z := 4300.

(** A literal without its sign: [None] when it is not one, and when it
    has more digits than the interpreter converts (leading zeros count,
    underscores do not). *)
Definition int_literal (r : string) : option Z :=
  if (int_max_str_digits <? count_digits r)%Z then None
  else int_digits 0 false r.

(** [int(s)]: [None] stands for [ValueError]. *)
Definition int (s : string) : option Z :=
  match int_rstrip (int_lstrip s) with
  | String "-" r => option_map Z.opp (int_literal r)
  | String "+" r => int_literal r
  | r => int_literal r
  end.

(** [str(n)] for an integer. *)
Definition str_of_Z (n : Z) : string := NilZero.string_of_int (Z.to_int n).

(** [str(Path(s))] on a POSIX system: the components between slashes,
    without the empty ones and the dots; two slashes at the start are
    kept, three or more are one; a path without components and without a
    root is the dot. *)
Definition posix_path (s : string) : string :=
  let parts :=
    List.filter (fun part => negb (String.eqb part EmptyString
                                   || String.eqb part "."))
      (split_char "/" s) in
  let root :=
    if String.prefix "//" s && negb (String.prefix "///" s) then "//"
    else if String.prefix "/" s then "/"
    else EmptyString in
  match root, parts with
  | EmptyString, [] => "."
  | _, _ => root +:+ String.concat "/" parts
  end.

End PyStr.

(** ** JSON values, as [json.loads] builds them *)

Module Json.

#[warnings="-register-all"] Inductive value : Type :=
| JNull
| JBool (b : bool)
| JInt (n : Z)
| JFloat (q : Q)
| JStr (s : string)
| JArr (items : list value)
| JObj (members : list (string * value)).

(** Truth value of a decoded object ([if json_data], [a or b]). *)
Definition truthy (v : value) : bool :=
  match v with
  | JNull => false
  | JBool b => b
  | JInt n => negb (n =? 0)%Z
  | JFloat q => negb (Qeq_bool q 0)
  | JStr s => PyStr.truthy s
  | JArr items => match items with [] => false | _ => true end
  | JObj members => match members with [] => false | _ => true end
  end.

(** [d.get(key)] on a dict whose keys are distinct; a missing key gives
    [None], which is [JNull]. *)
Fixpoint get (key : string) (members : list (string * value)) : value :=
  match members with
  | [] => JNull
  | (k, v) :: rest => if String.eqb k key then v else get key rest
  end.

(** What [json.loads] does with a text: a value, [json.JSONDecodeError]
    for malformed text, or another exception ([RecursionError] for deep
    nesting, [ValueError] for an integer literal beyond the digit
    limit). *)
Inductive decoded : Type :=
| Decoded (v : value)
| JSONDecodeError (msg : string)
| DecodeRaised (msg : string).

End Json.

(** ** Exceptions, the world and the monad of effectful calls *)

Module Py.

(** What [e.stderr] of a [TimeoutExpired] holds. *)
Inductive captured : Type :=
| Text (s : string)
| Bytes (b : string).

(** The exception classes the sources tell apart; every one is a
    subclass of [Exception] and carries [str(e)].
    [SoftTimeLimitExceeded] is what the worker raises inside a task that
    runs too long, in the call that is under way then. Signals below
    [BaseException] only (cancellation, interpreter exit) are outside the
    model. *)
Inductive exc : Type :=
| TimeoutExpired (msg : string) (stderr : option captured)
| AsyncTimeoutError
| FileNotFoundError (msg : string)
| SoftTimeLimitExceeded (msg : string)
| Exception (msg : string).

Definition exc_str (e : exc) : string :=
  match e with
  | TimeoutExpired msg _ => msg
  | AsyncTimeoutError => EmptyString
  | FileNotFoundError msg => msg
  | SoftTimeLimitExceeded msg => msg
  | Exception msg => msg
  end.

Inductive res (A : Type) : Type :=
| Ret (a : A)
| Raise (e : exc).
Arguments Ret {A} a.
Arguments Raise {A} e.

(** State of a file when the program looks at it: not there, there but
    not readable as text ([open] or [readlines] raises), there with a
    text, or out of reach: [stat] on the path raises an [OSError] other
    than the ones [exists()] takes for an absent file (a name that is too
    long, a directory on the way that may not be searched), and
    [exists()] raises it too. *)
Inductive file_state : Type :=
| Missing
| Unreadable (e : exc)
| Content (text : string)
| Inaccessible (msg : string).

(** What the surroundings answer. Commands are lists of arguments,
    paths and byte strings are strings. An answer depends on the command
    or the path it is asked for. *)
Record Env : Type := {
  (** the [n]-th reading of [datetime.utcnow()], in seconds *)
  clock : nat -> Q;
  (** [subprocess.run(cmd, capture_output=True, text=True, timeout=t)] *)
  run_outcome : list string -> res (Z * string * string);
  (** [asyncio.create_subprocess_exec] on the command: [None] when it
      started *)
  spawn_outcome : list string -> option exc;
  (** [asyncio.wait_for(process.communicate(), timeout)]:
      return code, stdout bytes, stderr bytes *)
  communicate_outcome : list string -> res (Z * string * string);
  (** [process.kill()] followed by [process.wait()] *)
  kill_outcome : list string -> option exc;
  (** the file at a path, after the tool has run *)
  file_at : string -> file_state;
  (** [path.mkdir(parents=True, exist_ok=True)] *)
  mkdir_outcome : string -> option exc;
  (** the regular files below a directory ([exists()], [rglob] and
      [is_file], any of which may raise); [None] when the directory does
      not exist *)
  files_below : string -> option (res (list string));
  (** [json.loads] *)
  json_loads : string -> Json.decoded;
  (** [b.decode('utf-8', errors='replace')] *)
  decode_replace : string -> string;
  (** [b.decode('utf-8')] *)
  decode_strict : string -> res string;
  (** [str(b)] for bytes and [str(cmd)] for a list of strings *)
  bytes_str : string -> string;
  cmd_str : list string -> string;
  (** [dir / name], [path.stem] *)
  path_join : string -> string -> string;
  path_stem : string -> string
}.

(** The part of the world the calls change. *)
Record World : Type := {
  ticks : nat;
  spawned : list (list string)
}.

Definition M (A : Type) : Type := World -> res A * World.

Definition ret {A} (a : A) : M A := fun w => (Ret a, w).

Definition raise {A} (e : exc) : M A := fun w => (Raise e, w).

Definition bind {A B} (m : M A) (k : A -> M B) : M B :=
  fun w =>
    match m w with
    | (Ret a, w') => k a w'
    | (Raise e, w') => (Raise e, w')
    end.

(** [try: body except ... as e: handler e] *)
Definition try_except {A} (body : M A) (handler : exc -> M A) : M A :=
  fun w =>
    match body w with
    | (Ret a, w') => (Ret a, w')
    | (Raise e, w') => handler e w'
    end.

Definition lift {A} (r : res A) : M A := fun w => (r, w).

Definition lift_unit (o : option exc) : M unit :=
  fun w => (match o with None => Ret tt | Some e => Raise e end, w).

Definition log_spawn (cmd : list string) : M unit :=
  fun w => (Ret tt, {| ticks := ticks w; spawned := spawned w ++ [cmd] |}).

Section Calls.
Variable E : Env.

Definition utcnow : M Q :=
  fun w => (Ret (clock E (ticks w)),
            {| ticks := S (ticks w); spawned := spawned w |}).

Definition subprocess_run (cmd : list string) : M (Z * string * string) :=
  bind (log_spawn cmd) (fun _ => lift (run_outcome E cmd)).

Definition create_subprocess_exec (cmd : list string) : M unit :=
  bind (log_spawn cmd) (fun _ => lift_unit (spawn_outcome E cmd)).

Definition wait_for_communicate (cmd : list string)
  : M (Z * string * string) :=
  lift (communicate_outcome E cmd).

Definition kill_and_wait (cmd : list string) : M unit :=
  lift_unit (kill_outcome E cmd).

Definition mkdir (path : string) : M unit :=
  lift_unit (mkdir_outcome E path).

(** [path.exists()] *)
Definition exists_ (path : string) : res bool :=
  match file_at E path with
  | Missing => Ret false
  | Inaccessible msg => Raise (Exception msg)
  | _ => Ret true
  end.

(** [str(e.stderr)] *)
Definition captured_str (c : captured) : string :=
  match c with
  | Text s => s
  | Bytes b => bytes_str E b
  end.

Definition captured_truthy (c : captured) : bool :=
  match c with
  | Text s => PyStr.truthy s
  | Bytes b => PyStr.truthy b
  end.

End Calls.

End Py.

Notation "x <- m ;; k" := (Py.bind m (fun x => k))
  (at level 100, m at next level, right associativity).

(** ** [backend/config.py]: the settings the core reads *)

Record Settings : Type := {
  VOL3_PATH : string;
  VOL3_TIMEOUT_SECONDS : Z;
  BINWALK_PATH : string;
  EXIFTOOL_PATH : string;
  BINWALK_ENABLED : bool;
  EXIFTOOL_ENABLED : bool
}.

Definition default_settings : Settings := {|
  VOL3_PATH := "/usr/local/bin/vol";
  VOL3_TIMEOUT_SECONDS := 3600;
  BINWALK_PATH := "/usr/bin/binwalk";
  EXIFTOOL_PATH := "/usr/bin/exiftool";
  BINWALK_ENABLED := true;
  EXIFTOOL_ENABLED := true
|}.

(** ** Batches: [asyncio.gather(..., return_exceptions=True)] and the loop
    that turns its list into a dictionary *)

Module Batch.
Import Py.

(** How a batch call ends: with a value, with an exception, or never
    (every task waits for a semaphore that has no slot). *)
Inductive outcome (A : Type) : Type :=
| Finished (a : A)
| Aborted (e : exc)
| NeverReturns.
Arguments Finished {A} a.
Arguments Aborted {A} e.
Arguments NeverReturns {A}.

(** An exception of a task becomes its entry of the list, in the place
    of the task. The tasks are run here one after the other, each to its
    end; the order in which the event loop interleaves them is not
    modelled. *)
Fixpoint gather {A} (tasks : list (M A)) (w : World) : list (res A) * World :=
  match tasks with
  | [] => ([], w)
  | task :: rest =>
      let (r, w1) := task w in
      let (rs, w2) := gather rest w1 in
      (r :: rs, w2)
  end.

(** [for item in results_list: if isinstance(item, Exception): log
    else: key, result = item; results[key] = result] *)
Fixpoint collect {V} (results_list : list (res (string * V)))
  (results : gmap string V) : gmap string V :=
  match results_list with
  | [] => results
  | Raise _ :: rest => collect rest results
  | Ret (key, result) :: rest => collect rest (<[key := result]> results)
  end.

(** [async with semaphore: result = await execute(key); return key, result] *)
Definition with_semaphore {V} (execute : string -> M V) (key : string)
  : M (string * V) :=
  result <- execute key ;; ret (key, result).

(** [semaphore = asyncio.Semaphore(max_concurrent)], the tasks, [gather]
    and the loop over its list. *)
Definition run_concurrent {V} (execute : string -> M V)
  (keys : list string) (max_concurrent : Z) (w : World)
  : outcome (gmap string V) * World :=
  if (max_concurrent <? 0)%Z then
    (Aborted (Exception "Semaphore initial value must be >= 0"), w)
  else
    match keys with
    | [] => (Finished ∅, w)
    | _ =>
        if (max_concurrent =? 0)%Z then (NeverReturns, w)
        else
          let (results_list, w') := gather (map (with_semaphore execute) keys) w in
          (Finished (collect results_list ∅), w')
    end.

(** [for key in keys: results[key] = await execute(key)] *)
Fixpoint run_sequential {V} (execute : string -> M V) (keys : list string)
  (results : gmap string V) (w : World) : outcome (gmap string V) * World :=
  match keys with
  | [] => (Finished results, w)
  | key :: rest =>
      match execute key w with
      | (Ret result, w1) => run_sequential execute rest (<[key := result]> results) w1
      | (Raise e, w1) => (Aborted e, w1)
      end
  end.

End Batch.

(** ** [backend/core/volatility_runner.py] *)

Module VolatilityRunner.
Import Py.

Inductive PluginStatus : Type :=
| PENDING
| RUNNING
| SUCCESS
| FAILED
| TIMEOUT.

Record PluginExecutionResult : Type := {
  plugin_name : string;
  status : PluginStatus;
  started_at : Q;
  completed_at : option Q;
  execution_time_seconds : Q;
  row_count : nat;
  output_json_path : option string;
  parsed_data : option (list Json.value);
  error_message : option string;
  stderr : option string;
  returncode : Z
}.

Record Volatility3Runner : Type := {
  memory_image_path : string;
  output_dir : string;
  timeout_seconds : Z
}.

(** [_extract_error_message]: the known diagnostics, in the order of the
    source. *)
Definition error_patterns : list string := [
  "Unable to validate the plugin requirements";
  "No such file or directory";
  "Unable to determine symbol table";
  "Unsatisfied requirement plugins";
  "No valid profile found"
].

(** [for pattern in error_patterns: if pattern in stderr: return stderr[:500]] *)
Fixpoint scan_patterns (patterns : list string) (stderr : string)
  : option string :=
  match patterns with
  | [] => None
  | pattern :: rest =>
      if PyStr.contains pattern stderr then Some (PyStr.take 500 stderr)
      else scan_patterns rest stderr
  end.

(** [[l.strip() for l in stderr.split('\n') if l.strip()]] *)
Definition meaningful_lines (stderr : string) : list string :=
  map PyStr.strip
    (List.filter (fun l => PyStr.truthy (PyStr.strip l))
       (PyStr.split_char PyStr.LF stderr)).

Definition _extract_error_message (stderr : option string) : string :=
  match stderr with
  | None => "Unknown error"
  | Some EmptyString => "Unknown error"
  | Some stderr =>
      match scan_patterns error_patterns stderr with
      | Some message => message
      | None =>
          match meaningful_lines stderr with
          | first :: _ => PyStr.take 500 first
          | [] => "Execution failed"
          end
      end
  end.

(** [_parse_banners_output] *)
Definition _parse_banners_output (output : string) : string :=
  let output_lower := PyStr.lower output in
  if PyStr.contains "windows" output_lower
     || PyStr.contains "microsoft" output_lower then "Windows"
  else if PyStr.contains "linux" output_lower then "Linux"
  else if PyStr.contains "darwin" output_lower
          || PyStr.contains "macos" output_lower then "macOS"
  else "Unknown".

Record ProfileInfo : Type := {
  os : string;
  profile : string;
  confidence : Q;
  method : string
}.

Section Runner.
Variable settings : Settings.
Variable E : Env.

(** [_verify_volatility_installation] *)
Definition _verify_volatility_installation : M unit :=
  try_except
    (result <- subprocess_run E [VOL3_PATH settings; "--help"] ;;
     let '(code, _, err) := result in
     if (code =? 0)%Z then ret tt
     else raise (Exception ("Volatility 3 check failed: " +:+ err)))
    (fun e =>
       match e with
       | FileNotFoundError _ =>
           raise (Exception ("Volatility 3 not found at " +:+ VOL3_PATH settings
                             +:+ ". Set VOL3_PATH in configuration."))
       | TimeoutExpired _ _ =>
           raise (Exception "Volatility 3 verification timed out")
       | _ => raise e
       end).

(** [__init__]; [timeout_seconds or settings.VOL3_TIMEOUT_SECONDS] takes the
    default for [None] and for [0]. *)
Definition __init__ (memory_image_path output_dir : string)
  (timeout_seconds : option Z) : M Volatility3Runner :=
  let timeout :=
    match timeout_seconds with
    | Some t => if (t =? 0)%Z then VOL3_TIMEOUT_SECONDS settings else t
    | None => VOL3_TIMEOUT_SECONDS settings
    end in
  found <- lift (exists_ E memory_image_path) ;;
  if negb found then
    raise (FileNotFoundError ("Memory image not found: " +:+ memory_image_path))
  else
    _ <- mkdir E output_dir ;;
    _ <- _verify_volatility_installation ;;
    ret {| memory_image_path := memory_image_path;
           output_dir := output_dir;
           timeout_seconds := timeout |}.

(** [_build_command] *)
Definition _build_command (self : Volatility3Runner) (plugin_name : string)
  (output_file : string) (extra_args : option (list string)) : list string :=
  let cmd := [VOL3_PATH settings; "-f"; memory_image_path self;
              "-r"; "json"; plugin_name] in
  match extra_args with
  | Some (a :: args) => cmd ++ (a :: args)
  | _ => cmd
  end.

(** [self.output_dir / f"{plugin_name.replace('.', '_')}.json"] *)
Definition output_file_of (self : Volatility3Runner) (plugin_name : string)
  : string :=
  path_join E (output_dir self)
    (PyStr.replace_char "." "_" plugin_name +:+ ".json").

(** The loop of [_parse_json_output] over the lines read: a line the
    decoder rejects as malformed is skipped, any other exception leaves
    the loop. *)
Fixpoint parse_rows (lines : list string) (parsed_rows : list Json.value)
  : res (list Json.value) :=
  match lines with
  | [] => Ret parsed_rows
  | line :: rest =>
      let line := PyStr.strip line in
      if PyStr.truthy line then
        match json_loads E line with
        | Json.Decoded row => parse_rows rest (parsed_rows ++ [row])
        | Json.JSONDecodeError _ => parse_rows rest parsed_rows
        | Json.DecodeRaised msg => Raise (Exception msg)
        end
      else parse_rows rest parsed_rows
  end.

(** [_parse_json_output]: [exists()] is asked before the [try], so what
    it raises leaves the function; whatever opening, reading and decoding
    raise is caught. *)
Definition _parse_json_output (output_file : string)
  : res (option (list Json.value) * nat) :=
  match exists_ E output_file with
  | Raise e => Raise e
  | Ret false => Ret (None, 0)
  | Ret true =>
      match file_at E output_file with
      | Content text =>
          match PyStr.readlines text with
          | [] => Ret (None, 0)
          | lines =>
              match parse_rows lines [] with
              | Ret parsed_rows => Ret (Some parsed_rows, length parsed_rows)
              | Raise _ => Ret (None, 0)
              end
          end
      | _ => Ret (None, 0)
      end
  end.

Definition timed_out_message (self : Volatility3Runner) : string :=
  "Execution timed out after " +:+ PyStr.str_of_Z (timeout_seconds self) +:+ "s".

(** [execute_plugin] *)
Definition execute_plugin (self : Volatility3Runner) (plugin_name : string)
  (extra_args : option (list string)) : M PluginExecutionResult :=
  started_at <- utcnow E ;;
  let output_file := output_file_of self plugin_name in
  let cmd := _build_command self plugin_name output_file extra_args in
  try_except
    (result <- subprocess_run E cmd ;;
     let '(code, _, err) := result in
     completed_at <- utcnow E ;;
     let execution_time := (completed_at - started_at)%Q in
     parsed <- lift (_parse_json_output output_file) ;;
     let '(parsed_data, row_count) := parsed in
     let '(status, error_message) :=
       match (code =? 0)%Z, parsed_data with
       | true, Some _ => (SUCCESS, None)
       | _, _ => (FAILED, Some (_extract_error_message (Some err)))
       end in
     found <- lift (exists_ E output_file) ;;
     ret {| plugin_name := plugin_name;
            status := status;
            started_at := started_at;
            completed_at := Some completed_at;
            execution_time_seconds := execution_time;
            row_count := row_count;
            output_json_path := if found then Some output_file else None;
            parsed_data := parsed_data;
            error_message := error_message;
            stderr := if PyStr.truthy err then Some err else None;
            returncode := code |})
    (fun e =>
       match e with
       | TimeoutExpired _ e_stderr =>
           completed_at <- utcnow E ;;
           ret {| plugin_name := plugin_name;
                  status := TIMEOUT;
                  started_at := started_at;
                  completed_at := Some completed_at;
                  execution_time_seconds := inject_Z (timeout_seconds self);
                  row_count := 0;
                  output_json_path := None;
                  parsed_data := None;
                  error_message := Some (timed_out_message self);
                  stderr :=
                    match e_stderr with
                    | Some c =>
                        if captured_truthy c then Some (captured_str E c)
                        else None
                    | None => None
                    end;
                  returncode := (-1)%Z |}
       | _ =>
           completed_at <- utcnow E ;;
           now <- utcnow E ;;
           ret {| plugin_name := plugin_name;
                  status := FAILED;
                  started_at := started_at;
                  completed_at := Some completed_at;
                  execution_time_seconds := (now - started_at)%Q;
                  row_count := 0;
                  output_json_path := None;
                  parsed_data := None;
                  error_message := Some (exc_str e);
                  stderr := None;
                  returncode := (-1)%Z |}
       end).

(** [execute_plugin_async] *)
Definition execute_plugin_async (self : Volatility3Runner)
  (plugin_name : string) (extra_args : option (list string))
  : M PluginExecutionResult :=
  started_at <- utcnow E ;;
  let output_file := output_file_of self plugin_name in
  let cmd := _build_command self plugin_name output_file extra_args in
  try_except
    (_ <- create_subprocess_exec E cmd ;;
     result <-
       try_except (wait_for_communicate E cmd)
         (fun e =>
            match e with
            | AsyncTimeoutError =>
                _ <- kill_and_wait E cmd ;;
                raise (TimeoutExpired
                         ("Command '" +:+ cmd_str E cmd +:+ "' timed out after "
                          +:+ PyStr.str_of_Z (timeout_seconds self) +:+ " seconds")
                         None)
            | _ => raise e
            end) ;;
     let '(code, _, err) := result in
     completed_at <- utcnow E ;;
     let execution_time := (completed_at - started_at)%Q in
     parsed <- lift (_parse_json_output output_file) ;;
     let '(parsed_data, row_count) := parsed in
     let status := if (code =? 0)%Z then SUCCESS else FAILED in
     let error_message :=
       match status with
       | SUCCESS => None
       | _ => Some (_extract_error_message (Some (decode_replace E err)))
       end in
     found <- lift (exists_ E output_file) ;;
     ret {| plugin_name := plugin_name;
            status := status;
            started_at := started_at;
            completed_at := Some completed_at;
            execution_time_seconds := execution_time;
            row_count := row_count;
            output_json_path := if found then Some output_file else None;
            parsed_data := parsed_data;
            error_message := error_message;
            stderr :=
              if PyStr.truthy err then Some (decode_replace E err) else None;
            returncode := code |})
    (fun e =>
       match e with
       | TimeoutExpired _ _ =>
           completed_at <- utcnow E ;;
           ret {| plugin_name := plugin_name;
                  status := TIMEOUT;
                  started_at := started_at;
                  completed_at := Some completed_at;
                  execution_time_seconds := inject_Z (timeout_seconds self);
                  row_count := 0;
                  output_json_path := None;
                  parsed_data := None;
                  error_message := Some (timed_out_message self);
                  stderr := None;
                  returncode := (-1)%Z |}
       | _ =>
           completed_at <- utcnow E ;;
           now <- utcnow E ;;
           ret {| plugin_name := plugin_name;
                  status := FAILED;
                  started_at := started_at;
                  completed_at := Some completed_at;
                  execution_time_seconds := (now - started_at)%Q;
                  row_count := 0;
                  output_json_path := None;
                  parsed_data := None;
                  error_message := Some (exc_str e);
                  stderr := None;
                  returncode := (-1)%Z |}
       end).

(** [execute_plugin_batch] *)
Definition execute_plugin_batch (self : Volatility3Runner)
  (plugin_names : list string) (concurrent : bool) (max_concurrent : Z)
  (w : World) : Batch.outcome (gmap string PluginExecutionResult) * World :=
  if negb concurrent then
    Batch.run_sequential
      (fun plugin_name => execute_plugin_async self plugin_name None)
      plugin_names ∅ w
  else
    Batch.run_concurrent
      (fun plugin_name => execute_plugin_async self plugin_name None)
      plugin_names max_concurrent w.

(** [ProfileDetector.detect_profile] *)
Definition detect_profile (memory_image_path : string) : M ProfileInfo :=
  try_except
    (let cmd := [VOL3_PATH settings; "-f"; memory_image_path;
                 "banners.Banners"] in
     _ <- create_subprocess_exec E cmd ;;
     result <- wait_for_communicate E cmd ;;
     let '(_, out, _) := result in
     let output := decode_replace E out in
     let os_type := _parse_banners_output output in
     ret {| os := os_type;
            profile := "auto";
            confidence :=
              if negb (String.eqb os_type "Unknown") then (8 # 10)%Q
              else (3 # 10)%Q;
            method := "banners" |})
    (fun e =>
       ret {| os := "Unknown";
              profile := "auto";
              confidence := 0%Q;
              method := "fallback" |}).

End Runner.

End VolatilityRunner.

(** ** [backend/core/artifact_processor.py] *)

Module ArtifactProcessor.
Import Py.

(** One entry of [signatures_found]: the dictionary with the keys
    ['offset'], ['offset_hex'] and ['description']. *)
Record SignatureFinding : Type := {
  offset : Z;
  offset_hex : string;
  description : string
}.

Record BinwalkResult : Type := {
  file_path : string;
  analyzed_at : Q;
  success : bool;
  signatures_found : list SignatureFinding;
  extracted_files : list string;
  error_message : option string;
  execution_time_seconds : Q
}.

(** [file_type] is [JNull] where the source has [None]. *)
Record ExiftoolResult : Type := {
  exif_file_path : string;
  exif_analyzed_at : Q;
  exif_success : bool;
  metadata : Json.value;
  file_type : Json.value;
  exif_error_message : option string;
  exif_execution_time_seconds : Q
}.

Record BinwalkAnalyzer : Type := {
  extraction_dir : string
}.

(** The loop of [_parse_binwalk_output] over the lines of the output. *)
Fixpoint parse_lines (lines : list string) (signatures : list SignatureFinding)
  : list SignatureFinding :=
  match lines with
  | [] => signatures
  | line :: rest =>
      let line := PyStr.strip line in
      if negb (PyStr.truthy line)
         || PyStr.startswith "DECIMAL" line
         || PyStr.startswith "---" line
      then parse_lines rest signatures
      else
        let parts := PyStr.split_ws 2 line in
        if 3 <=? length parts then
          match PyStr.int (nth 0 parts EmptyString) with
          | Some decimal_offset =>
              let hex_offset := nth 1 parts EmptyString in
              let description := nth 2 parts EmptyString in
              parse_lines rest
                (signatures ++ [ {| offset := decimal_offset;
                                    offset_hex := hex_offset;
                                    description := description |} ])
          | None => parse_lines rest signatures
          end
        else parse_lines rest signatures
  end.

(** [_parse_binwalk_output] *)
Definition _parse_binwalk_output (output : string) : list SignatureFinding :=
  parse_lines (PyStr.split_char PyStr.LF output) [].

(** The name of a value's class, as exception messages print it. *)
Definition type_name (v : Json.value) : string :=
  match v with
  | Json.JNull => "NoneType"
  | Json.JBool _ => "bool"
  | Json.JInt _ => "int"
  | Json.JFloat _ => "float"
  | Json.JStr _ => "str"
  | Json.JArr _ => "list"
  | Json.JObj _ => "dict"
  end.

(** [metadata.get('FileType') or metadata.get('MIMEType')] *)
Definition file_type_of (metadata : Json.value) : res Json.value :=
  match metadata with
  | Json.JObj members =>
      let first := Json.get "FileType" members in
      Ret (if Json.truthy first then first else Json.get "MIMEType" members)
  | other =>
      Raise (Exception ("'" +:+ type_name other
                        +:+ "' object has no attribute 'get'"))
  end.

(** [if json_data and len(json_data) > 0: metadata = json_data[0];
    file_type = ...]: the pair (metadata, file_type). The element 0 of a
    list is its head, of a text its first character; a dictionary has no
    key 0 ([KeyError]) and a number has no length ([TypeError]). *)
Definition first_record (json_data : Json.value) : res (Json.value * Json.value) :=
  if negb (Json.truthy json_data) then Ret (Json.JObj [], Json.JNull)
  else
    match json_data with
    | Json.JArr (metadata :: _) =>
        match file_type_of metadata with
        | Ret file_type => Ret (metadata, file_type)
        | Raise e => Raise e
        end
    | Json.JStr (String c _) =>
        match file_type_of (Json.JStr (String c EmptyString)) with
        | Ret file_type => Ret (Json.JStr (String c EmptyString), file_type)
        | Raise e => Raise e
        end
    | Json.JObj _ => Raise (Exception "0")
    | other =>
        Raise (Exception ("object of type '" +:+ type_name other
                          +:+ "' has no len()"))
    end.

Section Analyzers.
Variable settings : Settings.
Variable E : Env.

(** [BinwalkAnalyzer.analyze_file] *)
Definition analyze_file (self : BinwalkAnalyzer) (file_path : string)
  (extract : bool) (timeout_seconds : Z) : M BinwalkResult :=
  if negb (BINWALK_ENABLED settings) then
    now <- utcnow E ;;
    ret {| file_path := file_path;
           analyzed_at := now;
           success := false;
           signatures_found := [];
           extracted_files := [];
           error_message := Some "Binwalk is disabled";
           execution_time_seconds := 0%Q |}
  else
    started_at <- utcnow E ;;
    let extract_dir :=
      path_join E (extraction_dir self) (path_stem E file_path +:+ "_binwalk") in
    _ <- mkdir E extract_dir ;;
    let cmd :=
      [BINWALK_PATH settings]
      ++ (if extract then ["-e"; "-C"; extract_dir] else [])
      ++ [file_path] in
    try_except
      (_ <- create_subprocess_exec E cmd ;;
       result <- wait_for_communicate E cmd ;;
       let '(code, out, err) := result in
       completed_at <- utcnow E ;;
       let execution_time := (completed_at - started_at)%Q in
       let signatures := _parse_binwalk_output (decode_replace E out) in
       extracted <-
         (if extract then
            match files_below E extract_dir with
            | Some found => lift found
            | None => ret []
            end
          else ret []) ;;
       message <-
         (if (code =? 0)%Z then ret None
          else text <- lift (decode_strict E err) ;;
               ret (Some (PyStr.take 500 text))) ;;
       ret {| file_path := file_path;
              analyzed_at := completed_at;
              success := (code =? 0)%Z;
              signatures_found := signatures;
              extracted_files := extracted;
              error_message := message;
              execution_time_seconds := execution_time |})
      (fun e =>
         match e with
         | AsyncTimeoutError =>
             now <- utcnow E ;;
             ret {| file_path := file_path;
                    analyzed_at := now;
                    success := false;
                    signatures_found := [];
                    extracted_files := [];
                    error_message :=
                      Some ("Analysis timed out after "
                            +:+ PyStr.str_of_Z timeout_seconds +:+ "s");
                    execution_time_seconds := inject_Z timeout_seconds |}
         | _ =>
             analyzed <- utcnow E ;;
             now <- utcnow E ;;
             ret {| file_path := file_path;
                    analyzed_at := analyzed;
                    success := false;
                    signatures_found := [];
                    extracted_files := [];
                    error_message := Some (exc_str e);
                    execution_time_seconds := (now - started_at)%Q |}
         end).

(** [BinwalkAnalyzer.analyze_batch] *)
Definition analyze_batch (self : BinwalkAnalyzer) (file_paths : list string)
  (extract : bool) (max_concurrent : Z) (w : World)
  : Batch.outcome (gmap string BinwalkResult) * World :=
  Batch.run_concurrent
    (fun file_path => analyze_file self file_path extract 300)
    file_paths max_concurrent w.

(** [ExiftoolAnalyzer.extract_metadata] *)
Definition extract_metadata (file_path : string) (timeout_seconds : Z)
  : M ExiftoolResult :=
  if negb (EXIFTOOL_ENABLED settings) then
    now <- utcnow E ;;
    ret {| exif_file_path := file_path;
           exif_analyzed_at := now;
           exif_success := false;
           metadata := Json.JObj [];
           file_type := Json.JNull;
           exif_error_message := Some "Exiftool is disabled";
           exif_execution_time_seconds := 0%Q |}
  else
    started_at <- utcnow E ;;
    let cmd := [EXIFTOOL_PATH settings; "-json"; "-g"; "-a"; "-s"; file_path] in
    try_except
      (_ <- create_subprocess_exec E cmd ;;
       result <- wait_for_communicate E cmd ;;
       let '(code, out, err) := result in
       completed_at <- utcnow E ;;
       let execution_time := (completed_at - started_at)%Q in
       record <-
         (if (code =? 0)%Z then
            match json_loads E (decode_replace E out) with
            | Json.Decoded json_data => lift (first_record json_data)
            | Json.JSONDecodeError _ => ret (Json.JObj [], Json.JNull)
            | Json.DecodeRaised msg => raise (Exception msg)
            end
          else ret (Json.JObj [], Json.JNull)) ;;
       message <-
         (if (code =? 0)%Z then ret None
          else text <- lift (decode_strict E err) ;;
               ret (Some (PyStr.take 500 text))) ;;
       ret {| exif_file_path := file_path;
              exif_analyzed_at := completed_at;
              exif_success := (code =? 0)%Z;
              metadata := fst record;
              file_type := snd record;
              exif_error_message := message;
              exif_execution_time_seconds := execution_time |})
      (fun e =>
         match e with
         | AsyncTimeoutError =>
             now <- utcnow E ;;
             ret {| exif_file_path := file_path;
                    exif_analyzed_at := now;
                    exif_success := false;
                    metadata := Json.JObj [];
                    file_type := Json.JNull;
                    exif_error_message :=
                      Some ("Analysis timed out after "
                            +:+ PyStr.str_of_Z timeout_seconds +:+ "s");
                    exif_execution_time_seconds := inject_Z timeout_seconds |}
         | _ =>
             analyzed <- utcnow E ;;
             now <- utcnow E ;;
             ret {| exif_file_path := file_path;
                    exif_analyzed_at := analyzed;
                    exif_success := false;
                    metadata := Json.JObj [];
                    file_type := Json.JNull;
                    exif_error_message := Some (exc_str e);
                    exif_execution_time_seconds := (now - started_at)%Q |}
         end).

End Analyzers.

End ArtifactProcessor.

(** ** Vocabulary of the specification *)

Module Spec.
Import Py.

(** [p] occurs somewhere in [s]. *)
Definition Substring (p s : string) : Prop :=
  exists a b : string, s = a +:+ p +:+ b.

(** Every character of [s] satisfies [f]. *)
Fixpoint all_chars (f : ascii -> bool) (s : string) : bool :=
  match s with
  | EmptyString => true
  | String c s' => f c && all_chars f s'
  end.

(** A decimal digit, and a numeral: digits and nothing else. *)
Definition is_digit (c : ascii) : bool :=
  match PyStr.digit_value c with Some _ => true | None => false end.

Definition numeral (s : string) : Prop :=
  s <> EmptyString /\ all_chars is_digit s = true.

(** A run of blanks, and a field (no blank in it). *)
Definition blanks (s : string) : Prop := all_chars PyStr.isspace s = true.
Definition unbroken (s : string) : Prop :=
  all_chars (fun c => negb (PyStr.isspace c)) s = true.

(** A line with nothing but blanks on it. *)
Definition blank_line (l : string) : Prop := PyStr.strip l = EmptyString.

(** A line of an output file decodes, or is malformed. *)
Definition decodes (E : Env) (l : string) : bool :=
  match json_loads E (PyStr.strip l) with
  | Json.Decoded _ => PyStr.truthy (PyStr.strip l)
  | _ => false
  end.

Definition malformed (E : Env) (l : string) : bool :=
  match json_loads E (PyStr.strip l) with
  | Json.JSONDecodeError _ => PyStr.truthy (PyStr.strip l)
  | _ => false
  end.

(** A non-blank line on which the decoder raises something else than
    [JSONDecodeError]. *)
Definition raises_other (E : Env) (l : string) : bool :=
  match json_loads E (PyStr.strip l) with
  | Json.DecodeRaised _ => PyStr.truthy (PyStr.strip l)
  | _ => false
  end.

(** A non-blank line that fails to decode, for whatever reason. *)
Definition fails_to_decode (E : Env) (l : string) : bool :=
  malformed E l || raises_other E l.

(** The records of the lines that decode, in the order of the lines. *)
Fixpoint decoded_records (E : Env) (lines : list string) : list Json.value :=
  match lines with
  | [] => []
  | l :: rest =>
      if PyStr.truthy (PyStr.strip l) then
        match json_loads E (PyStr.strip l) with
        | Json.Decoded v => v :: decoded_records E rest
        | _ => decoded_records E rest
        end
      else decoded_records E rest
  end.

(** What is left of a line after its first two fields and the blanks that
    follow them. *)
Definition remainder (l : string) : string :=
  PyStr.lstrip (snd (PyStr.span_field (PyStr.lstrip
    (snd (PyStr.span_field (PyStr.lstrip l)))))).

(** The record a line of the signature table stands for, in the words of
    the specification: none for a blank line, a header, a separator, a
    line of fewer than three fields or one whose first field is not an
    integer. *)
Definition finding_of_line (line : string)
  : option ArtifactProcessor.SignatureFinding :=
  let l := PyStr.strip line in
  if negb (PyStr.truthy l) then None
  else if PyStr.startswith "DECIMAL" l then None
  else if PyStr.startswith "---" l then None
  else
    match PyStr.fields l with
    | first :: second :: _ :: _ =>
        match PyStr.int first with
        | Some n =>
            Some {| ArtifactProcessor.offset := n;
                    ArtifactProcessor.offset_hex := second;
                    ArtifactProcessor.description := remainder l |}
        | None => None
        end
    | _ => None
    end.

(** The findings of a list of lines, in their order. *)
Fixpoint findings_of_lines (lines : list string)
  : list ArtifactProcessor.SignatureFinding :=
  match lines with
  | [] => []
  | line :: rest =>
      match finding_of_line line with
      | Some f => f :: findings_of_lines rest
      | None => findings_of_lines rest
      end
  end.

(** A mapping [m] built from the outcomes [outs] of the items [keys]: an
    item that raised leaves no entry, an item that returned is found
    under its own key, and every entry is the result of an item that
    returned. *)
Definition omits_raised {V} (keys : list string)
  (outs : list (res (string * V))) (m : gmap string V) : Prop :=
  length outs = length keys
  /\ (forall i k e, keys !! i = Some k -> outs !! i = Some (Raise e) ->
        (forall j v, outs !! j <> Some (Ret (k, v))) -> m !! k = None)
  /\ (forall i k kv, keys !! i = Some k -> outs !! i = Some (Ret kv) ->
        fst kv = k /\ is_Some (m !! k))
  /\ (forall k v, m !! k = Some v ->
        exists i, keys !! i = Some k /\ outs !! i = Some (Ret (k, v))).

(** Total correctness of a call from the world [w]: it returns, it does
    not raise, and what it returns satisfies [P]. *)
Definition returns {A} (m : M A) (w : World) (P : A -> Prop) : Prop :=
  match fst (m w) with
  | Ret a => P a
  | Raise _ => False
  end.

(** Two environments that differ at most in the files they hold. *)
Definition same_but_files (E1 E2 : Env) : Prop :=
  clock E1 = clock E2
  /\ run_outcome E1 = run_outcome E2
  /\ spawn_outcome E1 = spawn_outcome E2
  /\ communicate_outcome E1 = communicate_outcome E2
  /\ kill_outcome E1 = kill_outcome E2
  /\ bytes_str E1 = bytes_str E2
  /\ cmd_str E1 = cmd_str E2
  /\ decode_replace E1 = decode_replace E2
  /\ path_join E1 = path_join E2.

(** Reading the output file at [f] fails: it cannot be opened or read, or
    decoding one of its lines raises something else than a decode error. *)
Definition parse_failure (E : Env) (f : string) : Prop :=
  (exists e, file_at E f = Unreadable e)
  \/ (exists text e, file_at E f = Content text
       /\ VolatilityRunner.parse_rows E (PyStr.readlines text) [] = Raise e).

End Spec.

(** ** Environments for the examples *)

Module Examples.
Import Py.

(** A decoder that knows a few texts. *)
Definition sample_loads (text : string) : Json.decoded :=
  if String.eqb text "{}" then Json.Decoded (Json.JObj [])
  else if String.eqb text "[]" then Json.Decoded (Json.JArr [])
  else if String.eqb text "null" then Json.Decoded Json.JNull
  else if String.eqb text "1" then Json.Decoded (Json.JInt 1)
  else Json.JSONDecodeError "Expecting value".

(** An environment in which every call answers the same way. *)
Definition env (run comm : res (Z * string * string))
  (file : string -> file_state) (dir : string -> option exc) : Env := {|
  clock := fun n => inject_Z (Z.of_nat n);
  run_outcome := fun _ => run;
  spawn_outcome := fun _ => None;
  communicate_outcome := fun _ => comm;
  kill_outcome := fun _ => None;
  file_at := file;
  mkdir_outcome := dir;
  files_below := fun _ => None;
  json_loads := sample_loads;
  decode_replace := fun b => b;
  decode_strict := fun b => Ret b;
  bytes_str := fun b => "b'" +:+ b +:+ "'";
  cmd_str := fun cmd => String.concat " " cmd;
  path_join := fun d n => d +:+ "/" +:+ n;
  path_stem := fun p => p
|}.

Definition world0 : World := {| ticks := 0; spawned := [] |}.

Definition runner : VolatilityRunner.Volatility3Runner := {|
  VolatilityRunner.memory_image_path := "/data/mem.raw";
  VolatilityRunner.output_dir := "/out";
  VolatilityRunner.timeout_seconds := 3600
|}.

Definition analyzer : ArtifactProcessor.BinwalkAnalyzer :=
  {| ArtifactProcessor.extraction_dir := "/out/binwalk" |}.

Definition disabled_settings : Settings := {|
  VOL3_PATH := "/usr/local/bin/vol";
  VOL3_TIMEOUT_SECONDS := 3600;
  BINWALK_PATH := "/usr/bin/binwalk";
  EXIFTOOL_PATH := "/usr/bin/exiftool";
  BINWALK_ENABLED := false;
  EXIFTOOL_ENABLED := false
|}.


(** A decimal literal of [n] digits. *)
Fixpoint nines (n : nat) : string :=
  match n with
  | O => EmptyString
  | S n' => String "9" (nines n')
  end.

(** A decoder that, like [json.loads], converts an integer literal with
    [int] and lets its [ValueError] through when the literal has too many
    digits. *)
Definition limited_loads (text : string) : Json.decoded :=
  if Spec.all_chars Spec.is_digit text
     && (PyStr.int_max_str_digits <? PyStr.count_digits text)%Z
  then Json.DecodeRaised
         "Exceeds the limit (4300 digits) for integer string conversion"
  else sample_loads text.

End Examples.

(** ** The constructors and the coordinator of
    [backend/core/artifact_processor.py] *)

Module Analyzers.
Import Py ArtifactProcessor.

(** *** [BinwalkAnalyzer] *)

Module Binwalk.

Section Setup.
Variable settings : Settings.
Variable E : Env.

(** [_verify_installation]: only [FileNotFoundError] is caught and
    replaced; a timeout of the probe leaves as it is. *)
Definition _verify_installation : M unit :=
  try_except
    (result <- subprocess_run E [BINWALK_PATH settings; "--help"] ;;
     let '(code, _, err) := result in
     if (code =? 0)%Z then ret tt
     else raise (Exception ("Binwalk check failed: " +:+ err)))
    (fun e =>
       match e with
       | FileNotFoundError _ =>
           raise (Exception ("Binwalk not found at " +:+ BINWALK_PATH settings
                             +:+ ". Install with: apt-get install binwalk"))
       | _ => raise e
       end).

(** [__init__]: the directory is made and the installation verified
    whether or not the tool is enabled (a disabled tool is only logged). *)
Definition __init__ (extraction_dir : string) : M BinwalkAnalyzer :=
  _ <- mkdir E extraction_dir ;;
  _ <- _verify_installation ;;
  ret {| extraction_dir := extraction_dir |}.

End Setup.

End Binwalk.

(** *** [ExiftoolAnalyzer] *)

Module Exiftool.

Section Setup.
Variable settings : Settings.
Variable E : Env.

(** [_verify_installation] *)
Definition _verify_installation : M unit :=
  try_except
    (result <- subprocess_run E [EXIFTOOL_PATH settings; "-ver"] ;;
     let '(code, _, err) := result in
     if (code =? 0)%Z then ret tt
     else raise (Exception ("Exiftool check failed: " +:+ err)))
    (fun e =>
       match e with
       | FileNotFoundError _ =>
           raise (Exception
                    ("Exiftool not found at " +:+ EXIFTOOL_PATH settings
                     +:+ ". Install with: apt-get install libimage-exiftool-perl"))
       | _ => raise e
       end).

(** [__init__]: the analyzer has no field of its own. *)
Definition __init__ : M unit := _verify_installation.

(** [extract_metadata_batch] *)
Definition extract_metadata_batch (file_paths : list string)
  (max_concurrent : Z) (w : World)
  : Batch.outcome (gmap string ExiftoolResult) * World :=
  Batch.run_concurrent
    (fun file_path => extract_metadata settings E file_path 60)
    file_paths max_concurrent w.

End Setup.

End Exiftool.

(** *** [ArtifactProcessor] *)

Module Processor.

Record ArtifactProcessor : Type := {
  binwalk : BinwalkAnalyzer
}.

(** The dictionaries [_normalize_result] builds. *)
Record NormalizedBinwalk : Type := {
  nb_success : bool;
  nb_signatures_found : list SignatureFinding;
  nb_extracted_file_count : nat;
  nb_extracted_files : list string;
  nb_error : option string;
  nb_execution_time_seconds : Q
}.

Record NormalizedExiftool : Type := {
  ne_success : bool;
  ne_file_type : Json.value;
  ne_metadata : Json.value;
  ne_error : option string;
  ne_execution_time_seconds : Q
}.

(** What [results['binwalk']] and [results['exiftool']] hold when they
    are not [None]. *)
Inductive entry : Type :=
| ErrorEntry (error : string)
| BinwalkEntry (normalized : NormalizedBinwalk)
| ExiftoolEntry (normalized : NormalizedExiftool).

(** The dictionary [process_artifact] returns; [processed_at] is the
    reading of the clock that the source prints in ISO format. *)
Record ArtifactReport : Type := {
  report_file_path : string;
  file_size_bytes : Z;
  processed_at : Q;
  binwalk_entry : option entry;
  exiftool_entry : option entry
}.

(** [_normalize_result], on the two classes of results it is given. *)
Definition _normalize_result (result : BinwalkResult + ExiftoolResult)
  : entry :=
  match result with
  | inl result =>
      BinwalkEntry
        {| nb_success := success result;
           nb_signatures_found := signatures_found result;
           nb_extracted_file_count := length (extracted_files result);
           nb_extracted_files := extracted_files result;
           nb_error := error_message result;
           nb_execution_time_seconds := execution_time_seconds result |}
  | inr result =>
      ExiftoolEntry
        {| ne_success := exif_success result;
           ne_file_type := file_type result;
           ne_metadata := metadata result;
           ne_error := exif_error_message result;
           ne_execution_time_seconds := exif_execution_time_seconds result |}
  end.

(** [results[name] = value] for the two names the tasks carry. *)
Definition set_entry (name : string) (value : entry) (results : ArtifactReport)
  : ArtifactReport :=
  if String.eqb name "binwalk" then
    {| report_file_path := report_file_path results;
       file_size_bytes := file_size_bytes results;
       processed_at := processed_at results;
       binwalk_entry := Some value;
       exiftool_entry := exiftool_entry results |}
  else if String.eqb name "exiftool" then
    {| report_file_path := report_file_path results;
       file_size_bytes := file_size_bytes results;
       processed_at := processed_at results;
       binwalk_entry := binwalk_entry results;
       exiftool_entry := Some value |}
  else results.

(** [for (name, _), result in zip(tasks, completed_tasks): ...] *)
Fixpoint map_results (names : list string)
  (completed : list (res (BinwalkResult + ExiftoolResult)))
  (results : ArtifactReport) : ArtifactReport :=
  match names, completed with
  | name :: names', Raise e :: completed' =>
      map_results names' completed' (set_entry name (ErrorEntry (exc_str e)) results)
  | name :: names', Ret result :: completed' =>
      map_results names' completed' (set_entry name (_normalize_result result) results)
  | _, _ => results
  end.

Section Coordinator.
Variable settings : Settings.
Variable E : Env.
(** [path.stat().st_size] *)
Variable st_size : string -> res Z.

(** [__init__] *)
Definition __init__ (extraction_base_dir : string) : M ArtifactProcessor :=
  analyzer <- Binwalk.__init__ settings E
                (path_join E extraction_base_dir "binwalk") ;;
  _ <- Exiftool.__init__ settings E ;;
  ret {| binwalk := analyzer |}.

(** [file_path.stat().st_size if file_path.exists() else 0]: the size,
    or what [exists()] or [stat()] raises. *)
Definition size_of (file_path : string) : res Z :=
  match exists_ E file_path with
  | Ret found => if found then st_size file_path else Ret 0%Z
  | Raise e => Raise e
  end.

(** [process_artifact]: the dictionary is built first, outside any
    [try], so what [exists()] or [stat()] raises leaves the function. *)
Definition process_artifact (self : ArtifactProcessor) (file_path : string)
  (run_binwalk run_exiftool : bool) : M ArtifactReport :=
  size <- lift (size_of file_path) ;;
  now <- utcnow E ;;
  let results :=
    {| report_file_path := file_path;
       file_size_bytes := size;
       processed_at := now;
       binwalk_entry := None;
       exiftool_entry := None |} in
  let tasks : list (string * M (BinwalkResult + ExiftoolResult)) :=
    (if run_binwalk && BINWALK_ENABLED settings then
       [("binwalk",
         result <- analyze_file settings E (binwalk self) file_path true 300 ;;
         ret (inl result))]
     else [])
    ++ (if run_exiftool && EXIFTOOL_ENABLED settings then
          [("exiftool",
            result <- extract_metadata settings E file_path 60 ;;
            ret (inr result))]
        else []) in
  fun w =>
    let (completed_tasks, w') := Batch.gather (map snd tasks) w in
    (Ret (map_results (map fst tasks) completed_tasks results), w').

End Coordinator.

End Processor.

End Analyzers.

(** ** [backend/workers/tasks.py]: the tasks that call the core *)

Module Tasks.
Import Py.

(** The storage directories of [backend/config.py] the tasks read. *)
Record Storage : Type := {
  ARTIFACT_DIR : string;
  RESULT_DIR : string
}.

(** [status.value] *)
Definition status_value (status : VolatilityRunner.PluginStatus) : string :=
  match status with
  | VolatilityRunner.PENDING => "pending"
  | VolatilityRunner.RUNNING => "running"
  | VolatilityRunner.SUCCESS => "success"
  | VolatilityRunner.FAILED => "failed"
  | VolatilityRunner.TIMEOUT => "timeout"
  end.

(** The two dictionaries [run_volatility_plugin] returns. *)
Inductive PluginTaskResult : Type :=
| PluginDone (plugin_name status : string) (row_count : nat)
    (execution_time : Q) (success : bool)
| PluginError (plugin_name status error : string).

(** What the [process_artifact] task returns: the report, or
    [{"error": str(e)}]. *)
Inductive ArtifactTaskResult : Type :=
| ArtifactDone (results : Analyzers.Processor.ArtifactReport)
| ArtifactError (error : string).

Section Workers.
Variable settings : Settings.
Variable storage : Storage.
Variable E : Env.
Variable st_size : string -> res Z.

(** [run_volatility_plugin]: the runner is given [Path(memory_image_path)];
    [SoftTimeLimitExceeded] is raised again, any other exception becomes
    a record. The event loop made around the asynchronous call runs it
    to its end. *)
Definition run_volatility_plugin (job_id plugin_name memory_image_path : string)
  : M PluginTaskResult :=
  let output_dir := path_join E (RESULT_DIR storage) job_id in
  _ <- mkdir E output_dir ;;
  try_except
    (runner <- VolatilityRunner.__init__ settings E
                 (PyStr.posix_path memory_image_path) output_dir None ;;
     result <- VolatilityRunner.execute_plugin_async settings E runner
                 plugin_name None ;;
     ret (PluginDone plugin_name
            (status_value (VolatilityRunner.status result))
            (VolatilityRunner.row_count result)
            (VolatilityRunner.execution_time_seconds result)
            (String.eqb (status_value (VolatilityRunner.status result))
               "success")))
    (fun e =>
       match e with
       | SoftTimeLimitExceeded _ => raise e
       | _ => ret (PluginError plugin_name "failed" (exc_str e))
       end).

(** [process_artifact]: the coordinator is given [Path(artifact_path)]. *)
Definition process_artifact (artifact_path job_id : string)
  : M ArtifactTaskResult :=
  let extraction_dir :=
    path_join E (path_join E (ARTIFACT_DIR storage) job_id) "postprocessed" in
  try_except
    (processor <- Analyzers.Processor.__init__ settings E extraction_dir ;;
     results <- Analyzers.Processor.process_artifact settings E st_size
                  processor (PyStr.posix_path artifact_path)
                  (BINWALK_ENABLED settings) (EXIFTOOL_ENABLED settings) ;;
     ret (ArtifactDone results))
    (fun e => ret (ArtifactError (exc_str e))).

End Workers.

End Tasks.

(** ** More vocabulary and environments for the properties of the
    remaining code *)

Module Terms.
Import Py.

(** Later readings of the clock are not earlier. *)
Definition clock_monotone (E : Env) : Prop :=
  forall n m : nat, n <= m -> (clock E n <= clock E m)%Q.

(** The command line of a plugin, as [_build_command] lays it out. *)
Definition plugin_command (settings : Settings)
  (self : VolatilityRunner.Volatility3Runner) (plugin_name : string)
  (extra_args : option (list string)) : list string :=
  [VOL3_PATH settings; "-f"; VolatilityRunner.memory_image_path self;
   "-r"; "json"; plugin_name]
  ++ match extra_args with Some args => args | None => [] end.

(** The directory [analyze_file] extracts the files of an artifact to. *)
Definition extract_dir_of (E : Env) (self : ArtifactProcessor.BinwalkAnalyzer)
  (file_path : string) : string :=
  path_join E (ArtifactProcessor.extraction_dir self)
    (path_stem E file_path +:+ "_binwalk").

(** The same text with Windows line ends: a CR before every LF. *)
Fixpoint crlf (s : string) : string :=
  match s with
  | EmptyString => EmptyString
  | String c s' =>
      if Ascii.eqb c PyStr.LF then String PyStr.CR (String PyStr.LF (crlf s'))
      else String c (crlf s')
  end.

(** Lines of which all but the last end with a CR. *)
Fixpoint cr_but_last (lines : list string) : list string :=
  match lines with
  | [] => []
  | l :: rest =>
      match rest with
      | [] => [l]
      | _ => (l +:+ String PyStr.CR EmptyString) :: cr_but_last rest
      end
  end.

(** The command lines of the two analyzers. *)
Definition binwalk_command (settings : Settings) (E : Env)
  (self : ArtifactProcessor.BinwalkAnalyzer) (file_path : string)
  (extract : bool) : list string :=
  [BINWALK_PATH settings]
  ++ (if extract then ["-e"; "-C"; extract_dir_of E self file_path] else [])
  ++ [file_path].

Definition exiftool_command (settings : Settings) (file_path : string)
  : list string :=
  [EXIFTOOL_PATH settings; "-json"; "-g"; "-a"; "-s"; file_path].

(** The file type [extract_metadata] reads off a metadata object. *)
Definition file_type_in (members : list (string * Json.value)) : Json.value :=
  if Json.truthy (Json.get "FileType" members)
  then Json.get "FileType" members
  else Json.get "MIMEType" members.

(** An exception other than [subprocess.TimeoutExpired]. *)
Definition not_timeout_expired (e : exc) : Prop :=
  match e with
  | TimeoutExpired _ _ => False
  | _ => True
  end.

(** An environment given by what each command and each path answers. *)
Definition env_of (run : list string -> res (Z * string * string))
  (spawn : list string -> option exc)
  (comm : list string -> res (Z * string * string))
  (kill : list string -> option exc)
  (file : string -> file_state) (dir : string -> option exc)
  (loads : string -> Json.decoded) : Env := {|
  clock := fun n => inject_Z (Z.of_nat n);
  run_outcome := run;
  spawn_outcome := spawn;
  communicate_outcome := comm;
  kill_outcome := kill;
  file_at := file;
  mkdir_outcome := dir;
  files_below := fun _ => None;
  json_loads := loads;
  decode_replace := fun b => b;
  decode_strict := fun b => Ret b;
  bytes_str := fun b => "b'" +:+ b +:+ "'";
  cmd_str := fun cmd => String.concat " " cmd;
  path_join := fun d n => d +:+ "/" +:+ n;
  path_stem := fun p => p
|}.

End Terms.

(* ===================================================================== *)
(** * Part II: properties                                                 *)
(* ===================================================================== *)

(** ** Substrings, prefixes and lines *)

Module PyStrFacts.
Import Spec.

Lemma append_cons (c : ascii) (a b : string) :
  String c a +:+ b = String c (a +:+ b).
Proof. reflexivity. Qed.

Lemma append_nil_r (s : string) : s +:+ EmptyString = s.
Proof.
  induction s as [|c s IH]; [reflexivity | now rewrite append_cons, IH].
Qed.

Lemma append_assoc (a b c : string) : (a +:+ b) +:+ c = a +:+ (b +:+ c).
Proof.
  induction a as [|x a IH]; [reflexivity | now rewrite !append_cons, IH].
Qed.

(** [s.startswith(p)] holds exactly when [s] is [p] followed by
    something. *)
Lemma prefix_spec (p s : string) :
  String.prefix p s = true <-> exists b, s = p +:+ b.
Proof.
  revert s. induction p as [|x p IH]; intros s.
  - split; [intros _; exists s; reflexivity | destruct s; reflexivity].
  - destruct s as [|y s]; cbn [String.prefix].
    + split; [discriminate | intros [b Hb]; discriminate].
    + destruct (Ascii.ascii_dec x y) as [->|Hne].
      * rewrite IH. split; intros [b Hb]; exists b.
        -- now rewrite append_cons, Hb.
        -- rewrite append_cons in Hb. congruence.
      * split; [discriminate | intros [b Hb]].
        rewrite append_cons in Hb. congruence.
Qed.

Lemma contains_unfold (p s : string) :
  PyStr.contains p s
  = String.prefix p s
    || match s with
       | EmptyString => false
       | String _ s' => PyStr.contains p s'
       end.
Proof. destruct s; reflexivity. Qed.

(** [p in s] holds exactly when [p] occurs in [s]. *)
Lemma contains_spec (p s : string) :
  PyStr.contains p s = true <-> Substring p s.
Proof.
  unfold Substring. split.
  - induction s as [|c s IH]; rewrite contains_unfold, orb_true_iff.
    + intros [H | H]; [|discriminate].
      apply prefix_spec in H as [b ->]. exists EmptyString, b. reflexivity.
    + intros [H | H].
      * apply prefix_spec in H as [b ->]. exists EmptyString, b. reflexivity.
      * destruct (IH H) as (a & b & ->). exists (String c a), b. reflexivity.
  - intros (a & b & ->). induction a as [|c a IH].
    + rewrite contains_unfold, orb_true_iff. left.
      apply prefix_spec. exists b. reflexivity.
    + change (String c a +:+ p +:+ b) with (String c (a +:+ p +:+ b)).
      rewrite contains_unfold, IH. apply orb_true_r.
Qed.

Lemma contains_false (p s : string) :
  PyStr.contains p s = false <-> ~ Substring p s.
Proof.
  rewrite <- contains_spec. destruct (PyStr.contains p s); split;
    congruence.
Qed.

Lemma truthy_false (s : string) :
  PyStr.truthy s = false <-> s = EmptyString.
Proof. destruct s; simpl; split; congruence. Qed.

Lemma truthy_true (s : string) :
  PyStr.truthy s = true <-> s <> EmptyString.
Proof. destruct s; simpl; split; congruence. Qed.

(** [s[:n]] has at most [n] characters. *)
Lemma take_length (n : nat) (s : string) : String.length (PyStr.take n s) <= n.
Proof.
  revert s. induction n as [|n IH]; intros [|c s]; simpl; try lia.
  specialize (IH s). lia.
Qed.

End PyStrFacts.

(** ** Results of one plugin execution *)

Module RunnerFacts.
Import Py VolatilityRunner Spec PyStrFacts.

Ltac unfold_calls :=
  unfold bind, try_except, ret, raise, lift, lift_unit, utcnow,
    subprocess_run, create_subprocess_exec, wait_for_communicate,
    kill_and_wait, mkdir, log_spawn in *.

#[local] Arguments PyStr.take : simpl never.

Lemma scan_patterns_length patterns stderr message :
  scan_patterns patterns stderr = Some message -> String.length message <= 500.
Proof.
  induction patterns as [|p ps IH]; cbn [scan_patterns]; [discriminate|].
  destruct (PyStr.contains p stderr); [|exact IH].
  intros [= <-]. apply take_length.
Qed.

(** The extracted message never exceeds the bound of the source. *)
Lemma extract_error_message_length (stderr : option string) :
  String.length (_extract_error_message stderr) <= 500.
Proof.
  destruct stderr as [[|c s]|]; cbv beta iota delta [_extract_error_message];
    try (vm_compute; lia).
  destruct (scan_patterns error_patterns (String c s)) as [m|] eqn:Hscan.
  - exact (scan_patterns_length _ _ _ Hscan).
  - destruct (meaningful_lines (String c s));
      [vm_compute; lia | apply take_length].
Qed.

#[local] Arguments _extract_error_message : simpl never.
#[local] Arguments _parse_json_output : simpl never.

(** The parser reports the length of what it returns, and no rows when it
    returns nothing. *)
Lemma parse_json_output_count (E : Env) (f : string)
  (parsed : option (list Json.value) * nat) :
  _parse_json_output E f = Ret parsed ->
  snd parsed
  = match fst parsed with
    | Some rows => length rows
    | None => 0
    end.
Proof.
  unfold _parse_json_output, exists_.
  destruct (file_at E f) as [|e0|text|e0]; cbn beta iota;
    try (intros [= <-]; reflexivity); try discriminate.
  destruct (PyStr.readlines text) as [|l ls]; try (intros [= <-]; reflexivity).
  destruct (parse_rows E (l :: ls) []); intros [= <-]; reflexivity.
Qed.

(** The parser raises what [exists()] raises and nothing else. *)
Lemma parse_json_output_raises (E : Env) (f : string) (e : exc) :
  _parse_json_output E f = Raise e <-> exists_ E f = Raise e.
Proof.
  unfold _parse_json_output, exists_.
  destruct (file_at E f) as [|e0|text|e0]; cbn beta iota;
    try (split; discriminate);
    try (split; intros [= ->]; reflexivity).
  destruct (PyStr.readlines text) as [|l ls]; try (split; discriminate).
  destruct (parse_rows E (l :: ls) []); split; discriminate.
Qed.

(** What [exists()] raises is no timeout of a subprocess. *)
Lemma exists_raises (E : Env) (f : string) (e : exc) :
  exists_ E f = Raise e -> exists msg, e = Exception msg.
Proof.
  unfold exists_. destruct (file_at E f); try discriminate.
  intros [= <-]. eauto.
Qed.

(** Where the parser returned, [exists()] answers. *)
Lemma parse_json_output_answers (E : Env) (f : string)
  (parsed : option (list Json.value) * nat) :
  _parse_json_output E f = Ret parsed -> exists found, exists_ E f = Ret found.
Proof.
  intros Hp. destruct (exists_ E f) as [found|e] eqn:Hex; [eauto|].
  apply parse_json_output_raises in Hex. congruence.
Qed.

(** After the parser, in the body of either runner: the parser and
    [exists()] are settled together. *)
Ltac settle_parser :=
  let pd := fresh "pd" in
  let rc := fresh "rc" in
  let e := fresh "e" in
  let Hp := fresh "Hp" in
  let found := fresh "found" in
  let Hfound := fresh "Hfound" in
  match goal with
  | |- context [_parse_json_output ?E ?f] =>
      destruct (_parse_json_output E f) as [[pd rc]|e] eqn:Hp;
      [ destruct (parse_json_output_answers E f _ Hp) as [found Hfound];
        rewrite ?Hfound
      | ]
  end.

(** The synchronous runner never raises, and it reports [SUCCESS] exactly
    for exit code 0 with parsed rows, then without an error message. *)
Lemma execute_plugin_success (settings : Settings) (E : Env)
  (self : Volatility3Runner) (plugin_name : string)
  (extra_args : option (list string)) (w : World) :
  returns (execute_plugin settings E self plugin_name extra_args) w
    (fun r => status r = SUCCESS ->
       returncode r = 0%Z
       /\ (exists rows, parsed_data r = Some rows)
       /\ error_message r = None).
Proof.
  unfold returns, execute_plugin. unfold_calls. simpl.
  destruct (run_outcome E _) as [[[code out] err]|e]; simpl.
  - settle_parser; simpl.
    + destruct (code =? 0)%Z eqn:Hc, pd; simpl; try discriminate.
      intros _. apply Z.eqb_eq in Hc. eauto.
    + destruct e; simpl; discriminate.
  - destruct e; simpl; discriminate.
Qed.

(** C1. The asynchronous runner derives the status from the exit code
    alone: when the process ends with exit code 0 and left no output file,
    the result is [SUCCESS] with absent parsed data, which the synchronous
    runner reports as [FAILED]. *)
Theorem async_success_without_parsed_data (settings : Settings) (E : Env)
  (self : Volatility3Runner) (plugin_name : string)
  (extra_args : option (list string)) (w : World) (out err : string) :
  let f := output_file_of E self plugin_name in
  let cmd := _build_command settings self plugin_name f extra_args in
  spawn_outcome E cmd = None ->
  communicate_outcome E cmd = Ret (0%Z, out, err) ->
  run_outcome E cmd = Ret (0%Z, out, err) ->
  file_at E f = Missing ->
  returns (execute_plugin_async settings E self plugin_name extra_args) w
    (fun r => status r = SUCCESS /\ parsed_data r = None)
  /\ returns (execute_plugin settings E self plugin_name extra_args) w
       (fun r => status r = FAILED /\ parsed_data r = None).
Proof.
  intros f cmd Hspawn Hcomm Hrun Hfile. subst f cmd.
  unfold returns, execute_plugin_async, execute_plugin. unfold_calls. simpl.
  rewrite Hspawn, Hcomm, Hrun. simpl.
  unfold _parse_json_output, exists_. rewrite Hfile. simpl. auto.
Qed.

Lemma async_success_without_parsed_data_witness :
  returns (execute_plugin_async default_settings
             (Examples.env (Ret (0%Z, "", "")) (Ret (0%Z, "", ""))
                (fun _ => Missing) (fun _ => None))
             Examples.runner "windows.pslist" None) Examples.world0
    (fun r => status r = SUCCESS /\ parsed_data r = None).
Proof.
  apply (async_success_without_parsed_data default_settings
           (Examples.env (Ret (0%Z, "", "")) (Ret (0%Z, "", ""))
              (fun _ => Missing) (fun _ => None))
           Examples.runner "windows.pslist" None Examples.world0 "" "");
    reflexivity.
Defined.

(** C2. A result with status [TIMEOUT], of the synchronous or of the
    asynchronous runner, has no parsed data, the configured timeout as its
    execution time and the return code -1; both runners return a result
    in every world. *)
Theorem timeout_result_shape (settings : Settings) (E : Env)
  (self : Volatility3Runner) (plugin_name : string)
  (extra_args : option (list string)) (w : World) :
  let timed_out r :=
    status r = TIMEOUT ->
    parsed_data r = None
    /\ execution_time_seconds r = inject_Z (timeout_seconds self)
    /\ returncode r = (-1)%Z in
  returns (execute_plugin settings E self plugin_name extra_args) w timed_out
  /\ returns (execute_plugin_async settings E self plugin_name extra_args) w
       timed_out.
Proof.
  intros timed_out. subst timed_out. split.
  - unfold returns, execute_plugin. unfold_calls. simpl.
    destruct (run_outcome E _) as [[[code out] err]|e]; simpl.
    + settle_parser; simpl.
      * destruct (code =? 0)%Z, pd; simpl; discriminate.
      * destruct e; simpl; try discriminate. auto.
    + destruct e; simpl; try discriminate. auto.
  - unfold returns, execute_plugin_async. unfold_calls. simpl.
    destruct (spawn_outcome E _) as [e|]; simpl.
    { destruct e; simpl; try discriminate. auto. }
    destruct (communicate_outcome E _) as [[[code out] err]|e]; simpl.
    + settle_parser; simpl.
      * destruct (code =? 0)%Z; simpl; discriminate.
      * destruct e; simpl; try discriminate. auto.
    + destruct e; simpl; try discriminate; auto.
      destruct (kill_outcome E _) as [e|]; simpl; auto.
      destruct e; simpl; try discriminate; auto.
Qed.

Lemma timeout_result_shape_witness :
  let E := Examples.env (Raise (TimeoutExpired "timed out" None))
             (Raise AsyncTimeoutError) (fun _ => Missing) (fun _ => None) in
  returns (execute_plugin default_settings E Examples.runner "windows.pslist" None)
    Examples.world0
    (fun r => status r = TIMEOUT /\ parsed_data r = None
              /\ execution_time_seconds r = inject_Z 3600
              /\ returncode r = (-1)%Z)
  /\ returns (execute_plugin_async default_settings E Examples.runner
                "windows.pslist" None) Examples.world0
       (fun r => status r = TIMEOUT /\ parsed_data r = None
                 /\ execution_time_seconds r = inject_Z 3600
                 /\ returncode r = (-1)%Z).
Proof.
  intros E.
  pose proof (timeout_result_shape default_settings E Examples.runner
                "windows.pslist" None Examples.world0) as [Hs Ha].
  split.
  - revert Hs. unfold returns. vm_compute. intros H.
    split; [reflexivity | exact (H eq_refl)].
  - revert Ha. unfold returns. vm_compute. intros H.
    split; [reflexivity | exact (H eq_refl)].
Defined.





Lemma readlines_nil (text : string) :
  PyStr.readlines text = [] -> text = EmptyString.
Proof.
  destruct text as [|c s]; [reflexivity|]. cbn [PyStr.readlines].
  destruct (Ascii.eqb c PyStr.LF); [discriminate|].
  destruct (Ascii.eqb c PyStr.CR).
  - destruct s as [|c' s']; [discriminate|].
    destruct (Ascii.eqb c' PyStr.LF); discriminate.
  - destruct (PyStr.readlines s); discriminate.
Qed.

(** A missing, an empty and an unreadable output file all parse to
    nothing. *)
Lemma parse_json_output_nothing (E : Env) (f : string) :
  file_at E f = Missing
  \/ (exists text, file_at E f = Content text /\ PyStr.readlines text = [])
  \/ parse_failure E f ->
  _parse_json_output E f = Ret (None, 0).
Proof.
  unfold _parse_json_output, exists_, parse_failure.
  intros [H | [(text & H & Hl) | [(e & H) | (text & e & H & Hr)]]];
    rewrite H; try reflexivity.
  - rewrite Hl. reflexivity.
  - revert Hr. destruct (PyStr.readlines text); [reflexivity|].
    intros ->. reflexivity.
Qed.

(** C10. When the process ends with exit code 0 and the output file is
    missing or holds no line, the parser returns nothing with a count of
    0 and the synchronous runner reports [FAILED]; and the result for an
    empty file is the one for a file whose parsing failed. *)
Theorem empty_output_reported_failed (settings : Settings) (E : Env)
  (self : Volatility3Runner) (plugin_name : string)
  (extra_args : option (list string)) (w : World) (out err : string) :
  let f := output_file_of E self plugin_name in
  let cmd := _build_command settings self plugin_name f extra_args in
  run_outcome E cmd = Ret (0%Z, out, err) ->
  file_at E f = Missing
  \/ (exists text, file_at E f = Content text /\ PyStr.readlines text = []) ->
  _parse_json_output E f = Ret (None, 0)
  /\ returns (execute_plugin settings E self plugin_name extra_args) w
       (fun r => status r = FAILED /\ parsed_data r = None /\ row_count r = 0)
  /\ (forall E' : Env,
        same_but_files E E' ->
        (exists text, file_at E f = Content text /\ PyStr.readlines text = []) ->
        parse_failure E' f ->
        execute_plugin settings E' self plugin_name extra_args w
        = execute_plugin settings E self plugin_name extra_args w).
Proof.
  intros f cmd Hrun Hfile.
  assert (Hparse : _parse_json_output E f = Ret (None, 0)).
  { apply parse_json_output_nothing. tauto. }
  split; [exact Hparse|]. split.
  - subst f cmd. unfold returns, execute_plugin. unfold_calls. simpl.
    rewrite Hrun. simpl. rewrite Hparse. simpl.
    destruct (parse_json_output_answers _ _ _ Hparse) as [found ->].
    simpl. auto.
  - intros E' (Hclock & Hro & _ & _ & _ & Hbytes & _ & _ & Hpath) Hempty Hfail.
    assert (Hof : output_file_of E' self plugin_name = f).
    { unfold f, output_file_of. rewrite Hpath. reflexivity. }
    assert (Hparse' : _parse_json_output E' f = Ret (None, 0)).
    { apply parse_json_output_nothing. tauto. }
    assert (Hex : exists_ E' f = exists_ E f).
    { unfold exists_. destruct Hempty as (text & -> & _).
      destruct Hfail as [(e & ->) | (t & e & -> & _)]; reflexivity. }
    unfold execute_plugin. rewrite Hof. fold f.
    unfold utcnow, subprocess_run, captured_str.
    rewrite <- Hclock, <- Hro, <- Hbytes, Hparse', Hparse, Hex. reflexivity.
Qed.

Lemma empty_output_reported_failed_witness :
  let E := Examples.env (Ret (0%Z, "", "")) (Ret (0%Z, "", ""))
             (fun _ => Content "") (fun _ => None) in
  let E' := Examples.env (Ret (0%Z, "", "")) (Ret (0%Z, "", ""))
              (fun _ => Unreadable (Exception "Permission denied"))
              (fun _ => None) in
  returns (execute_plugin default_settings E Examples.runner "windows.pslist" None)
    Examples.world0
    (fun r => status r = FAILED /\ parsed_data r = None /\ row_count r = 0)
  /\ execute_plugin default_settings E' Examples.runner "windows.pslist" None
       Examples.world0
     = execute_plugin default_settings E Examples.runner "windows.pslist" None
         Examples.world0.
Proof.
  intros E E'.
  destruct (empty_output_reported_failed default_settings E Examples.runner
              "windows.pslist" None Examples.world0 "" "") as (_ & Hr & Heq).
  - reflexivity.
  - right. exists "". split; reflexivity.
  - split; [exact Hr|]. apply Heq.
    + repeat split.
    + exists "". split; reflexivity.
    + left. exists (Exception "Permission denied"). reflexivity.
Defined.

End RunnerFacts.

(** ** The parsers of the plugin runner *)

Module ParserFacts.
Import Py VolatilityRunner Spec PyStrFacts.

#[local] Arguments PyStr.take : simpl never.
#[local] Arguments PyStr.strip : simpl never.

Section Decoder.
Variable E : Env.

(** The loop appends the records of the lines that decode when no line
    raises anything but a decode error. *)
Lemma parse_rows_decoded (lines : list string) (acc : list Json.value) :
  Forall (fun l => blank_line l \/ decodes E l = true \/ malformed E l = true)
    lines ->
  parse_rows E lines acc = Ret (acc ++ decoded_records E lines).
Proof.
  intros H. revert acc. induction H as [|l lines Hl _ IH]; intros acc.
  - simpl. now rewrite app_nil_r.
  - cbn [parse_rows decoded_records].
    unfold blank_line, decodes, malformed in Hl.
    destruct (PyStr.truthy (PyStr.strip l)) eqn:Ht.
    + destruct (json_loads E (PyStr.strip l)) as [v|msg|msg].
      * rewrite IH, <- app_assoc. reflexivity.
      * apply IH.
      * destruct Hl as [Hl | [Hl | Hl]]; try discriminate.
        apply truthy_false in Hl. congruence.
    + apply IH.
Qed.

Lemma decoded_records_length (lines : list string) :
  length (decoded_records E lines) = length (List.filter (decodes E) lines).
Proof.
  induction lines as [|l lines IH]; [reflexivity|].
  cbn [decoded_records List.filter]. unfold decodes at 1.
  destruct (PyStr.truthy (PyStr.strip l));
    destruct (json_loads E (PyStr.strip l)); simpl; congruence.
Qed.

(** A line on which the decoder raises something else ends the parse
    with nothing. *)
Lemma parse_rows_raised (before after : list string) (l msg : string)
  (acc : list Json.value) :
  Forall (fun l => blank_line l \/ decodes E l = true \/ malformed E l = true)
    before ->
  PyStr.strip l <> EmptyString ->
  json_loads E (PyStr.strip l) = Json.DecodeRaised msg ->
  parse_rows E (before ++ l :: after) acc = Raise (Exception msg).
Proof.
  intros H Hne Hl. revert acc. induction H as [|x before Hx _ IH]; intros acc.
  - cbn [app parse_rows]. apply truthy_true in Hne. now rewrite Hne, Hl.
  - cbn [app parse_rows]. unfold blank_line, decodes, malformed in Hx.
    destruct (PyStr.truthy (PyStr.strip x)) eqn:Ht; [|apply IH].
    destruct (json_loads E (PyStr.strip x)); try apply IH.
    destruct Hx as [Hx | [Hx | Hx]]; try discriminate.
    apply truthy_false in Hx. congruence.
Qed.

(** One line on which the decoder raises something else is enough to
    end the loop with that exception, wherever the line stands. *)
Lemma parse_rows_other (lines : list string) (acc : list Json.value) :
  Exists (fun l => raises_other E l = true) lines ->
  exists e, parse_rows E lines acc = Raise e.
Proof.
  intros H. revert acc. induction H as [l lines Hl | l lines _ IH]; intros acc.
  - cbn [parse_rows]. unfold raises_other in Hl.
    destruct (json_loads E (PyStr.strip l)); try discriminate.
    rewrite Hl. eauto.
  - cbn [parse_rows].
    destruct (PyStr.truthy (PyStr.strip l)); [|apply IH].
    destruct (json_loads E (PyStr.strip l)); try apply IH. eauto.
Qed.

End Decoder.

(** C4, as stated, fails: a line can fail to decode with another
    exception than [JSONDecodeError], as an integer literal of 4301
    digits does, and then the record of the valid line before it is not
    returned. *)
Lemma jsonl_parser_counterexample :
  ~ (forall (E : Env) (f text : string),
       let lines := PyStr.readlines text in
       let K := length (List.filter (decodes E) lines) in
       let M := length (List.filter (fails_to_decode E) lines) in
       file_at E f = Content text ->
       1 <= K + M ->
       _parse_json_output E f = Ret (Some (decoded_records E lines), K)).
Proof.
  intros H.
  specialize (H (Terms.env_of (fun _ => Ret (0%Z, "", "")) (fun _ => None)
                   (fun _ => Ret (0%Z, "", "")) (fun _ => None)
                   (fun _ => Content ("{}" +:+ String PyStr.LF
                                        (Examples.nines 4301)))
                   (fun _ => None) Examples.limited_loads)
                "/out/windows_pslist.json"
                ("{}" +:+ String PyStr.LF (Examples.nines 4301))
                eq_refl).
  vm_compute in H. specialize (H (le_S _ _ (le_n 1))). discriminate.
Qed.

(** C4, amended. Of an output file with at least one line: when every
    non-blank line decodes or is rejected as malformed
    ([JSONDecodeError]), the parser returns the records of the [K] lines
    that decode, in their order, with a row count of [K], and raises
    nothing; when on some non-blank line the decoder raises anything
    else, the parser returns nothing with a count of 0, whatever the
    other lines hold. *)
Theorem jsonl_parser_keeps_valid_lines (E : Env) (f text : string) :
  let lines := PyStr.readlines text in
  let K := length (List.filter (decodes E) lines) in
  let M := length (List.filter (malformed E) lines) in
  file_at E f = Content text ->
  (Forall (fun l => blank_line l \/ decodes E l = true \/ malformed E l = true)
     lines ->
   1 <= K + M ->
   _parse_json_output E f = Ret (Some (decoded_records E lines), K)
   /\ length (decoded_records E lines) = K)
  /\ (Exists (fun l => raises_other E l = true) lines ->
      _parse_json_output E f = Ret (None, 0)).
Proof.
  intros lines K M Hfile. split.
  - intros Hlines HKM.
    assert (HK : length (decoded_records E lines) = K)
      by apply decoded_records_length.
    split; [|exact HK].
    unfold _parse_json_output, exists_. rewrite Hfile. fold lines.
    destruct lines as [|l ls] eqn:Hl.
    + subst K M. simpl in HKM. lia.
    + rewrite (parse_rows_decoded E (l :: ls) [] Hlines).
      rewrite app_nil_l, HK. reflexivity.
  - intros Hother.
    unfold _parse_json_output, exists_. rewrite Hfile. fold lines.
    destruct (parse_rows_other E lines [] Hother) as [e He].
    destruct lines as [|l ls]; [reflexivity|]. now rewrite He.
Qed.

Lemma jsonl_parser_keeps_valid_lines_witness :
  let text := "{}" +:+ String PyStr.LF ("{oops" +:+ String PyStr.LF
                ("[]" +:+ String PyStr.LF EmptyString)) in
  let E := Examples.env (Ret (0%Z, "", "")) (Ret (0%Z, "", ""))
             (fun _ => Content text) (fun _ => None) in
  _parse_json_output E "/out/windows_pslist.json"
  = Ret (Some [Json.JObj []; Json.JArr []], 2).
Proof.
  intros text E.
  destruct (jsonl_parser_keeps_valid_lines E "/out/windows_pslist.json" text)
    as [Hkeeps _].
  - reflexivity.
  - destruct Hkeeps as [H _].
    + let ls := eval vm_compute in (PyStr.readlines text) in
      change (PyStr.readlines text) with ls.
      repeat (apply List.Forall_cons;
              [first [right; left; reflexivity | right; right; reflexivity]|]).
      apply List.Forall_nil.
    + vm_compute. lia.
    + exact H.
Defined.

(** The first pattern found decides, and what is returned is the start of
    the text. *)
Lemma scan_patterns_some (patterns : list string) (s : string) :
  (exists p, In p patterns /\ Substring p s) ->
  scan_patterns patterns s = Some (PyStr.take 500 s).
Proof.
  intros (p & Hin & Hsub). apply contains_spec in Hsub.
  induction patterns as [|q qs IH]; [contradiction|].
  cbn [scan_patterns]. destruct (PyStr.contains q s) eqn:Hq; [reflexivity|].
  destruct Hin as [-> | Hin]; [congruence | exact (IH Hin)].
Qed.

Lemma scan_patterns_none (patterns : list string) (s : string) :
  (forall p, In p patterns -> ~ Substring p s) ->
  scan_patterns patterns s = None.
Proof.
  induction patterns as [|q qs IH]; intros H; [reflexivity|].
  cbn [scan_patterns].
  assert (Hq : PyStr.contains q s = false)
    by (apply contains_false, H; left; reflexivity).
  rewrite Hq. apply IH. intros p Hp. apply H. right. exact Hp.
Qed.

(** The lines kept are the stripped non-blank ones. *)
Lemma meaningful_first (lines pre post : list string) (l : string) :
  lines = pre ++ l :: post ->
  Forall blank_line pre -> ~ blank_line l ->
  exists rest,
    map PyStr.strip (List.filter (fun l => PyStr.truthy (PyStr.strip l)) lines)
    = PyStr.strip l :: rest.
Proof.
  intros -> Hpre Hl. induction Hpre as [|x pre Hx _ IH].
  - cbn [app List.filter]. apply truthy_true in Hl. rewrite Hl.
    eexists. reflexivity.
  - cbn [app List.filter]. apply truthy_false in Hx. rewrite Hx. exact IH.
Qed.

Lemma meaningful_none (lines : list string) :
  Forall blank_line lines ->
  map PyStr.strip (List.filter (fun l => PyStr.truthy (PyStr.strip l)) lines)
  = [].
Proof.
  induction 1 as [|x lines Hx _ IH]; [reflexivity|].
  cbn [List.filter]. apply truthy_false in Hx. rewrite Hx. exact IH.
Qed.

(** C5. Error-message extraction: absent or empty stderr gives
    ["Unknown error"]; a text in which a known diagnostic occurs gives the
    first 500 characters of the whole text; otherwise the first non-blank
    line, stripped, cut to 500 characters; and ["Execution failed"] when
    every line is blank. *)
Theorem extract_error_message_cases (stderr : option string) :
  (stderr = None \/ stderr = Some EmptyString ->
   _extract_error_message stderr = "Unknown error")
  /\ (forall s, stderr = Some s -> s <> EmptyString ->
      ((exists p, In p error_patterns /\ Substring p s) ->
       _extract_error_message stderr = PyStr.take 500 s)
      /\ ((forall p, In p error_patterns -> ~ Substring p s) ->
          (forall pre l post,
             PyStr.split_char PyStr.LF s = pre ++ l :: post ->
             Forall blank_line pre -> ~ blank_line l ->
             _extract_error_message stderr = PyStr.take 500 (PyStr.strip l))
          /\ (Forall blank_line (PyStr.split_char PyStr.LF s) ->
              _extract_error_message stderr = "Execution failed")))
  /\ String.length (_extract_error_message stderr) <= 500.
Proof.
  split; [|split].
  - intros [-> | ->]; reflexivity.
  - intros s -> Hne. destruct s as [|c s]; [congruence|].
    unfold _extract_error_message. split.
    + intros H. now rewrite (scan_patterns_some _ _ H).
    + intros H. rewrite (scan_patterns_none _ _ H). unfold meaningful_lines.
      split.
      * intros pre l post Hsplit Hpre Hl.
        destruct (meaningful_first _ _ _ _ Hsplit Hpre Hl) as [rest ->].
        reflexivity.
      * intros Hall. now rewrite (meaningful_none _ Hall).
  - apply RunnerFacts.extract_error_message_length.
Qed.

Lemma extract_error_message_cases_witness :
  _extract_error_message
    (Some ("warning" +:+ String PyStr.LF "No valid profile found for image"))
  = "warning" +:+ String PyStr.LF "No valid profile found for image"
  /\ _extract_error_message
       (Some (String PyStr.LF ("   boom  " +:+ String PyStr.LF "later")))
     = "boom"
  /\ _extract_error_message (Some (String PyStr.LF "  ")) = "Execution failed"
  /\ _extract_error_message (Some EmptyString) = "Unknown error".
Proof.
  split; [|split; [|split]].
  - set (s := "warning" +:+ String PyStr.LF "No valid profile found for image").
    destruct (extract_error_message_cases (Some s)) as (_ & H & _).
    destruct (H s eq_refl ltac:(discriminate)) as [H1 _].
    rewrite H1; [reflexivity|].
    exists "No valid profile found". split; [simpl; tauto|].
    exists ("warning" +:+ String PyStr.LF EmptyString), " for image".
    reflexivity.
  - set (s := String PyStr.LF ("   boom  " +:+ String PyStr.LF "later")).
    destruct (extract_error_message_cases (Some s)) as (_ & H & _).
    destruct (H s eq_refl ltac:(discriminate)) as [_ H2].
    destruct H2 as [H2 _].
    + intros p Hp. apply contains_false.
      repeat (destruct Hp as [<- | Hp]; [reflexivity|]). contradiction.
    + rewrite (H2 [EmptyString] "   boom  " ["later"]); try reflexivity.
      * repeat constructor.
      * discriminate.
  - set (s := String PyStr.LF "  ").
    destruct (extract_error_message_cases (Some s)) as (_ & H & _).
    destruct (H s eq_refl ltac:(discriminate)) as [_ H2].
    destruct H2 as [_ H2].
    + intros p Hp. apply contains_false.
      repeat (destruct Hp as [<- | Hp]; [reflexivity|]). contradiction.
    + apply H2. repeat constructor.
  - destruct (extract_error_message_cases (Some EmptyString)) as (H & _).
    apply H. right. reflexivity.
Defined.

End ParserFacts.

(** ** Profile detection *)

Module ProfileFacts.
Import Py VolatilityRunner Spec PyStrFacts.

(** The classifier answers with one of four names. *)
Lemma parse_banners_output_range (output : string) :
  In (_parse_banners_output output) ["Windows"; "Linux"; "macOS"; "Unknown"].
Proof.
  unfold _parse_banners_output.
  destruct (PyStr.contains "windows" _ || PyStr.contains "microsoft" _);
    [simpl; tauto|].
  destruct (PyStr.contains "linux" _); [simpl; tauto|].
  destruct (PyStr.contains "darwin" _ || PyStr.contains "macos" _);
    simpl; tauto.
Qed.

(** The keywords are looked for in this order in the lower-cased text. *)
Lemma parse_banners_output_ordered (output : string) :
  let text := PyStr.lower output in
  let windows := Substring "windows" text \/ Substring "microsoft" text in
  let linux := Substring "linux" text in
  let macos := Substring "darwin" text \/ Substring "macos" text in
  (windows -> _parse_banners_output output = "Windows")
  /\ (~ windows -> linux -> _parse_banners_output output = "Linux")
  /\ (~ windows -> ~ linux -> macos -> _parse_banners_output output = "macOS")
  /\ (~ windows -> ~ linux -> ~ macos ->
      _parse_banners_output output = "Unknown").
Proof.
  intros text windows linux macos. subst windows linux macos.
  unfold _parse_banners_output. fold text.
  rewrite <- !contains_spec.
  destruct (PyStr.contains "windows" text), (PyStr.contains "microsoft" text),
    (PyStr.contains "linux" text), (PyStr.contains "darwin" text),
    (PyStr.contains "macos" text); cbn [orb];
    repeat split; intros; try reflexivity; intuition congruence.
Qed.

(** C7. Profile detection classifies the lower-cased stdout by the
    keywords in their order (Windows, Linux, macOS, otherwise Unknown),
    with confidence 0.8 for a known system and 0.3 for Unknown; when the
    banner invocation raises, the answer is Unknown with confidence 0.0
    and method fallback; in every case [detect_profile] returns and does
    not raise. *)
Theorem detect_profile_classifies (settings : Settings) (E : Env)
  (memory_image_path : string) (w : World) :
  let cmd := [VOL3_PATH settings; "-f"; memory_image_path; "banners.Banners"] in
  let windows text := Substring "windows" text \/ Substring "microsoft" text in
  let linux text := Substring "linux" text in
  let macos text := Substring "darwin" text \/ Substring "macos" text in
  (forall code out err,
     spawn_outcome E cmd = None ->
     communicate_outcome E cmd = Ret (code, out, err) ->
     let text := PyStr.lower (decode_replace E out) in
     returns (detect_profile settings E memory_image_path) w
       (fun info =>
          method info = "banners"
          /\ (windows text -> os info = "Windows" /\ confidence info = (8 # 10)%Q)
          /\ (~ windows text -> linux text ->
              os info = "Linux" /\ confidence info = (8 # 10)%Q)
          /\ (~ windows text -> ~ linux text -> macos text ->
              os info = "macOS" /\ confidence info = (8 # 10)%Q)
          /\ (~ windows text -> ~ linux text -> ~ macos text ->
              os info = "Unknown" /\ confidence info = (3 # 10)%Q)))
  /\ ((exists e, spawn_outcome E cmd = Some e)
      \/ (spawn_outcome E cmd = None
          /\ exists e, communicate_outcome E cmd = Raise e) ->
      returns (detect_profile settings E memory_image_path) w
        (fun info =>
           os info = "Unknown" /\ confidence info = 0%Q
           /\ method info = "fallback"))
  /\ returns (detect_profile settings E memory_image_path) w (fun _ => True).
Proof.
  intros cmd windows linux macos. subst cmd windows linux macos.
  split; [|split].
  - intros code out err Hspawn Hcomm text.
    unfold returns, detect_profile. RunnerFacts.unfold_calls. cbn [fst].
    rewrite Hspawn. cbn [fst]. rewrite Hcomm. cbn [fst os confidence method].
    destruct (parse_banners_output_ordered (decode_replace E out))
      as (Hw & Hl & Hm & Hu). fold text in Hw, Hl, Hm, Hu.
    split; [reflexivity|].
    repeat split; intros;
      first [rewrite Hw by assumption | rewrite Hl by assumption
            | rewrite Hm by assumption | rewrite Hu by assumption];
      reflexivity.
  - intros [(e & Hspawn) | (Hspawn & e & Hcomm)];
      unfold returns, detect_profile; RunnerFacts.unfold_calls; simpl;
      rewrite Hspawn; simpl; [|rewrite Hcomm; simpl]; repeat split.
  - unfold returns, detect_profile. RunnerFacts.unfold_calls. simpl.
    destruct (spawn_outcome E _); simpl; [exact I|].
    destruct (communicate_outcome E _) as [[[code out] err]|e]; exact I.
Qed.

Lemma detect_profile_classifies_witness :
  returns (detect_profile default_settings
             (Examples.env (Ret (0%Z, "", ""))
                (Ret (0%Z, "Microsoft Windows 10", ""))
                (fun _ => Missing) (fun _ => None))
             "/data/mem.raw") Examples.world0
    (fun info => os info = "Windows" /\ confidence info = (8 # 10)%Q)
  /\ returns (detect_profile default_settings
                (Examples.env (Ret (0%Z, "", "")) (Raise AsyncTimeoutError)
                   (fun _ => Missing) (fun _ => None))
                "/data/mem.raw") Examples.world0
       (fun info => os info = "Unknown" /\ confidence info = 0%Q
                    /\ method info = "fallback").
Proof.
  split.
  - pose proof (detect_profile_classifies default_settings
                  (Examples.env (Ret (0%Z, "", ""))
                     (Ret (0%Z, "Microsoft Windows 10", ""))
                     (fun _ => Missing) (fun _ => None))
                  "/data/mem.raw" Examples.world0) as (H & _ & _).
    specialize (H 0%Z "Microsoft Windows 10" "" eq_refl eq_refl).
    cbv zeta in H. unfold returns in *.
    destruct (fst _) as [info|]; [|exact H].
    destruct H as (_ & H & _). apply H. left.
    exists "microsoft ", " 10". reflexivity.
  - pose proof (detect_profile_classifies default_settings
                  (Examples.env (Ret (0%Z, "", "")) (Raise AsyncTimeoutError)
                     (fun _ => Missing) (fun _ => None))
                  "/data/mem.raw" Examples.world0) as (_ & H & _).
    apply H. right. split; [reflexivity|].
    exists AsyncTimeoutError. reflexivity.
Defined.

End ProfileFacts.

(** ** The analyzers of extracted artifacts *)

Module ArtifactFacts.
Import Py ArtifactProcessor Spec.

(** C9. With the tool disabled by configuration, [analyze_file] and
    [extract_metadata] return at once a result that is not successful,
    whose message says that the tool is disabled and whose execution time
    is 0.0, and no subprocess is spawned. *)
Theorem disabled_tool_short_circuit (settings : Settings) (E : Env)
  (self : BinwalkAnalyzer) (file_path : string) (extract : bool)
  (timeout_seconds : Z) (w : World) :
  (BINWALK_ENABLED settings = false ->
   exists r w',
     analyze_file settings E self file_path extract timeout_seconds w
     = (Ret r, w')
     /\ success r = false
     /\ error_message r = Some "Binwalk is disabled"
     /\ execution_time_seconds r = 0%Q
     /\ signatures_found r = [] /\ extracted_files r = []
     /\ spawned w' = spawned w)
  /\ (EXIFTOOL_ENABLED settings = false ->
      exists r w',
        extract_metadata settings E file_path timeout_seconds w = (Ret r, w')
        /\ exif_success r = false
        /\ exif_error_message r = Some "Exiftool is disabled"
        /\ exif_execution_time_seconds r = 0%Q
        /\ metadata r = Json.JObj []
        /\ spawned w' = spawned w).
Proof.
  split; intros Hoff.
  - unfold analyze_file. rewrite Hoff. cbn [negb].
    RunnerFacts.unfold_calls. eexists _, _. repeat split.
  - unfold extract_metadata. rewrite Hoff. cbn [negb].
    RunnerFacts.unfold_calls. eexists _, _. repeat split.
Qed.

Lemma disabled_tool_short_circuit_witness :
  let E := Examples.env (Ret (0%Z, "", "")) (Ret (0%Z, "", ""))
             (fun _ => Missing) (fun _ => None) in
  (exists r w',
     analyze_file Examples.disabled_settings E Examples.analyzer
       "/out/artifacts/dump.bin" true 300 Examples.world0 = (Ret r, w')
     /\ success r = false /\ spawned w' = [])
  /\ (exists r w',
        extract_metadata Examples.disabled_settings E
          "/out/artifacts/dump.bin" 60 Examples.world0 = (Ret r, w')
        /\ exif_success r = false /\ spawned w' = []).
Proof.
  intros E.
  destruct (disabled_tool_short_circuit Examples.disabled_settings E
              Examples.analyzer "/out/artifacts/dump.bin" true 300
              Examples.world0) as [Hb _].
  destruct (disabled_tool_short_circuit Examples.disabled_settings E
              Examples.analyzer "/out/artifacts/dump.bin" true 60
              Examples.world0) as [_ He].
  destruct (Hb eq_refl) as (r & w' & Hr & Hs & _ & _ & _ & _ & Hw).
  destruct (He eq_refl) as (r2 & w2 & Hr2 & Hs2 & _ & _ & _ & Hw2).
  split; [exists r, w' | exists r2, w2]; auto.
Defined.

End ArtifactFacts.

(** ** The signature table of the scanner *)

Module SignatureTableFacts.
Import Py ArtifactProcessor Spec PyStrFacts.

#[local] Arguments PyStr.startswith : simpl never.
#[local] Arguments PyStr.strip : simpl never.
#[local] Arguments PyStr.int : simpl never.

(** *** Leading blanks and fields *)

Lemma lstrip_nonblank (s : string) (c : ascii) (t : string) :
  PyStr.lstrip s = String c t -> PyStr.isspace c = false.
Proof.
  induction s as [|x s IH]; cbn [PyStr.lstrip]; [discriminate|].
  destruct (PyStr.isspace x) eqn:Hx; [exact IH|].
  intros [= <- _]. exact Hx.
Qed.

Lemma lstrip_fixed (c : ascii) (t : string) :
  PyStr.isspace c = false -> PyStr.lstrip (String c t) = String c t.
Proof. intros H. cbn [PyStr.lstrip]. now rewrite H. Qed.

Lemma lstrip_length (s : string) :
  String.length (PyStr.lstrip s) <= String.length s.
Proof.
  induction s as [|x s IH]; cbn [PyStr.lstrip]; [lia|].
  destruct (PyStr.isspace x); cbn [String.length] in *; lia.
Qed.

(** A text is a run of blanks followed by what [lstrip] leaves. *)
Lemma lstrip_decompose (s : string) :
  exists w, s = w +:+ PyStr.lstrip s /\ blanks w.
Proof.
  induction s as [|x s (w & Hw & Hb)].
  - exists EmptyString. split; reflexivity.
  - cbn [PyStr.lstrip]. destruct (PyStr.isspace x) eqn:Hx.
    + exists (String x w). split.
      * rewrite append_cons. congruence.
      * unfold blanks in *. cbn [all_chars]. now rewrite Hx, Hb.
    + exists EmptyString. split; reflexivity.
Qed.

(** A text is its first field followed by the rest, which is empty or
    begins with a blank. *)
Lemma span_field_spec (s f r : string) :
  PyStr.span_field s = (f, r) ->
  s = f +:+ r
  /\ unbroken f
  /\ String.length s = String.length f + String.length r
  /\ match r with
     | EmptyString => True
     | String c _ => PyStr.isspace c = true
     end.
Proof.
  revert f r. induction s as [|x s IH]; intros f r; cbn [PyStr.span_field].
  - intros [= <- <-]. repeat split.
  - destruct (PyStr.isspace x) eqn:Hx.
    + intros [= <- <-]. repeat split. exact Hx.
    + destruct (PyStr.span_field s) as [f' r'].
      intros [= <- <-]. destruct (IH f' r' eq_refl) as (Hs & Hf & Hlen & Hr).
      repeat split.
      * rewrite append_cons. congruence.
      * unfold unbroken in *. cbn [all_chars]. now rewrite Hx, Hf.
      * cbn [String.length]. lia.
      * exact Hr.
Qed.

Lemma span_field_nonblank (c : ascii) (t f r : string) :
  PyStr.isspace c = false ->
  PyStr.span_field (String c t) = (f, r) ->
  f <> EmptyString /\ String.length r < String.length (String c t).
Proof.
  intros Hc. cbn [PyStr.span_field]. rewrite Hc.
  destruct (PyStr.span_field t) as [f' r'] eqn:Ht.
  intros [= <- <-]. split; [discriminate|].
  destruct (span_field_spec _ _ _ Ht) as (_ & _ & Hlen & _).
  cbn [String.length]. lia.
Qed.

Lemma split_ws_eq (n : nat) (s : string) :
  PyStr.split_ws n s
  = match PyStr.lstrip s with
    | EmptyString => []
    | String c t =>
        match n with
        | O => [String c t]
        | S m =>
            let (f, r) := PyStr.span_field (String c t) in
            f :: PyStr.split_ws m r
        end
    end.
Proof. destruct n; reflexivity. Qed.

(** A bound at least as large as the text changes nothing. *)
Lemma split_ws_fuel (n m : nat) (s : string) :
  String.length s <= n -> String.length s <= m ->
  PyStr.split_ws n s = PyStr.split_ws m s.
Proof.
  revert m s. induction n as [|n IH]; intros m s Hn Hm.
  - destruct s; [|cbn [String.length] in Hn; lia].
    rewrite !split_ws_eq. reflexivity.
  - rewrite (split_ws_eq (S n)), (split_ws_eq m).
    pose proof (lstrip_length s) as Hl.
    destruct (PyStr.lstrip s) as [|c t] eqn:Hs; [reflexivity|].
    destruct m as [|m]; [cbn [String.length] in Hl; lia|].
    destruct (PyStr.span_field (String c t)) as [f r] eqn:Hf.
    destruct (span_field_nonblank c t f r (lstrip_nonblank _ _ _ Hs) Hf)
      as [_ Hlt].
    f_equal. apply IH; lia.
Qed.

Lemma fields_nil (s : string) :
  PyStr.lstrip s = EmptyString -> PyStr.fields s = [].
Proof. intros H. unfold PyStr.fields. now rewrite split_ws_eq, H. Qed.

Lemma fields_cons (s : string) (c : ascii) (t f r : string) :
  PyStr.lstrip s = String c t ->
  PyStr.span_field (String c t) = (f, r) ->
  PyStr.fields s = f :: PyStr.fields r.
Proof.
  intros Hs Hf. unfold PyStr.fields. rewrite split_ws_eq, Hs.
  pose proof (lstrip_length s) as Hl. rewrite Hs in Hl.
  destruct (span_field_nonblank c t f r (lstrip_nonblank _ _ _ Hs) Hf)
    as [_ Hlt].
  destruct (String.length s) as [|n] eqn:Hn;
    [cbn [String.length] in Hl; lia|].
  rewrite Hf. f_equal. apply split_ws_fuel; lia.
Qed.

(** What [split(None, 2)] returns, read against the fields of the line. *)
Lemma split_ws_2_fields (l : string) :
  match PyStr.split_ws 2 l with
  | [] => PyStr.fields l = []
  | [a] => PyStr.fields l = [a]
  | [a; b] => PyStr.fields l = [a; b]
  | [a; b; c] =>
      c = remainder l /\ exists d rest, PyStr.fields l = a :: b :: d :: rest
  | _ => False
  end.
Proof.
  unfold remainder. rewrite split_ws_eq.
  destruct (PyStr.lstrip l) as [|c1 t1] eqn:H1; [now apply fields_nil|].
  destruct (PyStr.span_field (String c1 t1)) as [f1 r1] eqn:S1.
  rewrite (fields_cons _ _ _ _ _ H1 S1). cbn [snd].
  rewrite split_ws_eq.
  destruct (PyStr.lstrip r1) as [|c2 t2] eqn:H2;
    [now rewrite (fields_nil _ H2)|].
  destruct (PyStr.span_field (String c2 t2)) as [f2 r2] eqn:S2.
  rewrite (fields_cons _ _ _ _ _ H2 S2). cbn [snd].
  rewrite split_ws_eq.
  destruct (PyStr.lstrip r2) as [|c3 t3] eqn:H3;
    [now rewrite (fields_nil _ H3)|].
  split; [reflexivity|].
  destruct (PyStr.span_field (String c3 t3)) as [f3 r3] eqn:S3.
  rewrite (fields_cons _ _ _ _ _ H3 S3). eauto.
Qed.

(** *** The loop *)

(** One turn of the loop adds the finding of the line, if it has one. *)
Lemma parse_lines_step (line : string) (rest : list string)
  (acc : list SignatureFinding) :
  parse_lines (line :: rest) acc
  = parse_lines rest (acc ++ option_list (finding_of_line line)).
Proof.
  cbn [parse_lines]. unfold finding_of_line. cbv zeta.
  set (l := PyStr.strip line).
  destruct (PyStr.truthy l); cbn [negb orb option_list];
    [|now rewrite app_nil_r].
  destruct (PyStr.startswith "DECIMAL" l); cbn [orb option_list];
    [now rewrite app_nil_r|].
  destruct (PyStr.startswith "---" l); cbn [option_list];
    [now rewrite app_nil_r|].
  pose proof (split_ws_2_fields l) as H.
  destruct (PyStr.split_ws 2 l) as [|a [|b [|c [|d parts]]]];
    try contradiction;
    try (rewrite H; cbn [option_list]; now rewrite app_nil_r).
  destruct H as (-> & d & more & ->). cbn [length Nat.leb nth].
  destruct (PyStr.int a); cbn [option_list];
    [reflexivity | now rewrite app_nil_r].
Qed.

Lemma parse_lines_findings (lines : list string) (acc : list SignatureFinding) :
  parse_lines lines acc = acc ++ findings_of_lines lines.
Proof.
  revert acc. induction lines as [|line lines IH]; intros acc.
  - cbn. now rewrite app_nil_r.
  - rewrite parse_lines_step, IH. cbn [findings_of_lines].
    destruct (finding_of_line line); cbn [option_list];
      [now rewrite <- app_assoc | now rewrite app_nil_r].
Qed.

(** *** A finding and the text of its line *)

Lemma rstrip_head (c : ascii) (t : string) :
  PyStr.rstrip (String c t) = EmptyString
  \/ exists t', PyStr.rstrip (String c t) = String c t'.
Proof.
  cbn [PyStr.rstrip]. destruct (PyStr.rstrip t).
  - destruct (PyStr.isspace c); eauto.
  - eauto.
Qed.

(** A stripped line does not begin with a blank. *)
Lemma strip_nonblank (s : string) (c : ascii) (t : string) :
  PyStr.strip s = String c t -> PyStr.isspace c = false.
Proof.
  unfold PyStr.strip. destruct (PyStr.lstrip s) as [|x s'] eqn:Hs.
  - discriminate.
  - apply lstrip_nonblank in Hs.
    destruct (rstrip_head x s') as [-> | (t' & ->)]; [discriminate|].
    intros [= <- _]. exact Hs.
Qed.

Lemma blanks_before_nonblank (w r : string) (c c' : ascii) (t t' : string) :
  r = w +:+ String c t -> r = String c' t' ->
  PyStr.isspace c = false -> PyStr.isspace c' = true ->
  w <> EmptyString.
Proof.
  intros -> H Hc Hc' ->. change (String c t = String c' t') in H.
  injection H as -> _. congruence.
Qed.

(** The record of a line consists of its first three pieces: a field read
    as an integer, a second field, and what follows, each separated from
    the next by a run of blanks. *)
Lemma finding_of_line_pieces (line : string) (sf : SignatureFinding) :
  finding_of_line line = Some sf ->
  exists first w1 w2,
    PyStr.strip line
    = first +:+ w1 +:+ offset_hex sf +:+ w2 +:+ description sf
    /\ PyStr.int first = Some (offset sf)
    /\ unbroken first /\ first <> EmptyString
    /\ blanks w1 /\ w1 <> EmptyString
    /\ unbroken (offset_hex sf) /\ offset_hex sf <> EmptyString
    /\ blanks w2 /\ w2 <> EmptyString
    /\ description sf <> EmptyString
    /\ PyStr.lstrip (description sf) = description sf.
Proof.
  unfold finding_of_line, remainder. cbv zeta.
  destruct (PyStr.strip line) as [|c1 t1] eqn:Hl; [discriminate|].
  pose proof (strip_nonblank _ _ _ Hl) as Hc1.
  set (l := String c1 t1) in *.
  assert (H1 : PyStr.lstrip l = l) by (apply lstrip_fixed; exact Hc1).
  change (PyStr.truthy l) with true. cbn [negb].
  destruct (PyStr.startswith "DECIMAL" l); [discriminate|].
  destruct (PyStr.startswith "---" l); [discriminate|].
  rewrite H1.
  destruct (PyStr.span_field l) as [f1 r1] eqn:S1.
  rewrite (fields_cons l c1 t1 f1 r1 H1 S1). cbn [snd].
  destruct (PyStr.lstrip r1) as [|c2 t2] eqn:H2;
    [rewrite (fields_nil _ H2); discriminate|].
  destruct (PyStr.span_field (String c2 t2)) as [f2 r2] eqn:S2.
  rewrite (fields_cons _ _ _ _ _ H2 S2). cbn [snd].
  destruct (PyStr.lstrip r2) as [|c3 t3] eqn:H3;
    [rewrite (fields_nil _ H3); discriminate|].
  destruct (PyStr.span_field (String c3 t3)) as [f3 r3] eqn:S3.
  rewrite (fields_cons _ _ _ _ _ H3 S3).
  destruct (PyStr.int f1) as [n|] eqn:Hint; [|discriminate].
  intros [= <-]. cbn [offset offset_hex description].
  pose proof (lstrip_nonblank _ _ _ H2) as Hc2.
  pose proof (lstrip_nonblank _ _ _ H3) as Hc3.
  destruct (span_field_spec _ _ _ S1) as (E1 & U1 & _ & B1).
  destruct (span_field_spec _ _ _ S2) as (E2 & U2 & _ & B2).
  destruct (span_field_nonblank _ _ _ _ Hc1 S1) as [N1 _].
  destruct (span_field_nonblank _ _ _ _ Hc2 S2) as [N2 _].
  destruct (lstrip_decompose r1) as (w1 & D1 & W1). rewrite H2 in D1.
  destruct (lstrip_decompose r2) as (w2 & D2 & W2). rewrite H3 in D2.
  exists f1, w1, w2. repeat split; try assumption; try discriminate.
  - rewrite E1, D1 at 1. rewrite E2, D2 at 1. reflexivity.
  - destruct r1 as [|x r1']; [destruct w1; discriminate|].
    exact (blanks_before_nonblank _ _ _ _ _ _ D1 eq_refl Hc2 B1).
  - destruct r2 as [|x r2']; [destruct w2; discriminate|].
    exact (blanks_before_nonblank _ _ _ _ _ _ D2 eq_refl Hc3 B2).
  - apply lstrip_fixed. exact Hc3.
Qed.

(** The lines without a record are the blank ones, the headers, the
    separators, those of fewer than three fields and those whose first
    field is not an integer. *)
Lemma finding_of_line_none (line : string) :
  let l := PyStr.strip line in
  finding_of_line line = None <->
  blank_line line
  \/ PyStr.startswith "DECIMAL" l = true
  \/ PyStr.startswith "---" l = true
  \/ length (PyStr.fields l) < 3
  \/ (exists first, head (PyStr.fields l) = Some first
                    /\ PyStr.int first = None).
Proof.
  intros l. unfold finding_of_line, blank_line. cbv zeta. fold l.
  rewrite <- (truthy_false l).
  destruct (PyStr.truthy l); cbn [negb]; [|tauto].
  destruct (PyStr.startswith "DECIMAL" l); [tauto|].
  destruct (PyStr.startswith "---" l); [tauto|].
  destruct (PyStr.fields l) as [|a [|b [|c more]]]; cbn [length head];
    try (split; [intros _; right; right; right; left; lia | reflexivity]).
  destruct (PyStr.int a) as [n|] eqn:Hint.
  - split; [discriminate|].
    intros [H | [H | [H | [H | (first & [= <-] & H)]]]];
      try discriminate; try lia. congruence.
  - split; [|reflexivity]. intros _. do 4 right. eauto.
Qed.

Lemma finding_of_line_fields (line : string) (sf : SignatureFinding) :
  finding_of_line line = Some sf ->
  exists first third rest,
    PyStr.fields (PyStr.strip line) = first :: offset_hex sf :: third :: rest
    /\ PyStr.int first = Some (offset sf).
Proof.
  unfold finding_of_line. cbv zeta.
  destruct (PyStr.truthy _); cbn [negb]; [|discriminate].
  destruct (PyStr.startswith "DECIMAL" _); [discriminate|].
  destruct (PyStr.startswith "---" _); [discriminate|].
  destruct (PyStr.fields _) as [|a [|b [|c more]]]; try discriminate.
  destruct (PyStr.int a) as [n|] eqn:Hint; [|discriminate].
  intros [= <-]. cbn [offset offset_hex]. eauto.
Qed.

(** A digit is no blank and no sign. *)
Lemma digit_plain (c : ascii) :
  is_digit c = true ->
  PyStr.int_isspace c = false /\ c <> "-"%char /\ c <> "+"%char.
Proof.
  destruct c as [[] [] [] [] [] [] [] []]; vm_compute;
    try discriminate; intros _; repeat split; discriminate.
Qed.

Lemma int_rstrip_numeral (s : string) :
  all_chars is_digit s = true -> PyStr.int_rstrip s = s.
Proof.
  induction s as [|c s IH]; [reflexivity|].
  cbn [all_chars PyStr.int_rstrip]. intros [Hc Hs]%andb_prop.
  rewrite (IH Hs). destruct s; [|reflexivity].
  now rewrite (proj1 (digit_plain c Hc)).
Qed.

Lemma int_digits_numeral (s : string) (acc : Z) (prev : bool) :
  all_chars is_digit s = true -> (prev = true \/ s <> EmptyString) ->
  exists n, PyStr.int_digits acc prev s = Some n.
Proof.
  revert acc prev. induction s as [|c s IH]; intros acc prev Hs Hne.
  - destruct Hne as [-> | Hne]; [simpl; eauto | contradiction].
  - cbn [all_chars] in Hs. apply andb_prop in Hs as [Hc Hs].
    cbn [PyStr.int_digits]. unfold is_digit in Hc.
    destruct (PyStr.digit_value c) as [d|]; [|discriminate].
    apply IH; auto.
Qed.

Lemma count_digits_numeral (s : string) :
  all_chars is_digit s = true ->
  PyStr.count_digits s = Z.of_nat (String.length s).
Proof.
  induction s as [|c s IH]; [reflexivity|].
  cbn [all_chars PyStr.count_digits String.length].
  intros [Hc Hs]%andb_prop. unfold is_digit in Hc.
  destruct (PyStr.digit_value c); [|discriminate]. rewrite (IH Hs). lia.
Qed.

(** [int] converts a numeral unless it has more digits than the
    interpreter's limit. *)
Lemma int_numeral (s : string) :
  numeral s ->
  PyStr.int s = None
  <-> (PyStr.int_max_str_digits < Z.of_nat (String.length s))%Z.
Proof.
  intros [Hne Hs]. destruct s as [|c s]; [contradiction|].
  pose proof Hs as Hc. cbn [all_chars] in Hc. apply andb_prop in Hc as [Hc _].
  destruct (digit_plain c Hc) as (Hsp & Hminus & Hplus).
  assert (Hint : PyStr.int (String c s) = PyStr.int_literal (String c s)).
  { unfold PyStr.int. cbn [PyStr.int_lstrip]. rewrite Hsp.
    rewrite (int_rstrip_numeral _ Hs).
    destruct c as [[] [] [] [] [] [] [] []];
      try reflexivity; congruence. }
  rewrite Hint. unfold PyStr.int_literal.
  rewrite (count_digits_numeral _ Hs).
  destruct (int_digits_numeral (String c s) 0 false Hs (or_intror Hne))
    as [n ->].
  destruct (Z.ltb_spec PyStr.int_max_str_digits
              (Z.of_nat (String.length (String c s)))); split;
    try discriminate; try reflexivity; lia.
Qed.

(** C6, as stated, fails: a line of four fields whose first field is an
    integer of 4301 digits gives no record, as [int] refuses to convert
    it and the parser skips the line. *)
Lemma signature_table_counterexample :
  ~ (forall line first second third rest,
       PyStr.fields (PyStr.strip line) = first :: second :: third :: rest ->
       numeral first ->
       exists sf, _parse_binwalk_output line = [sf]).
Proof.
  intros H.
  destruct (H (Examples.nines 4301 +:+ " 0x0 PNG image")
              (Examples.nines 4301) "0x0" "PNG" ["image"]) as [sf Hsf].
  - vm_compute. reflexivity.
  - split; [discriminate | vm_compute; reflexivity].
  - vm_compute in Hsf. discriminate.
Qed.

(** C6, amended. The signature table is read line by line, the findings
    keep the order of the lines; a blank line, a header, a separator, a
    line of fewer than three fields and a line whose first field [int]
    does not convert give no record; any other line gives the record of
    its first field read as an integer, its second field and the
    remainder; a first field of digits only is converted exactly when it
    has no more digits than the interpreter's limit of 4300; and the
    three lines of the example give the one finding for the PNG image. *)
Theorem signature_table_parsed_by_line :
  (forall output,
     _parse_binwalk_output output
     = findings_of_lines (PyStr.split_char PyStr.LF output))
  /\ (forall line,
        let l := PyStr.strip line in
        finding_of_line line = None <->
        blank_line line
        \/ PyStr.startswith "DECIMAL" l = true
        \/ PyStr.startswith "---" l = true
        \/ length (PyStr.fields l) < 3
        \/ (exists first, head (PyStr.fields l) = Some first
                          /\ PyStr.int first = None))
  /\ (forall line sf,
        finding_of_line line = Some sf ->
        (exists first third rest,
           PyStr.fields (PyStr.strip line)
           = first :: offset_hex sf :: third :: rest
           /\ PyStr.int first = Some (offset sf))
        /\ exists first w1 w2,
          PyStr.strip line
          = first +:+ w1 +:+ offset_hex sf +:+ w2 +:+ description sf
          /\ PyStr.int first = Some (offset sf)
          /\ unbroken first /\ first <> EmptyString
          /\ blanks w1 /\ w1 <> EmptyString
          /\ unbroken (offset_hex sf) /\ offset_hex sf <> EmptyString
          /\ blanks w2 /\ w2 <> EmptyString
          /\ description sf <> EmptyString
          /\ PyStr.lstrip (description sf) = description sf)
  /\ (forall first,
        numeral first ->
        PyStr.int first = None <-> (4300 < Z.of_nat (String.length first))%Z)
  /\ _parse_binwalk_output
       ("0   0x0   PNG image, 1920 x 1080" +:+ String PyStr.LF
          ("DECIMAL  HEXADECIMAL  DESCRIPTION" +:+ String PyStr.LF "--------"))
     = [ {| offset := 0; offset_hex := "0x0";
            description := "PNG image, 1920 x 1080" |} ].
Proof.
  split; [|split; [|split; [|split]]].
  - intros output. unfold _parse_binwalk_output.
    now rewrite parse_lines_findings.
  - exact finding_of_line_none.
  - intros line sf H.
    split; [exact (finding_of_line_fields line sf H)
           | exact (finding_of_line_pieces line sf H)].
  - exact int_numeral.
  - vm_compute. reflexivity.
Qed.

Lemma signature_table_parsed_by_line_witness :
  exists first w1 w2,
    PyStr.strip "  41   0x29  Zlib compressed data "
    = first +:+ w1 +:+ "0x29" +:+ w2 +:+ "Zlib compressed data"
    /\ PyStr.int first = Some 41%Z.
Proof.
  destruct (proj1 (proj2 (proj2 signature_table_parsed_by_line))
              "  41   0x29  Zlib compressed data "
              {| offset := 41; offset_hex := "0x29";
                 description := "Zlib compressed data" |})
    as (_ & first & w1 & w2 & H & Hint & _).
  - vm_compute. reflexivity.
  - exists first, w1, w2. split; assumption.
Defined.

End SignatureTableFacts.

(** ** Batches *)

Module BatchFacts.
Import Py Spec.

Section Collect.
Context {V : Type}.
Implicit Types (outs : list (res (string * V))) (m : gmap string V).

(** A key that is in the dictionary stays in it. *)
Lemma collect_keeps outs m k :
  is_Some (m !! k) -> is_Some (Batch.collect outs m !! k).
Proof.
  revert m. induction outs as [|[[k' v']|e] outs IH]; intros m Hm;
    cbn [Batch.collect]; auto.
  apply IH. rewrite lookup_insert_is_Some'. auto.
Qed.

(** A key under which no item returned is left as it was. *)
Lemma collect_untouched outs m k :
  (forall j v, outs !! j <> Some (Ret (k, v))) ->
  Batch.collect outs m !! k = m !! k.
Proof.
  revert m. induction outs as [|[[k' v']|e] outs IH]; intros m H;
    cbn [Batch.collect]; [reflexivity| |].
  - rewrite IH by (intros j v; apply (H (S j))).
    apply lookup_insert_ne. intros ->. exact (H 0 v' eq_refl).
  - apply IH. intros j v. apply (H (S j)).
Qed.

(** The key of an item that returned is in the dictionary. *)
Lemma collect_returned outs m i k v :
  outs !! i = Some (Ret (k, v)) -> is_Some (Batch.collect outs m !! k).
Proof.
  revert m i. induction outs as [|o outs IH]; intros m [|i] H;
    try discriminate.
  - cbn in H. injection H as ->. cbn [Batch.collect].
    apply collect_keeps. rewrite lookup_insert_eq. eauto.
  - cbn in H. destruct o as [[k' v']|e]; cbn [Batch.collect]; eauto.
Qed.

(** Every entry was there before or is the result of an item that
    returned. *)
Lemma collect_entry outs m k v :
  Batch.collect outs m !! k = Some v ->
  m !! k = Some v \/ exists i, outs !! i = Some (Ret (k, v)).
Proof.
  revert m. induction outs as [|[[k' v']|e] outs IH]; intros m H;
    cbn [Batch.collect] in H; [auto| |].
  - destruct (IH _ H) as [Hm | (i & Hi)].
    + destruct (decide (k' = k)) as [->|Hne].
      * rewrite lookup_insert_eq in Hm. injection Hm as ->.
        right. exists 0. reflexivity.
      * rewrite lookup_insert_ne in Hm by exact Hne. auto.
    + right. exists (S i). exact Hi.
  - destruct (IH _ H) as [Hm | (i & Hi)]; [auto|].
    right. exists (S i). exact Hi.
Qed.

(** Whatever the order in which the tasks ran: when the list holds one
    outcome for every key and a task that returned did so with its own
    key, the loop builds a mapping that leaves out the items that
    raised. *)
Lemma collect_omits (keys : list string) outs :
  length outs = length keys ->
  (forall i k kv, keys !! i = Some k -> outs !! i = Some (Ret kv) ->
     fst kv = k) ->
  omits_raised keys outs (Batch.collect outs ∅).
Proof.
  intros Hlen Hkeys. split; [exact Hlen|]. split; [|split].
  - intros i k e _ _ Hnone.
    rewrite (collect_untouched _ _ _ Hnone). apply lookup_empty.
  - intros i k [k' v] Hk Hout.
    pose proof (Hkeys i k _ Hk Hout) as Hfst. cbn in Hfst. subst k'.
    split; [reflexivity | exact (collect_returned _ _ _ _ _ Hout)].
  - intros k v Hm. destruct (collect_entry _ _ _ _ Hm) as [He | (i & Hi)].
    + rewrite lookup_empty in He. discriminate.
    + exists i. split; [|exact Hi].
      destruct (keys !! i) as [k'|] eqn:Hk.
      * f_equal. symmetry. exact (Hkeys i k' _ Hk Hi).
      * apply lookup_ge_None in Hk. apply lookup_lt_Some in Hi. lia.
Qed.

Variable execute : string -> M V.

(** [gather] answers once for every task, and a task that returns does
    so with its own key. *)
Lemma gather_keys (keys : list string) (w : World) :
  let outs := fst (Batch.gather (map (Batch.with_semaphore execute) keys) w) in
  length outs = length keys
  /\ forall i k kv, keys !! i = Some k -> outs !! i = Some (Ret kv) ->
       fst kv = k.
Proof.
  revert w. induction keys as [|key keys IH]; intros w; cbn zeta.
  - split; [reflexivity|]. intros [|i]; discriminate.
  - cbn [map Batch.gather].
    destruct (Batch.with_semaphore execute key w) as [r w1] eqn:Hr.
    specialize (IH w1). cbn zeta in IH.
    destruct (Batch.gather _ w1) as [rs w2]. cbn [fst] in *.
    destruct IH as [Hlen Hkeys]. split; [cbn [length]; lia|].
    intros [|i] k kv Hk Hout; cbn in Hk, Hout.
    + injection Hk as <-. injection Hout as ->.
      unfold Batch.with_semaphore, bind, ret in Hr.
      destruct (execute key w) as [[v|e] w0]; cbn in Hr;
        [injection Hr as <- _; reflexivity | discriminate].
    + eauto.
Qed.

(** The concurrent batch ends with a dictionary when the semaphore has a
    slot, and the dictionary leaves out the items that raised. *)
Lemma run_concurrent_omits (keys : list string) (max_concurrent : Z)
  (w : World) :
  (0 < max_concurrent)%Z ->
  let outs := fst (Batch.gather (map (Batch.with_semaphore execute) keys) w) in
  exists m,
    fst (Batch.run_concurrent execute keys max_concurrent w) = Batch.Finished m
    /\ omits_raised keys outs m.
Proof.
  intros Hmc outs.
  exists (Batch.collect outs ∅). split.
  - unfold Batch.run_concurrent.
    destruct (Z.ltb_spec max_concurrent 0); [lia|].
    destruct (Z.eqb_spec max_concurrent 0); [lia|].
    destruct keys as [|key keys]; [reflexivity|]. subst outs.
    destruct (Batch.gather _ w); reflexivity.
  - destruct (gather_keys keys w) as [Hlen Hkeys].
    exact (collect_omits keys outs Hlen Hkeys).
Qed.

(** The sequential batch, when it ends with a dictionary, holds every
    key; an item that raises ends the batch with its exception. *)
Lemma run_sequential_finished (keys : list string) (m0 m : gmap string V)
  (w w' : World) :
  Batch.run_sequential execute keys m0 w = (Batch.Finished m, w') ->
  (forall k, is_Some (m0 !! k) -> is_Some (m !! k))
  /\ (forall k, In k keys -> is_Some (m !! k)).
Proof.
  revert m0 w. induction keys as [|key keys IH]; intros m0 w H;
    cbn [Batch.run_sequential] in H.
  - injection H as <- <-. split; [auto | contradiction].
  - destruct (execute key w) as [[v|e] w1]; [|discriminate].
    destruct (IH _ _ H) as [Hkeep Hin]. split.
    + intros k Hk. apply Hkeep. rewrite lookup_insert_is_Some'. auto.
    + intros k [<- | Hk]; [|auto].
      apply Hkeep. rewrite lookup_insert_eq. eauto.
Qed.

End Collect.

(** C8. A batch that runs its items concurrently (the plugin batch and
    the binwalk batch) ends with a mapping whenever the semaphore has a
    slot; an item whose execution raised has no entry in it, neither a
    failed record nor any other; an item that returned is found under its
    own key; and every entry is the result of an item that returned. The
    plugin batch run sequentially, when it ends with a mapping, holds
    every key. The loop over the gathered list does so for every list of
    outcomes, in whatever order the tasks ran. *)
Theorem batch_omits_raised_items :
  (forall (settings : Settings) (E : Env)
     (self : VolatilityRunner.Volatility3Runner) (plugin_names : list string)
     (max_concurrent : Z) (w : World),
     let execute := fun plugin_name =>
       VolatilityRunner.execute_plugin_async settings E self plugin_name None in
     let outs :=
       fst (Batch.gather (map (Batch.with_semaphore execute) plugin_names) w) in
     (0 < max_concurrent)%Z ->
     exists m,
       fst (VolatilityRunner.execute_plugin_batch settings E self plugin_names
              true max_concurrent w) = Batch.Finished m
       /\ omits_raised plugin_names outs m)
  /\ (forall (settings : Settings) (E : Env)
        (self : ArtifactProcessor.BinwalkAnalyzer) (file_paths : list string)
        (extract : bool) (max_concurrent : Z) (w : World),
        let execute := fun file_path =>
          ArtifactProcessor.analyze_file settings E self file_path extract 300 in
        let outs :=
          fst (Batch.gather (map (Batch.with_semaphore execute) file_paths) w) in
        (0 < max_concurrent)%Z ->
        exists m,
          fst (ArtifactProcessor.analyze_batch settings E self file_paths
                 extract max_concurrent w) = Batch.Finished m
          /\ omits_raised file_paths outs m)
  /\ (forall (settings : Settings) (E : Env)
        (self : VolatilityRunner.Volatility3Runner) (plugin_names : list string)
        (max_concurrent : Z) (w : World) (m : gmap string _),
        fst (VolatilityRunner.execute_plugin_batch settings E self plugin_names
               false max_concurrent w) = Batch.Finished m ->
        forall k, In k plugin_names -> is_Some (m !! k))
  /\ (forall (V : Type) (keys : list string) (outs : list (res (string * V))),
        length outs = length keys ->
        (forall i k kv, keys !! i = Some k -> outs !! i = Some (Ret kv) ->
           fst kv = k) ->
        omits_raised keys outs (Batch.collect outs ∅)).
Proof.
  split; [|split; [|split]]; [| | |exact (@collect_omits)].
  - intros settings E self plugin_names mc w execute outs Hmc.
    exact (run_concurrent_omits execute plugin_names mc w Hmc).
  - intros settings E self file_paths extract mc w execute outs Hmc.
    exact (run_concurrent_omits execute file_paths mc w Hmc).
  - intros settings E self plugin_names mc w m H.
    unfold VolatilityRunner.execute_plugin_batch in H. cbn [negb] in H.
    destruct (Batch.run_sequential _ plugin_names ∅ w) as [o w'] eqn:Hrun.
    cbn [fst] in H. subst o.
    exact (proj2 (run_sequential_finished _ _ _ _ _ _ Hrun)).
Qed.

(** Two artifacts, the extraction directory of the second cannot be made. *)
Lemma batch_omits_raised_items_witness :
  let E := Examples.env (Ret (0%Z, "", "")) (Ret (0%Z, "", ""))
             (fun _ => Missing)
             (fun dir =>
                if String.eqb dir "/out/binwalk/locked_binwalk"
                then Some (Exception "Permission denied") else None) in
  exists m,
    fst (ArtifactProcessor.analyze_batch default_settings E Examples.analyzer
           ["dump"; "locked"] true 2 Examples.world0) = Batch.Finished m
    /\ m !! "locked" = None
    /\ is_Some (m !! "dump").
Proof.
  intros E.
  destruct (proj1 (proj2 batch_omits_raised_items) default_settings E
              Examples.analyzer
              ["dump"; "locked"] true 2%Z Examples.world0)
    as (m & Hm & _ & Hraised & Hreturned & _); [lia|].
  exists m. split; [exact Hm|]. split.
  - apply (Hraised 1 "locked" (Exception "Permission denied"));
      [reflexivity | reflexivity |].
    intros [|[|j]] v; [discriminate | discriminate |].
    cbn. discriminate.
  - eapply (Hreturned 0 "dump"); reflexivity.
Defined.

End BatchFacts.

(** ** Invariants of the results of the plugin runner *)

Module RunnerInvariants.
Import Py VolatilityRunner Spec Terms PyStrFacts.

#[local] Arguments PyStr.take : simpl never.
#[local] Arguments _extract_error_message : simpl never.
#[local] Arguments _parse_json_output : simpl never.
#[local] Arguments PyStr.str_of_Z : simpl never.

Lemma build_command_layout (settings : Settings) (self : Volatility3Runner)
  (plugin_name output_file : string) (extra_args : option (list string)) :
  _build_command settings self plugin_name output_file extra_args
  = plugin_command settings self plugin_name extra_args.
Proof.
  unfold _build_command, plugin_command.
  destruct extra_args as [[|a args]|]; reflexivity.
Qed.

(** Parsed rows come from a file that is there. *)
Lemma parsed_file_exists (E : Env) (f : string) (rows : list Json.value)
  (n : nat) :
  _parse_json_output E f = Ret (Some rows, n) -> exists_ E f = Ret true.
Proof.
  unfold _parse_json_output, exists_.
  destruct (file_at E f); try discriminate. reflexivity.
Qed.

(** X1. Every result of either runner is terminal (SUCCESS, FAILED or
    TIMEOUT, with a completion time), carries an error message exactly
    when it is not SUCCESS, and is SUCCESS only with return code 0. *)
Theorem result_error_iff_not_success (settings : Settings) (E : Env)
  (self : Volatility3Runner) (plugin_name : string)
  (extra_args : option (list string)) (w : World) :
  let terminal r :=
    (status r = SUCCESS \/ status r = FAILED \/ status r = TIMEOUT)
    /\ (error_message r = None <-> status r = SUCCESS)
    /\ (exists t, completed_at r = Some t)
    /\ (status r = SUCCESS -> returncode r = 0%Z) in
  returns (execute_plugin settings E self plugin_name extra_args) w terminal
  /\ returns (execute_plugin_async settings E self plugin_name extra_args) w
       terminal.
Proof.
  intros terminal. subst terminal. split.
  - unfold returns, execute_plugin. RunnerFacts.unfold_calls. simpl.
    destruct (run_outcome E _) as [[[code out] err]|e]; simpl.
    + RunnerFacts.settle_parser; simpl.
      * destruct (code =? 0)%Z eqn:Hc, pd; simpl;
          repeat split; eauto; try discriminate.
        intros _. now apply Z.eqb_eq.
      * destruct e; simpl; repeat split; eauto; discriminate.
    + destruct e; simpl; repeat split; eauto; discriminate.
  - unfold returns, execute_plugin_async. RunnerFacts.unfold_calls. simpl.
    destruct (spawn_outcome E _) as [e|]; simpl.
    { destruct e; simpl; repeat split; eauto; discriminate. }
    destruct (communicate_outcome E _) as [[[code out] err]|e]; simpl.
    + RunnerFacts.settle_parser; simpl.
      * destruct (code =? 0)%Z eqn:Hc; simpl;
          repeat split; eauto; try discriminate.
        intros _. now apply Z.eqb_eq.
      * destruct e; simpl; repeat split; eauto; discriminate.
    + destruct e; simpl; try (repeat split; eauto; discriminate).
      destruct (kill_outcome E _) as [e|]; simpl;
        [destruct e; simpl|]; repeat split; eauto; discriminate.
Qed.

(** X2. In every result of either runner the row count is the number of
    parsed records, 0 when there are none; parsed records come with the
    path of the output file; and a path is given only for the file
    [<output_dir>/<plugin name with dots as underscores>.json] when it
    exists. *)
Theorem result_rows_and_path (settings : Settings) (E : Env)
  (self : Volatility3Runner) (plugin_name : string)
  (extra_args : option (list string)) (w : World) :
  let f := path_join E (output_dir self)
             (PyStr.replace_char "." "_" plugin_name +:+ ".json") in
  let consistent r :=
    row_count r = match parsed_data r with
                  | Some rows => length rows
                  | None => 0
                  end
    /\ (forall rows, parsed_data r = Some rows -> output_json_path r = Some f)
    /\ (forall p, output_json_path r = Some p ->
          p = f /\ exists_ E f = Ret true) in
  returns (execute_plugin settings E self plugin_name extra_args) w consistent
  /\ returns (execute_plugin_async settings E self plugin_name extra_args) w
       consistent.
Proof.
  intros f consistent. subst consistent.
  assert (Hcommon : forall pd rc found,
            _parse_json_output E f = Ret (pd, rc) ->
            exists_ E f = Ret found ->
            rc = match pd with Some rows => length rows | None => 0 end
            /\ (forall rows, pd = Some rows ->
                (if found then Some f else None) = Some f)
            /\ (forall p, (if found then Some f else None) = Some p ->
                p = f /\ exists_ E f = Ret true)).
  { intros pd rc found Hp Hfound.
    pose proof (RunnerFacts.parse_json_output_count E f _ Hp) as Hc.
    cbn [fst snd] in Hc. split; [exact Hc|]. split.
    - intros rows ->.
      rewrite (parsed_file_exists E f rows rc Hp) in Hfound.
      injection Hfound as <-. reflexivity.
    - intros p. destruct found; [|discriminate].
      intros [= <-]. auto. }
  split.
  - unfold returns, execute_plugin, output_file_of. RunnerFacts.unfold_calls.
    fold f. simpl.
    destruct (run_outcome E _) as [[[code out] err]|e]; simpl.
    + RunnerFacts.settle_parser; simpl.
      * destruct (Hcommon pd rc found eq_refl Hfound) as (H1 & H2 & H3).
        rewrite Hfound in H3.
        destruct (code =? 0)%Z, pd; simpl; auto.
      * destruct e; simpl; repeat split; discriminate.
    + destruct e; simpl; repeat split; discriminate.
  - unfold returns, execute_plugin_async, output_file_of.
    RunnerFacts.unfold_calls. fold f. simpl.
    destruct (spawn_outcome E _) as [e|]; simpl.
    { destruct e; simpl; repeat split; discriminate. }
    destruct (communicate_outcome E _) as [[[code out] err]|e]; simpl.
    + RunnerFacts.settle_parser; simpl.
      * destruct (Hcommon pd rc found eq_refl Hfound) as (H1 & H2 & H3).
        rewrite Hfound in H3.
        destruct (code =? 0)%Z; simpl; auto.
      * destruct e; simpl; repeat split; discriminate.
    + destruct e; simpl; try (repeat split; discriminate).
      destruct (kill_outcome E _) as [e|]; simpl;
        [destruct e; simpl|]; repeat split; discriminate.
Qed.

Lemma inject_Z_nonneg (z : Z) : (0 <= z)%Z -> (0 <= inject_Z z)%Q.
Proof. intros H. unfold Qle. simpl. lia. Qed.

Lemma elapsed_nonneg (E : Env) (n m : nat) :
  clock_monotone E -> n <= m -> (0 <= clock E m - clock E n)%Q.
Proof.
  intros Hmono Hnm. unfold Qminus. apply (proj1 (Qle_minus_iff _ _)).
  exact (Hmono n m Hnm).
Qed.

(** X3. When later readings of the clock are not earlier and the
    configured timeout is not negative, no result of either runner has a
    negative execution time. *)
Theorem execution_time_nonnegative (settings : Settings) (E : Env)
  (self : Volatility3Runner) (plugin_name : string)
  (extra_args : option (list string)) (w : World) :
  clock_monotone E ->
  (0 <= timeout_seconds self)%Z ->
  returns (execute_plugin settings E self plugin_name extra_args) w
    (fun r => (0 <= execution_time_seconds r)%Q)
  /\ returns (execute_plugin_async settings E self plugin_name extra_args) w
       (fun r => (0 <= execution_time_seconds r)%Q).
Proof.
  intros Hmono Ht.
  pose proof (inject_Z_nonneg _ Ht) as Hq.
  pose proof (elapsed_nonneg E (ticks w) (S (ticks w)) Hmono ltac:(lia)) as H1.
  pose proof (elapsed_nonneg E (ticks w) (S (S (ticks w))) Hmono ltac:(lia))
    as H2.
  pose proof (elapsed_nonneg E (ticks w) (S (S (S (ticks w)))) Hmono
                ltac:(lia)) as H3.
  split.
  - unfold returns, execute_plugin. RunnerFacts.unfold_calls. simpl.
    destruct (run_outcome E _) as [[[code out] err]|e]; simpl.
    + RunnerFacts.settle_parser; simpl.
      * destruct (code =? 0)%Z, pd; simpl; exact H1.
      * destruct e; simpl; assumption.
    + destruct e; simpl; assumption.
  - unfold returns, execute_plugin_async. RunnerFacts.unfold_calls. simpl.
    destruct (spawn_outcome E _) as [e|]; simpl.
    { destruct e; simpl; assumption. }
    destruct (communicate_outcome E _) as [[[code out] err]|e]; simpl.
    + RunnerFacts.settle_parser; simpl.
      * destruct (code =? 0)%Z; simpl; exact H1.
      * destruct e; simpl; assumption.
    + destruct e; simpl; try assumption.
      destruct (kill_outcome E _) as [e|]; simpl;
        [destruct e; simpl|]; assumption.
Qed.

Lemma examples_clock_monotone run comm file dir :
  clock_monotone (Examples.env run comm file dir).
Proof.
  intros n m Hnm. cbn [clock Examples.env].
  rewrite <- Zle_Qle. lia.
Qed.

Lemma execution_time_nonnegative_witness :
  returns (execute_plugin default_settings
             (Examples.env (Raise (TimeoutExpired "timed out" None))
                (Ret (0%Z, "", "")) (fun _ => Missing) (fun _ => None))
             Examples.runner "windows.pslist" None) Examples.world0
    (fun r => (0 <= execution_time_seconds r)%Q).
Proof.
  apply (execution_time_nonnegative default_settings
           (Examples.env (Raise (TimeoutExpired "timed out" None))
              (Ret (0%Z, "", "")) (fun _ => Missing) (fun _ => None))
           Examples.runner "windows.pslist" None Examples.world0).
  - apply examples_clock_monotone.
  - cbn. lia.
Defined.

(** X4. Whatever the outcome, one call of either runner asks for exactly
    one process, the same in both: the tool with [-f <image> -r json
    <plugin>] and the extra arguments; the path of the output file is not
    on the command line. *)
Theorem one_process_per_call (settings : Settings) (E : Env)
  (self : Volatility3Runner) (plugin_name : string)
  (extra_args : option (list string)) (w : World) :
  let cmd :=
    [VOL3_PATH settings; "-f"; memory_image_path self; "-r"; "json";
     plugin_name]
    ++ match extra_args with Some args => args | None => [] end in
  spawned (snd (execute_plugin settings E self plugin_name extra_args w))
  = spawned w ++ [cmd]
  /\ spawned (snd (execute_plugin_async settings E self plugin_name
                     extra_args w))
     = spawned w ++ [cmd].
Proof.
  intros cmd. change cmd with (plugin_command settings self plugin_name extra_args).
  clear cmd. split.
  - unfold execute_plugin. rewrite build_command_layout.
    RunnerFacts.unfold_calls. simpl.
    destruct (run_outcome E _) as [[[code out] err]|e]; simpl.
    + RunnerFacts.settle_parser; simpl.
      * destruct (code =? 0)%Z, pd; reflexivity.
      * destruct e; reflexivity.
    + destruct e; reflexivity.
  - unfold execute_plugin_async. rewrite build_command_layout.
    RunnerFacts.unfold_calls. simpl.
    destruct (spawn_outcome E _) as [e|]; simpl.
    { destruct e; reflexivity. }
    destruct (communicate_outcome E _) as [[[code out] err]|e]; simpl.
    + RunnerFacts.settle_parser; simpl.
      * destruct (code =? 0)%Z; reflexivity.
      * destruct e; reflexivity.
    + destruct e; simpl; try reflexivity.
      destruct (kill_outcome E _) as [e|]; simpl;
        [destruct e|]; reflexivity.
Qed.

(** X5. When the process ends the same way for both runners (same exit
    code, the decoded stderr of the one is the stderr of the other), the
    asynchronous runner returns the very result of the synchronous one,
    and leaves the same world, except in one case: exit code 0 without
    parsed output. *)
Theorem runners_agree_but_for_missing_output (settings : Settings) (E : Env)
  (self : Volatility3Runner) (plugin_name : string)
  (extra_args : option (list string)) (w : World)
  (code : Z) (out err outb errb : string) :
  let f := output_file_of E self plugin_name in
  let cmd := plugin_command settings self plugin_name extra_args in
  run_outcome E cmd = Ret (code, out, err) ->
  spawn_outcome E cmd = None ->
  communicate_outcome E cmd = Ret (code, outb, errb) ->
  decode_replace E errb = err ->
  PyStr.truthy errb = PyStr.truthy err ->
  (execute_plugin_async settings E self plugin_name extra_args w
   = execute_plugin settings E self plugin_name extra_args w
   <-> ~ (code = 0%Z /\ exists n, _parse_json_output E f = Ret (None, n))).
Proof.
  intros f cmd Hrun Hspawn Hcomm Herr Htruthy. subst f cmd.
  unfold execute_plugin_async, execute_plugin.
  rewrite !build_command_layout. RunnerFacts.unfold_calls. simpl.
  rewrite Hrun, Hspawn. simpl. rewrite Hcomm. simpl.
  rewrite Herr, Htruthy.
  RunnerFacts.settle_parser; simpl.
  - destruct (Z.eqb_spec code 0) as [Hc|Hc]; destruct pd; simpl.
    + split; [intros _ [_ [n H]]; discriminate | reflexivity].
    + split; [discriminate | intros H; exfalso; apply H; eauto].
    + split; [intros _ [H _]; contradiction | reflexivity].
    + split; [intros _ [H _]; contradiction | reflexivity].
  - apply RunnerFacts.parse_json_output_raises, RunnerFacts.exists_raises
      in Hp as [msg ->].
    simpl. split; [intros _ [_ [n H]]; discriminate | reflexivity].
Qed.

Lemma runners_agree_but_for_missing_output_witness :
  let E := Examples.env (Ret (1%Z, "", "No valid profile found"))
             (Ret (1%Z, "", "No valid profile found"))
             (fun _ => Missing) (fun _ => None) in
  execute_plugin_async default_settings E Examples.runner "windows.pslist" None
    Examples.world0
  = execute_plugin default_settings E Examples.runner "windows.pslist" None
      Examples.world0.
Proof.
  intros E.
  apply (runners_agree_but_for_missing_output default_settings E
           Examples.runner "windows.pslist" None Examples.world0
           1%Z "" "No valid profile found" "" "No valid profile found");
    try reflexivity.
  intros [H _]. discriminate.
Defined.

(** X6. In the asynchronous runner a wait that times out gives TIMEOUT
    only if the process can be killed; when killing it raises, the result
    is FAILED with the text of that exception and return code -1. *)
Theorem async_timeout_needs_kill (settings : Settings) (E : Env)
  (self : Volatility3Runner) (plugin_name : string)
  (extra_args : option (list string)) (w : World) :
  let cmd := plugin_command settings self plugin_name extra_args in
  spawn_outcome E cmd = None ->
  communicate_outcome E cmd = Raise AsyncTimeoutError ->
  (kill_outcome E cmd = None ->
   returns (execute_plugin_async settings E self plugin_name extra_args) w
     (fun r => status r = TIMEOUT))
  /\ (forall e, kill_outcome E cmd = Some e -> not_timeout_expired e ->
      returns (execute_plugin_async settings E self plugin_name extra_args) w
        (fun r => status r = FAILED
                  /\ error_message r = Some (exc_str e)
                  /\ parsed_data r = None
                  /\ returncode r = (-1)%Z)).
Proof.
  intros cmd Hspawn Hcomm. subst cmd. split.
  - intros Hkill. unfold returns, execute_plugin_async.
    rewrite build_command_layout. RunnerFacts.unfold_calls. simpl.
    rewrite Hspawn. simpl. rewrite Hcomm. simpl. rewrite Hkill. reflexivity.
  - intros e Hkill He. unfold returns, execute_plugin_async.
    rewrite build_command_layout. RunnerFacts.unfold_calls. simpl.
    rewrite Hspawn. simpl. rewrite Hcomm. simpl. rewrite Hkill. simpl.
    destruct e; try contradiction; simpl; auto.
Qed.

Lemma async_timeout_needs_kill_witness :
  let E := env_of (fun _ => Ret (0%Z, "", "")) (fun _ => None)
             (fun _ => Raise AsyncTimeoutError)
             (fun _ => Some (Exception "ProcessLookupError"))
             (fun _ => Missing) (fun _ => None) Examples.sample_loads in
  returns (execute_plugin_async default_settings E Examples.runner
             "windows.pslist" None) Examples.world0
    (fun r => status r = FAILED
              /\ error_message r = Some "ProcessLookupError"
              /\ parsed_data r = None
              /\ returncode r = (-1)%Z).
Proof.
  intros E.
  apply (proj2 (async_timeout_needs_kill default_settings E Examples.runner
                  "windows.pslist" None Examples.world0 eq_refl eq_refl)
           (Exception "ProcessLookupError") eq_refl I).
Defined.

End RunnerInvariants.

(** ** More on the parsers of the plugin runner *)

Module ParserInvariants.
Import Py VolatilityRunner Spec Terms PyStrFacts.

#[local] Arguments PyStr.take : simpl never.
#[local] Arguments PyStr.strip : simpl never.
#[local] Arguments _parse_json_output : simpl never.

Section Decoder.
Variable E : Env.

(** The loop over the lines raises exactly when the decoder raises
    something else than a decode error on a non-blank line. *)
Lemma parse_rows_raises_iff (lines : list string) (acc : list Json.value) :
  (exists e, parse_rows E lines acc = Raise e)
  <-> exists l msg, In l lines /\ PyStr.strip l <> EmptyString
                    /\ json_loads E (PyStr.strip l) = Json.DecodeRaised msg.
Proof.
  revert acc. induction lines as [|x lines IH]; intros acc.
  - cbn [parse_rows]. split; [intros [e H]; discriminate|].
    intros (l & msg & [] & _).
  - cbn [parse_rows].
    destruct (PyStr.truthy (PyStr.strip x)) eqn:Ht.
    + destruct (json_loads E (PyStr.strip x)) as [v|m|m] eqn:Hx.
      * rewrite IH. split; intros (l & msg & Hin & Hl); exists l, msg.
        -- split; [right; exact Hin | exact Hl].
        -- destruct Hin as [<- | Hin]; [|auto].
           destruct Hl as [_ Hl]. congruence.
      * rewrite IH. split; intros (l & msg & Hin & Hl); exists l, msg.
        -- split; [right; exact Hin | exact Hl].
        -- destruct Hin as [<- | Hin]; [|auto].
           destruct Hl as [_ Hl]. congruence.
      * split; [|eauto]. intros _. exists x, m.
        split; [left; reflexivity|]. split; [|exact Hx].
        now apply truthy_true.
    + rewrite IH. split; intros (l & msg & Hin & Hl); exists l, msg.
      * split; [right; exact Hin | exact Hl].
      * destruct Hin as [<- | Hin]; [|auto].
        destruct Hl as [Hl _]. apply truthy_false in Ht. contradiction.
Qed.

End Decoder.

Lemma readlines_nil_iff (text : string) :
  PyStr.readlines text = [] <-> text = EmptyString.
Proof.
  split; [apply RunnerFacts.readlines_nil | intros ->; reflexivity].
Qed.

(** X7. The JSONL parser returns no rows at all exactly when the output
    file is missing, cannot be read, is empty, or holds a non-blank line
    on which the decoder raises something else than a decode error. *)
Theorem parse_json_output_absent_iff (E : Env) (f : string) :
  (exists n, _parse_json_output E f = Ret (None, n))
  <-> file_at E f = Missing
      \/ (exists e, file_at E f = Unreadable e)
      \/ (exists text,
            file_at E f = Content text
            /\ (text = EmptyString
                \/ exists l msg,
                     In l (PyStr.readlines text)
                     /\ PyStr.strip l <> EmptyString
                     /\ json_loads E (PyStr.strip l) = Json.DecodeRaised msg)).
Proof.
  unfold _parse_json_output, exists_.
  destruct (file_at E f) as [|e|text|msg] eqn:Hf; cbn beta iota.
  - split; [auto | eauto].
  - split; [eauto | eauto].
  - split.
    + intros [n H]. right. right. exists text. split; [reflexivity|].
      destruct (PyStr.readlines text) as [|l ls] eqn:Hl.
      * left. now apply readlines_nil_iff.
      * right. rewrite <- Hl.
        apply (parse_rows_raises_iff E (PyStr.readlines text) []).
        rewrite Hl.
        destruct (parse_rows E (l :: ls) []) as [rows|e]; [discriminate|].
        eauto.
    + intros [H | [(e & H) | (t & Heq & H)]]; try discriminate.
      injection Heq as <-. destruct H as [-> | Hraise]; [simpl; eauto|].
      apply (parse_rows_raises_iff E (PyStr.readlines text) []) in Hraise
        as [e He].
      destruct (PyStr.readlines text) as [|l ls]; [eauto|].
      rewrite He. eauto.
  - split; [intros [n H]; discriminate|].
    intros [H | [(e & H) | (t & H & _)]]; discriminate.
Qed.

(** X8. An output file that is not empty but holds blank lines only
    parses to an empty list of rows, not to nothing; with exit code 0 the
    synchronous runner then reports SUCCESS with no rows. *)
Theorem blank_lines_parse_to_no_rows (settings : Settings) (E : Env)
  (self : Volatility3Runner) (plugin_name : string)
  (extra_args : option (list string)) (w : World) (text out err : string) :
  let f := output_file_of E self plugin_name in
  let cmd := plugin_command settings self plugin_name extra_args in
  file_at E f = Content text ->
  text <> EmptyString ->
  Forall blank_line (PyStr.readlines text) ->
  _parse_json_output E f = Ret (Some [], 0)
  /\ (run_outcome E cmd = Ret (0%Z, out, err) ->
      returns (execute_plugin settings E self plugin_name extra_args) w
        (fun r => status r = SUCCESS /\ parsed_data r = Some []
                  /\ row_count r = 0 /\ error_message r = None)).
Proof.
  intros f cmd Hfile Hne Hblank.
  assert (Hparse : _parse_json_output E f = Ret (Some [], 0)).
  { unfold _parse_json_output, exists_. rewrite Hfile.
    assert (Hrows : parse_rows E (PyStr.readlines text) [] = Ret []).
    { clear Hne Hfile. induction Hblank as [|l ls Hl _ IH]; [reflexivity|].
      cbn [parse_rows]. apply truthy_false in Hl. now rewrite Hl. }
    destruct (PyStr.readlines text) as [|l ls] eqn:Hl.
    - apply readlines_nil_iff in Hl. contradiction.
    - rewrite Hrows. reflexivity. }
  split; [exact Hparse|]. intros Hrun. subst f cmd.
  unfold returns, execute_plugin.
  rewrite RunnerInvariants.build_command_layout.
  RunnerFacts.unfold_calls. simpl. rewrite Hrun. simpl. rewrite Hparse.
  destruct (RunnerFacts.parse_json_output_answers _ _ _ Hparse) as [found ->].
  simpl. auto.
Qed.

Lemma blank_lines_parse_to_no_rows_witness :
  let E := Examples.env (Ret (0%Z, "", "")) (Ret (0%Z, "", ""))
             (fun _ => Content (String PyStr.LF EmptyString))
             (fun _ => None) in
  returns (execute_plugin default_settings E Examples.runner "windows.pslist"
             None) Examples.world0
    (fun r => status r = SUCCESS /\ parsed_data r = Some []
              /\ row_count r = 0 /\ error_message r = None).
Proof.
  intros E.
  apply (blank_lines_parse_to_no_rows default_settings E Examples.runner
           "windows.pslist" None Examples.world0
           (String PyStr.LF EmptyString) "" "").
  - reflexivity.
  - discriminate.
  - repeat constructor.
  - reflexivity.
Defined.

Lemma take_nonempty (n : nat) (c : ascii) (s : string) :
  PyStr.take (S n) (String c s) <> EmptyString.
Proof. discriminate. Qed.

Lemma meaningful_lines_nonempty (stderr x : string) :
  In x (meaningful_lines stderr) -> x <> EmptyString.
Proof.
  unfold meaningful_lines. intros H.
  apply in_map_iff in H as (l & <- & Hl).
  apply List.filter_In in Hl as [_ Hl]. now apply truthy_true.
Qed.

(** X9. The extracted error message is never the empty text, whatever
    the stderr. *)
Theorem extract_error_message_nonempty (stderr : option string) :
  _extract_error_message stderr <> EmptyString.
Proof.
  destruct stderr as [[|c s]|]; try discriminate.
  unfold _extract_error_message.
  destruct (scan_patterns error_patterns (String c s)) as [m|] eqn:Hscan.
  - revert Hscan. generalize error_patterns.
    induction l as [|p ps IH]; cbn [scan_patterns]; [discriminate|].
    destruct (PyStr.contains p (String c s)); [|exact IH].
    intros [= <-]. apply take_nonempty.
  - destruct (meaningful_lines (String c s)) as [|first rest] eqn:Hm;
      [discriminate|].
    assert (Hne : first <> EmptyString).
    { apply (meaningful_lines_nonempty (String c s)). rewrite Hm. now left. }
    destruct first as [|x first]; [contradiction|]. apply take_nonempty.
Qed.

Lemma lower_append (a b : string) :
  PyStr.lower (a +:+ b) = PyStr.lower a +:+ PyStr.lower b.
Proof.
  induction a as [|c a IH]; [reflexivity|].
  rewrite append_cons. cbn [PyStr.lower]. now rewrite IH, append_cons.
Qed.

Lemma substring_append_l (p s t : string) :
  Substring p s -> Substring p (s +:+ t).
Proof.
  intros (a & b & ->). exists a, (b +:+ t).
  now rewrite !append_assoc.
Qed.

Lemma substring_append_r (p s t : string) :
  Substring p s -> Substring p (t +:+ s).
Proof.
  intros (a & b & ->). exists (t +:+ a), b.
  now rewrite !append_assoc.
Qed.

Lemma parse_banners_windows_iff (output : string) :
  _parse_banners_output output = "Windows"
  <-> Substring "windows" (PyStr.lower output)
      \/ Substring "microsoft" (PyStr.lower output).
Proof.
  unfold _parse_banners_output. rewrite <- !contains_spec.
  destruct (PyStr.contains "windows" _), (PyStr.contains "microsoft" _);
    cbn [orb]; try (split; [auto | reflexivity]).
  destruct (PyStr.contains "linux" _);
    [split; [discriminate | intros [H | H]; discriminate]|].
  destruct (PyStr.contains "darwin" _ || PyStr.contains "macos" _);
    split; try discriminate; intros [H | H]; discriminate.
Qed.

(** X10. Windows takes precedence: banners classified as Windows stay so
    whatever text is put before or after them (banners of another system,
    for one), in any letter case. *)
Theorem windows_banner_wins (output : string) :
  _parse_banners_output output = "Windows" ->
  forall before after : string,
    _parse_banners_output (before +:+ output +:+ after) = "Windows".
Proof.
  intros H before after. apply parse_banners_windows_iff in H.
  apply parse_banners_windows_iff. rewrite !lower_append.
  destruct H as [H | H]; [left | right];
    apply substring_append_r, substring_append_l; exact H.
Qed.

Lemma windows_banner_wins_witness :
  _parse_banners_output
    ("Linux version 5.10 (gcc) " +:+ "Microsoft Windows 10" +:+ " Darwin Kernel")
  = "Windows".
Proof.
  apply (windows_banner_wins "Microsoft Windows 10").
  vm_compute. reflexivity.
Defined.

End ParserInvariants.

(** ** Batches whose items cannot raise *)

Module BatchCompleteness.
Import Py Spec Terms.

Section Executor.
Context {V : Type}.
Variable execute : string -> M V.
Variable Q : string -> V -> Prop.
Variable bad : string -> Prop.
Hypothesis execute_raises :
  forall k w, bad k -> exists e w', execute k w = (Raise e, w').
Hypothesis execute_returns :
  forall k w, ~ bad k -> exists v w', execute k w = (Ret v, w') /\ Q k v.

(** The entry of a task in the list of [gather]: its exception for a bad
    key, its key and a good value otherwise. *)
Lemma gather_outcomes (keys : list string) (w : World) (i : nat) (k : string) :
  let outs := fst (Batch.gather (map (Batch.with_semaphore execute) keys) w) in
  keys !! i = Some k ->
  (bad k -> exists e, outs !! i = Some (Raise e))
  /\ (~ bad k -> exists v, outs !! i = Some (Ret (k, v)) /\ Q k v).
Proof.
  cbn zeta. revert w i. induction keys as [|key keys IH]; intros w i Hk;
    [destruct i; discriminate|].
  cbn [map Batch.gather].
  destruct (Batch.with_semaphore execute key w) as [r w1] eqn:Hr.
  specialize (IH w1).
  destruct (Batch.gather _ w1) as [rs w2]. cbn [fst] in *.
  destruct i as [|i]; cbn in Hk |- *; [injection Hk as <-|exact (IH i Hk)].
  unfold Batch.with_semaphore, bind, ret in Hr.
  destruct (execute key w) as [[v|e] w0] eqn:Hv; cbn in Hr;
    injection Hr as <- <-.
  - split.
    + intros Hb. destruct (execute_raises key w Hb) as (e & w' & He).
      congruence.
    + intros Hg. destruct (execute_returns key w Hg) as (v' & w' & He & Hq).
      exists v. split; [reflexivity|]. congruence.
  - split; [eauto|].
    intros Hg. destruct (execute_returns key w Hg) as (v' & w' & He & Hq).
    congruence.
Qed.

(** The mapping of a concurrent batch holds exactly the keys that are
    not bad. *)
Lemma run_concurrent_partial (keys : list string) (max_concurrent : Z)
  (w : World) :
  (0 < max_concurrent)%Z ->
  exists m,
    fst (Batch.run_concurrent execute keys max_concurrent w) = Batch.Finished m
    /\ (forall k, is_Some (m !! k) <-> In k keys /\ ~ bad k)
    /\ (forall k v, m !! k = Some v -> Q k v).
Proof.
  intros Hmc.
  destruct (BatchFacts.run_concurrent_omits execute keys max_concurrent w Hmc)
    as (m & Hm & Hlen & _ & Hret & Hentry).
  exists m. split; [exact Hm|]. split.
  - intros k. split.
    + intros [v Hv]. destruct (Hentry k v Hv) as (i & Hi & Hout). split.
      * apply list_elem_of_In, list_elem_of_lookup. eauto.
      * intros Hb.
        destruct (proj1 (gather_outcomes keys w i k Hi) Hb) as [e He].
        congruence.
    + intros [Hin Hg].
      apply list_elem_of_In, list_elem_of_lookup in Hin as [i Hi].
      destruct (proj2 (gather_outcomes keys w i k Hi) Hg) as (v & Hv & _).
      exact (proj2 (Hret i k (k, v) Hi Hv)).
  - intros k v Hv. destruct (Hentry k v Hv) as (i & Hi & Hout).
    assert (Hg : ~ bad k).
    { intros Hb.
      destruct (proj1 (gather_outcomes keys w i k Hi) Hb) as [e He].
      congruence. }
    destruct (proj2 (gather_outcomes keys w i k Hi) Hg) as (v' & Hv' & Hq).
    congruence.
Qed.

End Executor.

Section Total.
Context {V : Type}.
Variable execute : string -> M V.
Variable Q : string -> V -> Prop.
Hypothesis execute_returns :
  forall k w, exists v w', execute k w = (Ret v, w') /\ Q k v.

Lemma run_concurrent_complete (keys : list string) (max_concurrent : Z)
  (w : World) :
  (0 < max_concurrent)%Z ->
  exists m,
    fst (Batch.run_concurrent execute keys max_concurrent w) = Batch.Finished m
    /\ (forall k, is_Some (m !! k) <-> In k keys)
    /\ (forall k v, m !! k = Some v -> Q k v).
Proof.
  intros Hmc.
  destruct (run_concurrent_partial execute Q (fun _ => False)
              ltac:(intros k w0 [])
              ltac:(intros k w0 _; apply execute_returns)
              keys max_concurrent w Hmc) as (m & Hm & Hdom & Hval).
  exists m. split; [exact Hm|]. split; [|exact Hval].
  intros k. rewrite Hdom. tauto.
Qed.

Lemma run_sequential_complete (keys : list string) (m0 : gmap string V)
  (w : World) :
  exists m w',
    Batch.run_sequential execute keys m0 w = (Batch.Finished m, w')
    /\ (forall k, is_Some (m !! k) <-> In k keys \/ is_Some (m0 !! k))
    /\ (forall k v, m !! k = Some v -> Q k v \/ m0 !! k = Some v).
Proof.
  revert m0 w. induction keys as [|key keys IH]; intros m0 w;
    cbn [Batch.run_sequential].
  - exists m0, w. split; [reflexivity|]. split; [|auto].
    intros k. cbn [In]. tauto.
  - destruct (execute_returns key w) as (v & w1 & Hv & Hq). rewrite Hv.
    destruct (IH (<[key := v]> m0) w1) as (m & w' & Hrun & Hdom & Hval).
    exists m, w'. split; [exact Hrun|]. split.
    + intros k. rewrite Hdom, lookup_insert_is_Some'. cbn [In].
      split; [intros [H | [H | H]] | intros [[H | H] | H]]; auto.
    + intros k x Hx. destruct (Hval k x Hx) as [H | H]; [auto|].
      destruct (decide (key = k)) as [->|Hne].
      * rewrite lookup_insert_eq in H. injection H as <-. auto.
      * rewrite lookup_insert_ne in H by exact Hne. auto.
Qed.

End Total.

(** The asynchronous runner returns a result, named after the plugin, in
    every world. *)
Lemma execute_plugin_async_returns (settings : Settings) (E : Env)
  (self : VolatilityRunner.Volatility3Runner) (plugin_name : string)
  (extra_args : option (list string)) (w : World) :
  exists r w',
    VolatilityRunner.execute_plugin_async settings E self plugin_name
      extra_args w = (Ret r, w')
    /\ VolatilityRunner.plugin_name r = plugin_name.
Proof.
  unfold VolatilityRunner.execute_plugin_async. RunnerFacts.unfold_calls.
  cbn beta iota.
  destruct (spawn_outcome E _) as [e|]; cbn beta iota.
  { destruct e; eexists _, _; split; reflexivity. }
  destruct (communicate_outcome E _) as [[[code out] err]|e]; cbn beta iota.
  - RunnerFacts.settle_parser; cbn beta iota.
    + eexists _, _; split; reflexivity.
    + destruct e; eexists _, _; split; reflexivity.
  - destruct e; try (eexists _, _; split; reflexivity).
    destruct (kill_outcome E _) as [e|]; cbn beta iota;
      [destruct e|]; eexists _, _; split; reflexivity.
Qed.

(** X11. The plugin batch returns a result for every plugin it is asked
    for and for no other, each under its own name: run one after the
    other, or concurrently with a semaphore of at least one slot. *)
Theorem plugin_batch_complete (settings : Settings) (E : Env)
  (self : VolatilityRunner.Volatility3Runner) (plugin_names : list string)
  (concurrent : bool) (max_concurrent : Z) (w : World) :
  (concurrent = true -> (0 < max_concurrent)%Z) ->
  exists m,
    fst (VolatilityRunner.execute_plugin_batch settings E self plugin_names
           concurrent max_concurrent w) = Batch.Finished m
    /\ (forall k, is_Some (m !! k) <-> In k plugin_names)
    /\ (forall k r, m !! k = Some r -> VolatilityRunner.plugin_name r = k).
Proof.
  intros Hmc. unfold VolatilityRunner.execute_plugin_batch.
  set (execute := fun plugin_name =>
         VolatilityRunner.execute_plugin_async settings E self plugin_name None).
  set (Q := fun (k : string) (r : VolatilityRunner.PluginExecutionResult) =>
         VolatilityRunner.plugin_name r = k).
  assert (Hret : forall k w0, exists v w1, execute k w0 = (Ret v, w1) /\ Q k v)
    by (intros k w0; apply execute_plugin_async_returns).
  destruct concurrent; cbn [negb].
  - exact (run_concurrent_complete execute Q Hret plugin_names max_concurrent w
             (Hmc eq_refl)).
  - destruct (run_sequential_complete execute Q Hret plugin_names ∅ w)
      as (m & w' & Hrun & Hdom & Hval).
    exists m. rewrite Hrun. split; [reflexivity|]. split.
    + intros k. rewrite Hdom, lookup_empty. split; [intros [H | H] | auto].
      * exact H.
      * destruct H as [x Hx]. discriminate.
    + intros k r Hr. destruct (Hval k r Hr) as [H | H]; [exact H|].
      rewrite lookup_empty in H. discriminate.
Qed.

Lemma plugin_batch_complete_witness :
  exists m,
    fst (VolatilityRunner.execute_plugin_batch default_settings
           (Examples.env (Ret (0%Z, "", "")) (Ret (1%Z, "", "boom"))
              (fun _ => Missing) (fun _ => None))
           Examples.runner ["windows.pslist"; "windows.netscan"] true 3
           Examples.world0) = Batch.Finished m
    /\ is_Some (m !! "windows.pslist") /\ is_Some (m !! "windows.netscan")
    /\ m !! "linux.bash" = None.
Proof.
  destruct (plugin_batch_complete default_settings
              (Examples.env (Ret (0%Z, "", "")) (Ret (1%Z, "", "boom"))
                 (fun _ => Missing) (fun _ => None))
              Examples.runner ["windows.pslist"; "windows.netscan"] true 3
              Examples.world0) as (m & Hm & Hdom & _); [lia|].
  exists m. split; [exact Hm|]. repeat split.
  - apply Hdom. cbn. auto.
  - apply Hdom. cbn. auto.
  - apply eq_None_not_Some. rewrite Hdom. cbn.
    intros [H | [H | []]]; discriminate.
Defined.

End BatchCompleteness.

(** ** Construction of the plugin runner *)

Module RunnerSetup.
Import Py VolatilityRunner Spec Terms.

(** X12. Constructing a runner succeeds exactly when the memory image
    exists, the output directory can be made and the probe [<tool>
    --help] ends with exit code 0; the runner then has the paths it was
    given, and as timeout the one it was given unless that is absent or
    0, in which case it has the configured default; exactly the probe was
    spawned. A missing image raises [FileNotFoundError] before anything
    is spawned, and what [exists()] raises leaves the constructor as it
    is. *)
Theorem runner_construction (settings : Settings) (E : Env)
  (image out_dir : string) (timeout : option Z) (w : World) :
  let probe := [VOL3_PATH settings; "--help"] in
  let ready :=
    exists_ E image = Ret true /\ mkdir_outcome E out_dir = None
    /\ exists o e, run_outcome E probe = Ret (0%Z, o, e) in
  ((exists self w', __init__ settings E image out_dir timeout w = (Ret self, w'))
   <-> ready)
  /\ (forall self w',
        __init__ settings E image out_dir timeout w = (Ret self, w') ->
        memory_image_path self = image /\ output_dir self = out_dir
        /\ (forall t, timeout = Some t -> t <> 0%Z -> timeout_seconds self = t)
        /\ (timeout = None \/ timeout = Some 0%Z ->
            timeout_seconds self = VOL3_TIMEOUT_SECONDS settings)
        /\ spawned w' = spawned w ++ [probe])
  /\ (exists_ E image = Ret false ->
      exists msg, __init__ settings E image out_dir timeout w
                  = (Raise (FileNotFoundError msg), w))
  /\ (forall e, exists_ E image = Raise e ->
      __init__ settings E image out_dir timeout w = (Raise e, w)).
Proof.
  intros probe ready. subst probe ready.
  unfold __init__, _verify_volatility_installation.
  RunnerFacts.unfold_calls.
  destruct (exists_ E image) as [[|]|e0] eqn:Hex; cbn [negb].
  2:{ split; [|split; [|split]].
      - split; [intros (self & w' & H); discriminate
               | intros (H & _); discriminate].
      - intros self w' H. discriminate.
      - intros _. eauto.
      - discriminate. }
  2:{ split; [|split; [|split]].
      - split; [intros (self & w' & H); discriminate
               | intros (H & _); discriminate].
      - intros self w' H. discriminate.
      - discriminate.
      - intros e [= <-]. reflexivity. }
  destruct (mkdir_outcome E out_dir) as [e|] eqn:Hmk.
  { split; [|split; [|split]].
    - split; [intros (self & w' & H); discriminate
             | intros (_ & H & _); discriminate].
    - intros self w' H. discriminate.
    - discriminate.
    - discriminate. }
  simpl.
  destruct (run_outcome E _) as [[[code o] e]|e] eqn:Hrun; simpl.
  - destruct (Z.eqb_spec code 0) as [->|Hc]; simpl.
    + split; [|split; [|split]].
      * split; [intros _; eauto 6 | intros _; eauto].
      * intros self w' [= <- <-]. simpl.
        repeat split; try reflexivity.
        -- intros t -> Ht. destruct (Z.eqb_spec t 0); [contradiction|].
           reflexivity.
        -- intros [-> | ->]; reflexivity.
      * discriminate.
      * discriminate.
    + split; [|split; [|split]].
      * split; [intros (self & w' & H); discriminate|].
        intros (_ & _ & o' & e' & [= H _ _]). contradiction.
      * intros self w' H. discriminate.
      * discriminate.
      * discriminate.
  - split; [|split; [|split]].
    + split; [intros (self & w' & H); destruct e; discriminate|].
      intros (_ & _ & o' & e' & H). discriminate.
    + intros self w' H. destruct e; discriminate.
    + discriminate.
    + discriminate.
Qed.

Lemma runner_construction_witness :
  let E := Examples.env (Ret (0%Z, "usage", "")) (Ret (0%Z, "", ""))
             (fun _ => Content "") (fun _ => None) in
  exists self w',
    __init__ default_settings E "/data/mem.raw" "/out" (Some 0%Z)
      Examples.world0 = (Ret self, w')
    /\ timeout_seconds self = 3600%Z.
Proof.
  intros E.
  destruct (runner_construction default_settings E "/data/mem.raw" "/out"
              (Some 0%Z) Examples.world0) as (Hiff & Hshape & _ & _).
  destruct (proj2 Hiff) as (self & w' & Hinit).
  - repeat split. exists "usage", "". reflexivity.
  - exists self, w'. split; [exact Hinit|].
    destruct (Hshape self w' Hinit) as (_ & _ & _ & Hdefault & _).
    apply Hdefault. right. reflexivity.
Defined.

End RunnerSetup.

(** ** The analyzers of artifacts, tool enabled or not *)

Module AnalyzerInvariants.
Import Py ArtifactProcessor Spec Terms PyStrFacts.

#[local] Arguments PyStr.take : simpl never.
#[local] Arguments PyStr.str_of_Z : simpl never.
#[local] Arguments _parse_binwalk_output : simpl never.
#[local] Arguments first_record : simpl never.

(** What one call of [analyze_file] comes to: it raises what making the
    extraction directory raised, and otherwise returns a result. *)
Lemma analyze_file_outcome (settings : Settings) (E : Env)
  (self : BinwalkAnalyzer) (file_path : string) (extract : bool)
  (timeout_seconds : Z) (w : World) :
  let d := extract_dir_of E self file_path in
  let cmd := binwalk_command settings E self file_path extract in
  (BINWALK_ENABLED settings = true ->
   forall e, mkdir_outcome E d = Some e ->
     exists w',
       analyze_file settings E self file_path extract timeout_seconds w
       = (Raise e, w') /\ spawned w' = spawned w)
  /\ (BINWALK_ENABLED settings = false \/ mkdir_outcome E d = None ->
      exists r w',
        analyze_file settings E self file_path extract timeout_seconds w
        = (Ret r, w')
        /\ ArtifactProcessor.file_path r = file_path
        /\ (success r = true <-> error_message r = None)
        /\ (extract = false -> extracted_files r = [])
        /\ (success r = true ->
            BINWALK_ENABLED settings = true
            /\ exists code_out err,
                 communicate_outcome E cmd = Ret (0%Z, code_out, err)
                 /\ signatures_found r
                    = _parse_binwalk_output (decode_replace E code_out))).
Proof.
  intros d cmd. subst d cmd. unfold extract_dir_of, binwalk_command.
  unfold analyze_file. split.
  - intros Hon e Hmk. rewrite Hon. cbn [negb].
    RunnerFacts.unfold_calls. simpl. rewrite Hmk. simpl. eauto.
  - intros Hok. destruct (BINWALK_ENABLED settings) eqn:Hon; cbn [negb].
    2:{ RunnerFacts.unfold_calls. eexists _, _.
        split; [reflexivity|]. simpl.
        repeat split; try discriminate; auto. }
    destruct Hok as [Hok | Hmk]; [discriminate|].
    RunnerFacts.unfold_calls. simpl. rewrite Hmk. simpl.
    destruct (spawn_outcome E _) as [e|]; simpl.
    { destruct e; eexists _, _; (split; [reflexivity|]); simpl;
        repeat split; try discriminate; auto. }
    destruct (communicate_outcome E _) as [[[code out] err]|e] eqn:Hcomm;
      simpl.
    2:{ destruct e; eexists _, _; (split; [reflexivity|]); simpl;
          repeat split; try discriminate; auto. }
    destruct extract.
    + destruct (files_below E _) as [[found|e]|]; simpl.
      * destruct (Z.eqb_spec code 0) as [->|Hc]; simpl.
        -- eexists _, _. split; [reflexivity|]. simpl.
           repeat split; try discriminate; eauto.
        -- destruct (decode_strict E err) as [text|e]; simpl.
           ++ eexists _, _. split; [reflexivity|]. simpl.
              repeat split; try discriminate; auto.
           ++ destruct e; eexists _, _; (split; [reflexivity|]); simpl;
                repeat split; try discriminate; auto.
      * destruct e; eexists _, _; (split; [reflexivity|]); simpl;
          repeat split; try discriminate; auto.
      * destruct (Z.eqb_spec code 0) as [->|Hc]; simpl.
        -- eexists _, _. split; [reflexivity|]. simpl.
           repeat split; try discriminate; eauto.
        -- destruct (decode_strict E err) as [text|e]; simpl.
           ++ eexists _, _. split; [reflexivity|]. simpl.
              repeat split; try discriminate; auto.
           ++ destruct e; eexists _, _; (split; [reflexivity|]); simpl;
                repeat split; try discriminate; auto.
    + simpl. destruct (Z.eqb_spec code 0) as [->|Hc]; simpl.
      * eexists _, _. split; [reflexivity|]. simpl.
        repeat split; try discriminate; eauto.
      * destruct (decode_strict E err) as [text|e]; simpl.
        -- eexists _, _. split; [reflexivity|]. simpl.
           repeat split; try discriminate; auto.
        -- destruct e; eexists _, _; (split; [reflexivity|]); simpl;
             repeat split; try discriminate; auto.
Qed.

(** Read the other way round: what a call that raised, or returned,
    says about the extraction directory. *)
Lemma analyze_file_inversion (settings : Settings) (E : Env)
  (self : BinwalkAnalyzer) (file_path : string) (extract : bool)
  (timeout_seconds : Z) (w : World) :
  match analyze_file settings E self file_path extract timeout_seconds w with
  | (Raise e, w') =>
      BINWALK_ENABLED settings = true
      /\ mkdir_outcome E (extract_dir_of E self file_path) = Some e
      /\ spawned w' = spawned w
  | (Ret r, _) =>
      BINWALK_ENABLED settings = false
      \/ mkdir_outcome E (extract_dir_of E self file_path) = None
  end.
Proof.
  destruct (analyze_file_outcome settings E self file_path extract
              timeout_seconds w) as [Hraise Hret].
  cbv zeta in Hraise, Hret.
  destruct (BINWALK_ENABLED settings) eqn:Hon.
  - destruct (mkdir_outcome E (extract_dir_of E self file_path))
      as [e0|] eqn:Hmk.
    + destruct (Hraise eq_refl e0 eq_refl) as (w0 & -> & Hs). auto.
    + destruct (Hret (or_intror eq_refl)) as (r & w0 & -> & _). auto.
  - destruct (Hret (or_introl eq_refl)) as (r & w0 & -> & _). auto.
Qed.

(** X13. [analyze_file] raises exactly when the tool is enabled and the
    extraction directory of the artifact cannot be made; it then raises
    that very exception and has spawned nothing. Every other failure
    comes back as a result. *)
Theorem analyze_file_raises_iff (settings : Settings) (E : Env)
  (self : BinwalkAnalyzer) (file_path : string) (extract : bool)
  (timeout_seconds : Z) (w : World) :
  let d := path_join E (extraction_dir self) (path_stem E file_path +:+ "_binwalk") in
  ((exists e w',
      analyze_file settings E self file_path extract timeout_seconds w
      = (Raise e, w'))
   <-> BINWALK_ENABLED settings = true /\ exists e, mkdir_outcome E d = Some e)
  /\ (forall e w',
        analyze_file settings E self file_path extract timeout_seconds w
        = (Raise e, w') ->
        mkdir_outcome E d = Some e /\ spawned w' = spawned w).
Proof.
  intros d.
  destruct (analyze_file_outcome settings E self file_path extract
              timeout_seconds w) as [Hraise Hret].
  fold d in Hraise, Hret. unfold extract_dir_of in Hraise, Hret. fold d in Hraise, Hret.
  assert (Hinv : forall e w',
            analyze_file settings E self file_path extract timeout_seconds w
            = (Raise e, w') ->
            BINWALK_ENABLED settings = true /\ mkdir_outcome E d = Some e
            /\ spawned w' = spawned w).
  { intros e w' H.
    destruct (BINWALK_ENABLED settings) eqn:Hon.
    - destruct (mkdir_outcome E d) as [e0|] eqn:Hmk.
      + destruct (Hraise eq_refl e0 eq_refl) as (w0 & H0 & Hs).
        rewrite H in H0. injection H0 as -> ->. auto.
      + destruct (Hret (or_intror eq_refl)) as (r & w0 & H0 & _).
        congruence.
    - destruct (Hret (or_introl eq_refl)) as (r & w0 & H0 & _). congruence. }
  split.
  - split.
    + intros (e & w' & H). destruct (Hinv e w' H) as (Hon & Hmk & _). eauto.
    + intros (Hon & e & Hmk). destruct (Hraise Hon e Hmk) as (w' & H & _).
      eauto.
  - intros e w' H. destruct (Hinv e w' H) as (_ & Hmk & Hs). auto.
Qed.

Lemma analyze_file_raises_iff_witness :
  let E := Examples.env (Ret (0%Z, "", "")) (Ret (0%Z, "", ""))
             (fun _ => Missing)
             (fun _ => Some (Exception "Permission denied")) in
  exists w',
    analyze_file default_settings E Examples.analyzer "locked" true 300
      Examples.world0 = (Raise (Exception "Permission denied"), w')
    /\ spawned w' = [].
Proof.
  intros E.
  destruct (analyze_file_raises_iff default_settings E Examples.analyzer
              "locked" true 300 Examples.world0) as [Hiff Hinv].
  destruct (proj2 Hiff) as (e & w' & H).
  - split; [reflexivity|]. eexists. reflexivity.
  - destruct (Hinv e w' H) as [Hmk Hs]. injection Hmk as <-.
    exists w'. auto.
Defined.

(** X14. A result of [analyze_file] is successful exactly when it has
    no error message; it is successful only if the tool is enabled and
    the process ended with exit code 0, and its signatures are then those
    parsed from the decoded stdout; without extraction it lists no
    extracted file. *)
Theorem binwalk_result_invariants (settings : Settings) (E : Env)
  (self : BinwalkAnalyzer) (file_path : string) (extract : bool)
  (timeout_seconds : Z) (w : World) (r : BinwalkResult) (w' : World) :
  analyze_file settings E self file_path extract timeout_seconds w
  = (Ret r, w') ->
  ArtifactProcessor.file_path r = file_path
  /\ (success r = true <-> error_message r = None)
  /\ (extract = false -> extracted_files r = [])
  /\ (success r = true ->
      BINWALK_ENABLED settings = true
      /\ exists out err,
           communicate_outcome E
             (binwalk_command settings E self file_path extract)
           = Ret (0%Z, out, err)
           /\ signatures_found r
              = _parse_binwalk_output (decode_replace E out)).
Proof.
  intros H.
  destruct (analyze_file_outcome settings E self file_path extract
              timeout_seconds w) as [Hraise Hret].
  cbv zeta in Hraise, Hret.
  destruct (BINWALK_ENABLED settings) eqn:Hon.
  - destruct (mkdir_outcome E (extract_dir_of E self file_path))
      as [e0|] eqn:Hmk.
    + destruct (Hraise eq_refl e0 eq_refl) as (w0 & H0 & _). congruence.
    + destruct (Hret (or_intror eq_refl)) as (r0 & w0 & H0 & Hprops).
      rewrite H in H0. injection H0 as <- <-. exact Hprops.
  - destruct (Hret (or_introl eq_refl)) as (r0 & w0 & H0 & Hprops).
    rewrite H in H0. injection H0 as <- <-. exact Hprops.
Qed.

Lemma binwalk_result_invariants_witness :
  let E := Examples.env (Ret (0%Z, "", ""))
             (Ret (0%Z, "41  0x29  Zlib compressed data", ""))
             (fun _ => Missing) (fun _ => None) in
  exists r w',
    analyze_file default_settings E Examples.analyzer "dump" false 300
      Examples.world0 = (Ret r, w')
    /\ success r = true /\ error_message r = None
    /\ extracted_files r = [].
Proof.
  intros E.
  destruct (analyze_file default_settings E Examples.analyzer "dump" false 300
              Examples.world0) as [[r|e] w'] eqn:H;
    [|vm_compute in H; discriminate].
  exists r, w'. split; [reflexivity|].
  destruct (binwalk_result_invariants default_settings E Examples.analyzer
              "dump" false 300 Examples.world0 r w' H)
    as (_ & Hiff & Hex & _).
  assert (Hs : success r = true)
    by (vm_compute in H; injection H as <- _; reflexivity).
  split; [exact Hs|]. split; [apply Hiff; exact Hs | apply Hex; reflexivity].
Defined.

(** X15. With a semaphore of at least one slot the binwalk batch ends
    with a mapping that holds a path exactly when it was asked for and,
    the tool being enabled, its extraction directory could be made; the
    result under a path is the result for that path. *)
Theorem analyze_batch_entries (settings : Settings) (E : Env)
  (self : BinwalkAnalyzer) (file_paths : list string) (extract : bool)
  (max_concurrent : Z) (w : World) :
  (0 < max_concurrent)%Z ->
  exists m,
    fst (analyze_batch settings E self file_paths extract max_concurrent w)
    = Batch.Finished m
    /\ (forall p,
          is_Some (m !! p)
          <-> In p file_paths
              /\ (BINWALK_ENABLED settings = false
                  \/ mkdir_outcome E
                       (path_join E (extraction_dir self)
                          (path_stem E p +:+ "_binwalk")) = None))
    /\ (forall p r, m !! p = Some r -> ArtifactProcessor.file_path r = p).
Proof.
  intros Hmc. unfold analyze_batch.
  set (execute := fun file_path =>
         analyze_file settings E self file_path extract 300).
  set (bad := fun p =>
         BINWALK_ENABLED settings = true
         /\ exists e, mkdir_outcome E (extract_dir_of E self p) = Some e).
  destruct (BatchCompleteness.run_concurrent_partial execute
              (fun p r => ArtifactProcessor.file_path r = p) bad)
    with (keys := file_paths) (max_concurrent := max_concurrent) (w := w)
    as (m & Hm & Hdom & Hval).
  - intros p w0 (Hon & e & Hmk).
    destruct (analyze_file_outcome settings E self p extract 300 w0)
      as [Hraise _].
    destruct (Hraise Hon e Hmk) as (w' & H & _). eauto.
  - intros p w0 Hgood.
    destruct (analyze_file_outcome settings E self p extract 300 w0)
      as [_ Hret].
    destruct Hret as (r & w' & H & Hp & _); [|eauto].
    unfold bad in Hgood.
    destruct (BINWALK_ENABLED settings); [|auto].
    destruct (mkdir_outcome E (extract_dir_of E self p)); [|auto].
    exfalso. apply Hgood. eauto.
  - exact Hmc.
  - exists m. split; [exact Hm|]. split; [|exact Hval].
    intros p. rewrite Hdom. unfold bad, extract_dir_of.
    destruct (BINWALK_ENABLED settings);
      destruct (mkdir_outcome E _) as [e|];
      split; intros [Hin H]; (split; [exact Hin|]); auto.
    + exfalso. apply H. eauto.
    + destruct H; discriminate.
    + intros [_ [e' He']]. discriminate.
    + intros [H' _]. discriminate.
    + intros [H' _]. discriminate.
Qed.

Lemma analyze_batch_entries_witness :
  let E := Examples.env (Ret (0%Z, "", "")) (Ret (0%Z, "", ""))
             (fun _ => Missing)
             (fun dir =>
                if String.eqb dir "/out/binwalk/locked_binwalk"
                then Some (Exception "Permission denied") else None) in
  exists m,
    fst (analyze_batch default_settings E Examples.analyzer
           ["dump"; "locked"; "image"] true 2 Examples.world0)
    = Batch.Finished m
    /\ is_Some (m !! "dump") /\ m !! "locked" = None
    /\ is_Some (m !! "image").
Proof.
  intros E.
  destruct (analyze_batch_entries default_settings E Examples.analyzer
              ["dump"; "locked"; "image"] true 2 Examples.world0)
    as (m & Hm & Hdom & _); [lia|].
  exists m. split; [exact Hm|]. repeat split.
  - apply Hdom. split; [cbn; auto | right; reflexivity].
  - apply eq_None_not_Some. rewrite Hdom.
    intros [_ [H | H]]; discriminate.
  - apply Hdom. split; [cbn; auto | right; reflexivity].
Defined.

End AnalyzerInvariants.

(** ** More on the signature table *)

Module SignatureTableInvariants.
Import Py ArtifactProcessor Spec Terms PyStrFacts.

#[local] Arguments PyStr.strip : simpl never.
#[local] Arguments finding_of_line : simpl never.

Lemma append_nil_l (s : string) : EmptyString +:+ s = s.
Proof. reflexivity. Qed.

Lemma split_char_cons (sep : ascii) (s : string) :
  exists h t, PyStr.split_char sep s = h :: t.
Proof.
  destruct s as [|c s]; cbn [PyStr.split_char]; [eauto|].
  destruct (Ascii.eqb c sep); [eauto|].
  destruct (PyStr.split_char sep s); eauto.
Qed.

(** Splitting at line feeds: a text made of two parts with a line feed
    between them has the lines of the first part, then those of the
    second. *)
Lemma split_char_append (a b : string) :
  PyStr.split_char PyStr.LF (a +:+ String PyStr.LF b)
  = PyStr.split_char PyStr.LF a ++ PyStr.split_char PyStr.LF b.
Proof.
  induction a as [|c a IH].
  - rewrite append_nil_l. reflexivity.
  - rewrite append_cons. cbn [PyStr.split_char].
    destruct (Ascii.eqb c PyStr.LF).
    + rewrite IH. reflexivity.
    + rewrite IH. destruct (split_char_cons PyStr.LF a) as (h & t & ->).
      reflexivity.
Qed.

Lemma findings_of_lines_app (l1 l2 : list string) :
  findings_of_lines (l1 ++ l2) = findings_of_lines l1 ++ findings_of_lines l2.
Proof.
  induction l1 as [|l l1 IH]; [reflexivity|].
  cbn [app findings_of_lines]. rewrite IH.
  destruct (finding_of_line l); reflexivity.
Qed.

Lemma parse_binwalk_output_lines (output : string) :
  _parse_binwalk_output output
  = findings_of_lines (PyStr.split_char PyStr.LF output).
Proof.
  unfold _parse_binwalk_output.
  now rewrite SignatureTableFacts.parse_lines_findings.
Qed.

(** X16. The findings of two outputs put one after the other, with a
    line feed between them, are the findings of the first followed by
    those of the second. *)
Theorem parse_binwalk_output_append (a b : string) :
  _parse_binwalk_output (a +:+ String PyStr.LF b)
  = _parse_binwalk_output a ++ _parse_binwalk_output b.
Proof.
  rewrite !parse_binwalk_output_lines, split_char_append.
  apply findings_of_lines_app.
Qed.

(** *** Windows line ends *)

Lemma rstrip_append_blank (x : string) (c : ascii) :
  PyStr.isspace c = true ->
  PyStr.rstrip (x +:+ String c EmptyString) = PyStr.rstrip x.
Proof.
  intros Hc. induction x as [|a x IH].
  - rewrite append_nil_l. cbn [PyStr.rstrip]. now rewrite Hc.
  - rewrite append_cons. cbn [PyStr.rstrip]. now rewrite IH.
Qed.

Lemma lstrip_append_blank (l : string) (c : ascii) :
  PyStr.isspace c = true ->
  PyStr.lstrip (l +:+ String c EmptyString)
  = match PyStr.lstrip l with
    | EmptyString => EmptyString
    | kept => kept +:+ String c EmptyString
    end.
Proof.
  intros Hc. induction l as [|a l IH].
  - rewrite append_nil_l. cbn [PyStr.lstrip]. now rewrite Hc.
  - rewrite append_cons. cbn [PyStr.lstrip].
    destruct (PyStr.isspace a); [exact IH | reflexivity].
Qed.

(** A blank at the end of a line does not change what the line is
    stripped to. *)
Lemma strip_append_blank (l : string) (c : ascii) :
  PyStr.isspace c = true ->
  PyStr.strip (l +:+ String c EmptyString) = PyStr.strip l.
Proof.
  intros Hc. unfold PyStr.strip. rewrite (lstrip_append_blank l c Hc).
  destruct (PyStr.lstrip l) as [|a kept]; [reflexivity|].
  apply rstrip_append_blank. exact Hc.
Qed.

Lemma finding_of_line_cr (l : string) :
  finding_of_line (l +:+ String PyStr.CR EmptyString) = finding_of_line l.
Proof.
  unfold finding_of_line. now rewrite strip_append_blank.
Qed.

Lemma cr_but_last_cons (l : string) (h : string) (t : list string) :
  cr_but_last (l :: h :: t)
  = (l +:+ String PyStr.CR EmptyString) :: cr_but_last (h :: t).
Proof. reflexivity. Qed.

(** The lines of a text with Windows line ends are the lines of the
    text, all but the last with a CR at the end. *)
Lemma split_char_crlf (s : string) :
  PyStr.split_char PyStr.LF (crlf s)
  = cr_but_last (PyStr.split_char PyStr.LF s).
Proof.
  induction s as [|c s IH]; [reflexivity|].
  cbn [crlf PyStr.split_char].
  destruct (split_char_cons PyStr.LF s) as (h & t & Hs).
  destruct (Ascii.eqb c PyStr.LF) eqn:Hc.
  - cbn [PyStr.split_char].
    change (Ascii.eqb PyStr.CR PyStr.LF) with false.
    change (Ascii.eqb PyStr.LF PyStr.LF) with true.
    cbn iota. rewrite IH, Hs. rewrite cr_but_last_cons. reflexivity.
  - cbn [PyStr.split_char]. rewrite Hc, IH, Hs.
    destruct t as [|h' t]; [reflexivity|].
    rewrite !cr_but_last_cons. reflexivity.
Qed.

Lemma findings_of_cr_but_last (lines : list string) :
  findings_of_lines (cr_but_last lines) = findings_of_lines lines.
Proof.
  induction lines as [|l [|h t] IH]; [reflexivity | reflexivity |].
  rewrite cr_but_last_cons. cbn [findings_of_lines] in *.
  rewrite finding_of_line_cr, IH. reflexivity.
Qed.

(** X17. Windows line ends make no difference to the signature table:
    an output with a CR before every line feed has the findings of the
    output without them. *)
Theorem parse_binwalk_output_crlf (output : string) :
  _parse_binwalk_output (crlf output) = _parse_binwalk_output output.
Proof.
  rewrite !parse_binwalk_output_lines, split_char_crlf.
  apply findings_of_cr_but_last.
Qed.

End SignatureTableInvariants.

(** ** The metadata extractor *)

Module MetadataInvariants.
Import Py ArtifactProcessor Spec Terms.

#[local] Arguments PyStr.take : simpl never.
#[local] Arguments PyStr.str_of_Z : simpl never.
#[local] Arguments first_record : simpl never.

(** The decoded outputs [first_record] accepts: a false value, which
    leaves the metadata empty, and an array whose first element is an
    object. *)
Lemma first_record_accepts (json_data : Json.value)
  (record : Json.value * Json.value) :
  first_record json_data = Ret record
  <-> (Json.truthy json_data = false /\ record = (Json.JObj [], Json.JNull))
      \/ (exists members rest,
            json_data = Json.JArr (Json.JObj members :: rest)
            /\ record = (Json.JObj members, file_type_in members)).
Proof.
  unfold first_record, file_type_in, file_type_of.
  destruct json_data as [|b|n|q|s|items|members]; cbn [Json.truthy negb].
  - split; [intros [= <-]; auto|].
    intros [[_ ->] | (m & r & H & _)]; [reflexivity | discriminate].
  - destruct b; cbn [negb].
    + split; [discriminate|].
      intros [[H _] | (m & r & H & _)]; discriminate.
    + split; [intros [= <-]; auto|].
      intros [[_ ->] | (m & r & H & _)]; [reflexivity | discriminate].
  - destruct (n =? 0)%Z; cbn [negb].
    + split; [intros [= <-]; auto|].
      intros [[_ ->] | (m & r & H & _)]; [reflexivity | discriminate].
    + split; [discriminate|].
      intros [[H _] | (m & r & H & _)]; discriminate.
  - destruct (Qeq_bool q 0); cbn [negb].
    + split; [intros [= <-]; auto|].
      intros [[_ ->] | (m & r & H & _)]; [reflexivity | discriminate].
    + split; [discriminate|].
      intros [[H _] | (m & r & H & _)]; discriminate.
  - destruct s as [|c s]; cbn [PyStr.truthy negb].
    + split; [intros [= <-]; auto|].
      intros [[_ ->] | (m & r & H & _)]; [reflexivity | discriminate].
    + split; [discriminate|].
      intros [[H _] | (m & r & H & _)]; discriminate.
  - destruct items as [|first rest]; cbn [negb].
    + split; [intros [= <-]; auto|].
      intros [[_ ->] | (m & r & H & _)]; [reflexivity | discriminate].
    + destruct first as [| | | | | |members];
        try (split; [discriminate|];
             intros [[H _] | (m & r & H & _)]; discriminate).
      split.
      * intros [= <-]. right. eauto.
      * intros [[H _] | (m & r & [= <- <-] & ->)]; [discriminate|].
        reflexivity.
  - destruct members as [|kv members]; cbn [negb].
    + split; [intros [= <-]; auto|].
      intros [[_ ->] | (m & r & H & _)]; [reflexivity | discriminate].
    + split; [discriminate|].
      intros [[H _] | (m & r & H & _)]; discriminate.
Qed.

(** [extract_metadata] has no step outside its handlers: it returns in
    every world, with the path it was given. *)
Lemma metadata_result_total (settings : Settings) (E : Env)
  (file_path : string) (timeout_seconds : Z) (w : World) :
  exists r w',
    extract_metadata settings E file_path timeout_seconds w = (Ret r, w')
    /\ exif_file_path r = file_path.
Proof.
  unfold extract_metadata.
  destruct (EXIFTOOL_ENABLED settings); cbn [negb].
  2:{ RunnerFacts.unfold_calls. eexists _, _. split; reflexivity. }
  RunnerFacts.unfold_calls. simpl.
  destruct (spawn_outcome E _) as [e|]; simpl.
  { destruct e; eexists _, _; split; reflexivity. }
  destruct (communicate_outcome E _) as [[[code out] err]|e]; simpl.
  2:{ destruct e; eexists _, _; split; reflexivity. }
  destruct (code =? 0)%Z; simpl.
  - destruct (json_loads E _) as [json_data|msg|msg]; simpl.
    + destruct (first_record json_data) as [record|e]; simpl.
      * eexists _, _; split; reflexivity.
      * destruct e; eexists _, _; split; reflexivity.
    + eexists _, _; split; reflexivity.
    + eexists _, _; split; reflexivity.
  - destruct (decode_strict E err) as [text|e]; simpl.
    + eexists _, _; split; reflexivity.
    + destruct e; eexists _, _; split; reflexivity.
Qed.

(** X18. [extract_metadata] returns a result in every world, for the
    file it was given; the result is successful exactly when it has no
    error message, and an unsuccessful one carries no metadata and no
    file type. *)
Theorem metadata_result_invariants (settings : Settings) (E : Env)
  (file_path : string) (timeout_seconds : Z) (w : World) :
  returns (extract_metadata settings E file_path timeout_seconds) w
    (fun r =>
       exif_file_path r = file_path
       /\ (exif_success r = true <-> exif_error_message r = None)
       /\ (exif_success r = false ->
           metadata r = Json.JObj [] /\ file_type r = Json.JNull)).
Proof.
  unfold returns, extract_metadata.
  destruct (EXIFTOOL_ENABLED settings); cbn [negb].
  2:{ RunnerFacts.unfold_calls. simpl. repeat split; discriminate. }
  RunnerFacts.unfold_calls. simpl.
  destruct (spawn_outcome E _) as [e|]; simpl.
  { destruct e; simpl; repeat split; discriminate. }
  destruct (communicate_outcome E _) as [[[code out] err]|e]; simpl.
  2:{ destruct e; simpl; repeat split; discriminate. }
  destruct (Z.eqb_spec code 0) as [->|Hc]; simpl.
  - destruct (json_loads E _) as [json_data|msg|msg]; simpl.
    + destruct (first_record json_data) as [record|e]; simpl.
      * repeat split; discriminate.
      * destruct e; simpl; repeat split; discriminate.
    + repeat split; discriminate.
    + repeat split; discriminate.
  - destruct (decode_strict E err) as [text|e]; simpl.
    + repeat split; discriminate.
    + destruct e; simpl; repeat split; discriminate.
Qed.

(** X19. Exit code 0 is not enough for a successful metadata result:
    when the process ends with exit code 0 the result is successful
    exactly when its stdout is malformed JSON, a false JSON value, or an
    array whose first element is an object. Only in the last case is
    there metadata: that object, with the file type read from its
    [FileType], or from its [MIMEType] when [FileType] is missing or
    false. *)
Theorem metadata_success_on_exit_zero (settings : Settings) (E : Env)
  (file_path : string) (timeout_seconds : Z) (w : World) (out err : string) :
  let cmd := [EXIFTOOL_PATH settings; "-json"; "-g"; "-a"; "-s"; file_path] in
  let decoded := json_loads E (decode_replace E out) in
  EXIFTOOL_ENABLED settings = true ->
  spawn_outcome E cmd = None ->
  communicate_outcome E cmd = Ret (0%Z, out, err) ->
  returns (extract_metadata settings E file_path timeout_seconds) w
    (fun r =>
       (exif_success r = true
        <-> (exists msg, decoded = Json.JSONDecodeError msg)
            \/ (exists v, decoded = Json.Decoded v /\ Json.truthy v = false)
            \/ (exists members rest,
                  decoded = Json.Decoded (Json.JArr (Json.JObj members :: rest))))
       /\ (forall members rest,
             decoded = Json.Decoded (Json.JArr (Json.JObj members :: rest)) ->
             metadata r = Json.JObj members
             /\ file_type r = file_type_in members)
       /\ ((exists msg, decoded = Json.JSONDecodeError msg)
           \/ (exists v, decoded = Json.Decoded v /\ Json.truthy v = false) ->
           metadata r = Json.JObj [] /\ file_type r = Json.JNull)).
Proof.
  intros cmd decoded Hon Hspawn Hcomm. subst cmd decoded.
  unfold returns, extract_metadata. rewrite Hon. cbn [negb].
  RunnerFacts.unfold_calls. simpl. rewrite Hspawn. simpl.
  rewrite Hcomm. simpl.
  destruct (json_loads E (decode_replace E out)) as [v|msg|msg]; simpl.
  - destruct (first_record v) as [record|e] eqn:Hrec; simpl.
    + apply first_record_accepts in Hrec
        as [[Hfalse ->] | (members & rest & -> & ->)]; simpl.
      * split; [split; [eauto 6 | reflexivity]|]. split.
        -- intros members rest [= ->]. discriminate.
        -- auto.
      * split; [split; [eauto 8 | reflexivity]|]. split.
        -- intros m r [= <- <-]. auto.
        -- intros [(msg & H) | (v & [= <-] & H)]; discriminate.
    + assert (Hno : forall record, first_record v <> Ret record)
        by (intros record H; congruence).
      assert (Hsucc : ~ ((exists msg, @eq Json.decoded (Json.Decoded v)
                                        (Json.JSONDecodeError msg))
                         \/ (exists v0, Json.Decoded v = Json.Decoded v0
                                        /\ Json.truthy v0 = false)
                         \/ (exists members rest,
                               Json.Decoded v
                               = Json.Decoded
                                   (Json.JArr (Json.JObj members :: rest))))).
      { intros [(msg & H) | [(v0 & [= <-] & H) | (m & r & [= ->])]].
        - discriminate.
        - apply (Hno (Json.JObj [], Json.JNull)).
          apply first_record_accepts. auto.
        - apply (Hno (Json.JObj m, file_type_in m)).
          apply first_record_accepts. right. eauto. }
      destruct e; simpl;
        (split; [split; [discriminate | intros H; destruct (Hsucc H)]|]);
        (split;
         [intros m r H; exfalso; apply Hsucc; right; right; eauto
         |intros _; auto]).
  - split; [split; [eauto | reflexivity]|]. split.
    + intros m r H. discriminate.
    + auto.
  - split.
    + split; [discriminate|].
      intros [(m & H) | [(v & H & _) | (m & r & H)]]; discriminate.
    + split.
      * intros m r H. discriminate.
      * auto.
Qed.

Lemma metadata_success_on_exit_zero_witness :
  let E := Examples.env (Ret (0%Z, "", "")) (Ret (0%Z, "not json", ""))
             (fun _ => Missing) (fun _ => None) in
  returns (extract_metadata default_settings E "/out/artifacts/dump.bin" 60)
    Examples.world0
    (fun r => exif_success r = true /\ metadata r = Json.JObj []).
Proof.
  intros E.
  pose proof (metadata_success_on_exit_zero default_settings E
                "/out/artifacts/dump.bin" 60 Examples.world0 "not json" ""
                eq_refl eq_refl eq_refl) as H.
  unfold returns in *.
  destruct (fst _) as [r|]; [|exact H].
  destruct H as (Hiff & _ & Hempty).
  assert (Hmal : exists msg,
             json_loads E (decode_replace E "not json")
             = Json.JSONDecodeError msg) by (eexists; reflexivity).
  split; [apply Hiff; auto | apply Hempty; auto].
Defined.

(** X20. With a semaphore of at least one slot the metadata batch ends
    with a mapping that holds a result for every path it was asked for
    and for no other, each the result for its path. *)
Theorem metadata_batch_complete (settings : Settings) (E : Env)
  (file_paths : list string) (max_concurrent : Z) (w : World) :
  (0 < max_concurrent)%Z ->
  exists m,
    fst (Analyzers.Exiftool.extract_metadata_batch settings E file_paths
           max_concurrent w) = Batch.Finished m
    /\ (forall p, is_Some (m !! p) <-> In p file_paths)
    /\ (forall p r, m !! p = Some r -> exif_file_path r = p).
Proof.
  intros Hmc. unfold Analyzers.Exiftool.extract_metadata_batch.
  apply (BatchCompleteness.run_concurrent_complete
           (fun file_path => extract_metadata settings E file_path 60)
           (fun p r => exif_file_path r = p)); [|exact Hmc].
  intros p w0.
  pose proof (metadata_result_total settings E p 60 w0) as H.
  exact H.
Qed.

Lemma metadata_batch_complete_witness :
  exists m,
    fst (Analyzers.Exiftool.extract_metadata_batch default_settings
           (Examples.env (Ret (0%Z, "", "")) (Ret (0%Z, "", ""))
              (fun _ => Missing) (fun _ => None))
           ["/a/one.jpg"; "/a/two.jpg"] 4 Examples.world0) = Batch.Finished m
    /\ (forall p, is_Some (m !! p) <-> In p ["/a/one.jpg"; "/a/two.jpg"])
    /\ (forall p r, m !! p = Some r -> exif_file_path r = p).
Proof.
  apply (metadata_batch_complete default_settings
           (Examples.env (Ret (0%Z, "", "")) (Ret (0%Z, "", ""))
              (fun _ => Missing) (fun _ => None))
           ["/a/one.jpg"; "/a/two.jpg"] 4 Examples.world0).
  lia.
Defined.

End MetadataInvariants.

(** ** The coordinator of the analyzers *)

Module CoordinatorInvariants.
Import Py ArtifactProcessor Spec Terms.
Import Analyzers.Processor.

#[local] Arguments analyze_file : simpl never.
#[local] Arguments extract_metadata : simpl never.

(** What one call of [process_artifact] comes to: it raises what asking
    for the size of the artifact raises, and otherwise returns a report
    with an entry for each tool that was asked for and is enabled. *)
Lemma process_artifact_outcome (settings : Settings) (E : Env)
  (st_size : string -> res Z) (self : ArtifactProcessor) (file_path : string)
  (run_binwalk run_exiftool : bool) (w : World) :
  let d := path_join E (extraction_dir (binwalk self))
             (path_stem E file_path +:+ "_binwalk") in
  match size_of E st_size file_path with
  | Raise e =>
      process_artifact settings E st_size self file_path run_binwalk
        run_exiftool w = (Raise e, w)
  | Ret size =>
      exists report w',
        process_artifact settings E st_size self file_path run_binwalk
          run_exiftool w = (Ret report, w')
        /\ report_file_path report = file_path
        /\ file_size_bytes report = size
        /\ (binwalk_entry report = None
            <-> run_binwalk && BINWALK_ENABLED settings = false)
        /\ (exiftool_entry report = None
            <-> run_exiftool && EXIFTOOL_ENABLED settings = false)
        /\ (forall x, exiftool_entry report = Some x ->
              exists n, x = ExiftoolEntry n)
        /\ (forall x, binwalk_entry report = Some x ->
              (mkdir_outcome E d = None /\ exists n, x = BinwalkEntry n)
              \/ (exists e, mkdir_outcome E d = Some e
                            /\ x = ErrorEntry (exc_str e)))
  end.
Proof.
  intros d. unfold process_artifact, bind, lift, ret, utcnow.
  destruct (size_of E st_size file_path) as [size|e0]; [|reflexivity].
  set (w1 := {| ticks := S (ticks w); spawned := spawned w |}).
  destruct (run_binwalk && BINWALK_ENABLED settings) eqn:Hb;
    destruct (run_exiftool && EXIFTOOL_ENABLED settings) eqn:He;
    cbn [app map snd fst Batch.gather].
  - pose proof (AnalyzerInvariants.analyze_file_inversion settings E
                  (binwalk self) file_path true 300 w1) as Hinv.
    apply andb_prop in Hb as [_ Hon].
    destruct (analyze_file settings E (binwalk self) file_path true 300 w1)
      as [[rb|eb] w2].
    + destruct (MetadataInvariants.metadata_result_total settings E file_path
                  60 w2) as (re & w3 & -> & _).
      eexists _, _. split; [reflexivity|]. simpl.
      destruct Hinv as [Hoff | Hmk]; [congruence|].
      repeat split; try discriminate.
      * intros x [= <-]. eauto.
      * intros x [= <-]. left. split; [exact Hmk | eauto].
    + destruct (MetadataInvariants.metadata_result_total settings E file_path
                  60 w2) as (re & w3 & -> & _).
      eexists _, _. split; [reflexivity|]. simpl.
      destruct Hinv as (_ & Hmk & _).
      repeat split; try discriminate.
      * intros x [= <-]. eauto.
      * intros x [= <-]. right. eauto.
  - pose proof (AnalyzerInvariants.analyze_file_inversion settings E
                  (binwalk self) file_path true 300 w1) as Hinv.
    apply andb_prop in Hb as [_ Hon].
    destruct (analyze_file settings E (binwalk self) file_path true 300 w1)
      as [[rb|eb] w2]; eexists _, _; (split; [reflexivity|]); simpl.
    + destruct Hinv as [Hoff | Hmk]; [congruence|].
      repeat split; try discriminate.
      intros x [= <-]. left. split; [exact Hmk | eauto].
    + destruct Hinv as (_ & Hmk & _).
      repeat split; try discriminate.
      intros x [= <-]. right. eauto.
  - destruct (MetadataInvariants.metadata_result_total settings E file_path
                60 w1) as (re & w3 & -> & _).
    eexists _, _. split; [reflexivity|]. simpl.
    repeat split; try discriminate.
    intros x [= <-]. eauto.
  - eexists _, _. split; [reflexivity|]. simpl. repeat split; discriminate.
Qed.

(** X21. [process_artifact] asks for the size of the artifact before
    anything else and outside any [try]: what [exists()] or [stat()]
    raises there leaves the function, with the clock not read and nothing
    spawned. Otherwise it returns a report for the artifact, with that
    size. The entry of a tool is [None] exactly when the tool was not
    asked for or is disabled. The entry of the metadata extractor, when
    there is one, is always a normalized result, whatever became of the
    scanner; the entry of the scanner is a normalized result when the
    extraction directory could be made and otherwise the text of the
    exception that making it raised. *)
Theorem process_artifact_entries (settings : Settings) (E : Env)
  (st_size : string -> res Z) (self : ArtifactProcessor) (file_path : string)
  (run_binwalk run_exiftool : bool) (w : World) :
  let d := path_join E (extraction_dir (binwalk self))
             (path_stem E file_path +:+ "_binwalk") in
  (forall e,
     size_of E st_size file_path = Raise e ->
     process_artifact settings E st_size self file_path run_binwalk
       run_exiftool w = (Raise e, w))
  /\ (forall size,
        size_of E st_size file_path = Ret size ->
        returns (process_artifact settings E st_size self file_path
                   run_binwalk run_exiftool) w
          (fun report =>
             report_file_path report = file_path
             /\ file_size_bytes report = size
             /\ (binwalk_entry report = None
                 <-> run_binwalk && BINWALK_ENABLED settings = false)
             /\ (exiftool_entry report = None
                 <-> run_exiftool && EXIFTOOL_ENABLED settings = false)
             /\ (forall x, exiftool_entry report = Some x ->
                   exists n, x = ExiftoolEntry n)
             /\ (forall x, binwalk_entry report = Some x ->
                   (mkdir_outcome E d = None
                    /\ exists n, x = BinwalkEntry n)
                   \/ (exists e, mkdir_outcome E d = Some e
                                 /\ x = ErrorEntry (exc_str e))))).
Proof.
  intros d.
  pose proof (process_artifact_outcome settings E st_size self file_path
                run_binwalk run_exiftool w) as H.
  cbv zeta in H. fold d in H. split.
  - intros e He. rewrite He in H. exact H.
  - intros size Hsize. rewrite Hsize in H.
    destruct H as (report & w' & Hrun & H). unfold returns.
    rewrite Hrun. exact H.
Qed.

Lemma process_artifact_entries_witness :
  let E := Examples.env (Ret (0%Z, "", "")) (Ret (0%Z, "", ""))
             (fun _ => Inaccessible "[Errno 36] File name too long")
             (fun _ => None) in
  process_artifact default_settings E (fun _ => Ret 0%Z)
    {| binwalk := Examples.analyzer |} "/art/dump.bin" true true Examples.world0
  = (Raise (Exception "[Errno 36] File name too long"), Examples.world0).
Proof.
  intros E.
  apply (proj1 (process_artifact_entries default_settings E
                  (fun _ => Ret 0%Z) {| binwalk := Examples.analyzer |}
                  "/art/dump.bin" true true Examples.world0)).
  reflexivity.
Defined.

(** When the coordinator can be constructed, and what it is then. *)
Lemma coordinator_construction_iff (settings : Settings) (E : Env)
  (extraction_base_dir : string) (w : World) :
  (exists processor w',
     __init__ settings E extraction_base_dir w = (Ret processor, w'))
  <-> mkdir_outcome E (path_join E extraction_base_dir "binwalk") = None
      /\ (exists o e, run_outcome E [BINWALK_PATH settings; "--help"]
                      = Ret (0%Z, o, e))
      /\ (exists o e, run_outcome E [EXIFTOOL_PATH settings; "-ver"]
                      = Ret (0%Z, o, e)).
Proof.
  unfold __init__, Analyzers.Binwalk.__init__, Analyzers.Exiftool.__init__,
    Analyzers.Binwalk._verify_installation,
    Analyzers.Exiftool._verify_installation.
  RunnerFacts.unfold_calls. simpl.
  destruct (mkdir_outcome E _) as [e|]; simpl.
  { split; [intros (p & w' & H); discriminate
           | intros (H & _); discriminate]. }
  destruct (run_outcome E [BINWALK_PATH settings; "--help"])
    as [[[c1 o1] e1]|e] eqn:Hb; simpl.
  2:{ split; [intros (p & w' & H); destruct e; discriminate|].
      intros (_ & (o & e' & H) & _). discriminate. }
  destruct (Z.eqb_spec c1 0) as [->|Hc1]; simpl.
  2:{ split; [intros (p & w' & H); discriminate|].
      intros (_ & (o & e' & [= H _ _]) & _). contradiction. }
  destruct (run_outcome E [EXIFTOOL_PATH settings; "-ver"])
    as [[[c2 o2] e2]|e] eqn:Hx; simpl.
  2:{ split; [intros (p & w' & H); destruct e; discriminate|].
      intros (_ & _ & (o & e' & H)). discriminate. }
  destruct (Z.eqb_spec c2 0) as [->|Hc2]; simpl.
  2:{ split; [intros (p & w' & H); discriminate|].
      intros (_ & _ & (o & e' & [= H _ _])). contradiction. }
  split; [intros _; eauto 8 | intros _; eauto].
Qed.

(** X22. Constructing the coordinator succeeds exactly when the
    directory of the scanner can be made and both probes, [<binwalk>
    --help] and [<exiftool> -ver], end with exit code 0: whether a tool is
    enabled plays no part, a disabled tool has to be installed all the
    same. Exactly the two probes are then spawned, in this order. *)
Theorem coordinator_construction (settings : Settings) (E : Env)
  (extraction_base_dir : string) (w : World) :
  let d := path_join E extraction_base_dir "binwalk" in
  let binwalk_probe := [BINWALK_PATH settings; "--help"] in
  let exiftool_probe := [EXIFTOOL_PATH settings; "-ver"] in
  ((exists processor w',
      __init__ settings E extraction_base_dir w = (Ret processor, w'))
   <-> mkdir_outcome E d = None
       /\ (exists o e, run_outcome E binwalk_probe = Ret (0%Z, o, e))
       /\ (exists o e, run_outcome E exiftool_probe = Ret (0%Z, o, e)))
  /\ (forall processor w',
        __init__ settings E extraction_base_dir w = (Ret processor, w') ->
        extraction_dir (binwalk processor) = d
        /\ spawned w' = spawned w ++ [binwalk_probe; exiftool_probe]).
Proof.
  intros d bp ep. subst d bp ep.
  unfold __init__, Analyzers.Binwalk.__init__, Analyzers.Exiftool.__init__,
    Analyzers.Binwalk._verify_installation,
    Analyzers.Exiftool._verify_installation.
  RunnerFacts.unfold_calls. simpl.
  destruct (mkdir_outcome E _) as [e|]; simpl.
  { split.
    - split; [intros (p & w' & H); discriminate
             | intros (H & _); discriminate].
    - intros p w' H. discriminate. }
  destruct (run_outcome E [BINWALK_PATH settings; "--help"])
    as [[[c1 o1] e1]|e] eqn:Hb; simpl.
  2:{ split.
      - split; [intros (p & w' & H); destruct e; discriminate|].
        intros (_ & (o & e' & H) & _). discriminate.
      - intros p w' H. destruct e; discriminate. }
  destruct (Z.eqb_spec c1 0) as [->|Hc1]; simpl.
  2:{ split.
      - split; [intros (p & w' & H); discriminate|].
        intros (_ & (o & e' & [= H _ _]) & _). contradiction.
      - intros p w' H. discriminate. }
  destruct (run_outcome E [EXIFTOOL_PATH settings; "-ver"])
    as [[[c2 o2] e2]|e] eqn:Hx; simpl.
  2:{ split.
      - split; [intros (p & w' & H); destruct e; discriminate|].
        intros (_ & _ & (o & e' & H)). discriminate.
      - intros p w' H. destruct e; discriminate. }
  destruct (Z.eqb_spec c2 0) as [->|Hc2]; simpl.
  2:{ split.
      - split; [intros (p & w' & H); discriminate|].
        intros (_ & _ & (o & e' & [= H _ _])). contradiction.
      - intros p w' H. discriminate. }
  split.
  - split; [intros _; eauto 8 | intros _; eauto].
  - intros p w' [= <- <-]. simpl. split; [reflexivity|].
    now rewrite <- app_assoc.
Qed.

Lemma coordinator_construction_witness :
  let E := env_of
             (fun cmd =>
                if String.eqb (hd "" cmd) "/usr/bin/binwalk"
                then Raise (FileNotFoundError "No such file or directory")
                else Ret (0%Z, "12.40", ""))
             (fun _ => None) (fun _ => Ret (0%Z, "", "")) (fun _ => None)
             (fun _ => Missing) (fun _ => None) Examples.sample_loads in
  ~ exists processor w',
      __init__ Examples.disabled_settings E "/out/job" Examples.world0
      = (Ret processor, w').
Proof.
  intros E H.
  apply (proj1 (proj1 (coordinator_construction Examples.disabled_settings E
                         "/out/job" Examples.world0))) in H
    as (_ & (o & e & Hprobe) & _).
  vm_compute in Hprobe. discriminate.
Defined.

End CoordinatorInvariants.

(** ** The worker tasks *)

Module TaskInvariants.
Import Py Spec Terms.
Import Tasks.

#[local] Arguments VolatilityRunner.execute_plugin_async : simpl never.
#[local] Arguments Analyzers.Processor.process_artifact : simpl never.
#[local] Arguments Analyzers.Processor.__init__ : simpl never.
#[local] Arguments VolatilityRunner._parse_json_output : simpl never.
#[local] Arguments VolatilityRunner._extract_error_message : simpl never.

(** X23. The plugin task raises what making its output directory
    raises. With the directory made, a missing memory image gives the
    record with status ["failed"] and the text ["Memory image not found:
    "] followed by the path in the normal form of [Path], and nothing is
    spawned; and of the exceptions that constructing the runner raises,
    [SoftTimeLimitExceeded] is raised again while any other becomes a
    record with status ["failed"] and the text of the exception. *)
Theorem plugin_task_failures (settings : Settings) (storage : Storage)
  (E : Env) (job_id plugin_name image : string) (w : World) :
  let output_dir := path_join E (RESULT_DIR storage) job_id in
  let path := PyStr.posix_path image in
  (forall e, mkdir_outcome E output_dir = Some e ->
     run_volatility_plugin settings storage E job_id plugin_name image w
     = (Raise e, w))
  /\ (mkdir_outcome E output_dir = None -> exists_ E path = Ret false ->
      run_volatility_plugin settings storage E job_id plugin_name image w
      = (Ret (PluginError plugin_name "failed"
                ("Memory image not found: " +:+ path)), w))
  /\ (mkdir_outcome E output_dir = None ->
      forall e w',
        VolatilityRunner.__init__ settings E path output_dir None w
        = (Raise e, w') ->
        run_volatility_plugin settings storage E job_id plugin_name image w
        = match e with
          | SoftTimeLimitExceeded _ => (Raise e, w')
          | _ => (Ret (PluginError plugin_name "failed" (exc_str e)), w')
          end).
Proof.
  intros output_dir path. split; [|split].
  - intros e Hmk. unfold run_volatility_plugin. fold output_dir.
    unfold bind, mkdir, lift_unit. rewrite Hmk. reflexivity.
  - intros Hmk Hex. unfold run_volatility_plugin. fold output_dir path.
    unfold VolatilityRunner.__init__.
    unfold bind, try_except, mkdir, lift_unit, lift, raise, ret.
    rewrite Hmk, Hex. reflexivity.
  - intros Hmk e w' Hinit. unfold run_volatility_plugin. fold output_dir path.
    unfold bind, try_except, mkdir, lift_unit.
    rewrite Hmk. cbn beta iota. rewrite Hinit. destruct e; reflexivity.
Qed.

Lemma plugin_task_failures_witness :
  let E := Examples.env (Ret (0%Z, "", "")) (Ret (0%Z, "", ""))
             (fun _ => Missing) (fun _ => None) in
  run_volatility_plugin default_settings
    {| ARTIFACT_DIR := "/var/forensics/artifacts";
       RESULT_DIR := "/var/forensics/results" |}
    E "job-1" "windows.pslist" "/data//images/./mem.raw" Examples.world0
  = (Ret (PluginError "windows.pslist" "failed"
            "Memory image not found: /data/images/mem.raw"), Examples.world0).
Proof.
  intros E.
  apply (proj1 (proj2 (plugin_task_failures default_settings
                         {| ARTIFACT_DIR := "/var/forensics/artifacts";
                            RESULT_DIR := "/var/forensics/results" |}
                         E "job-1" "windows.pslist" "/data//images/./mem.raw"
                         Examples.world0))); reflexivity.
Defined.

(** X24. When the runner can be constructed for the path in the normal
    form of [Path] and the plugin process runs to its end, the record of
    the plugin task depends on the output file. Where the parser returns,
    [success] is true exactly when the exit code is 0, with status
    ["success"] then and ["failed"] otherwise, and the row count is the
    one the parser returned: exit code 0 without an output file is
    reported as a success with 0 rows. Where [exists()] raises on the
    output file, the record has status ["failed"], no rows and [success]
    false, whatever the exit code. *)
Theorem plugin_task_success_flag (settings : Settings) (storage : Storage)
  (E : Env) (job_id plugin_name image : string) (w : World)
  (code : Z) (o e out err : string) :
  let output_dir := path_join E (RESULT_DIR storage) job_id in
  let runner :=
    {| VolatilityRunner.memory_image_path := PyStr.posix_path image;
       VolatilityRunner.output_dir := output_dir;
       VolatilityRunner.timeout_seconds := VOL3_TIMEOUT_SECONDS settings |} in
  let cmd := plugin_command settings runner plugin_name None in
  let f := VolatilityRunner.output_file_of E runner plugin_name in
  mkdir_outcome E output_dir = None ->
  exists_ E (PyStr.posix_path image) = Ret true ->
  run_outcome E [VOL3_PATH settings; "--help"] = Ret (0%Z, o, e) ->
  spawn_outcome E cmd = None ->
  communicate_outcome E cmd = Ret (code, out, err) ->
  (forall parsed,
     VolatilityRunner._parse_json_output E f = Ret parsed ->
     returns (run_volatility_plugin settings storage E job_id plugin_name
                image) w
       (fun r =>
          exists elapsed,
            r = PluginDone plugin_name
                  (if (code =? 0)%Z then "success" else "failed")
                  (snd parsed) elapsed (code =? 0)%Z))
  /\ (forall raised,
        VolatilityRunner._parse_json_output E f = Raise raised ->
        returns (run_volatility_plugin settings storage E job_id plugin_name
                   image) w
          (fun r =>
             exists elapsed,
               r = PluginDone plugin_name "failed" 0 elapsed false)).
Proof.
  intros output_dir runner cmd f Hmk Hex Hprobe Hspawn Hcomm.
  subst cmd f.
  assert (Hinit : VolatilityRunner.__init__ settings E (PyStr.posix_path image)
                    output_dir None w
                  = (Ret runner,
                     {| ticks := ticks w;
                        spawned := spawned w
                                   ++ [[VOL3_PATH settings; "--help"]] |})).
  { unfold VolatilityRunner.__init__,
      VolatilityRunner._verify_volatility_installation.
    unfold bind, try_except, ret, raise, mkdir, lift_unit, subprocess_run,
      log_spawn, lift.
    rewrite Hmk, Hex, Hprobe. reflexivity. }
  split.
  - intros [pd rc] Hp.
    destruct (RunnerFacts.parse_json_output_answers _ _ _ Hp) as [found Hfound].
    unfold returns, run_volatility_plugin. fold output_dir.
    unfold bind at 1, mkdir, lift_unit. rewrite Hmk. cbn beta iota.
    unfold try_except at 1, bind at 1. rewrite Hinit. cbn beta iota.
    unfold VolatilityRunner.execute_plugin_async.
    rewrite RunnerInvariants.build_command_layout.
    unfold bind, try_except, ret, raise, utcnow, create_subprocess_exec,
      wait_for_communicate, lift_unit, log_spawn, lift.
    rewrite Hspawn, Hcomm, Hp, Hfound. simpl.
    destruct (code =? 0)%Z; simpl; eauto.
  - intros raised Hp.
    pose proof Hp as Hex'.
    apply RunnerFacts.parse_json_output_raises, RunnerFacts.exists_raises
      in Hex' as [msg ->].
    unfold returns, run_volatility_plugin. fold output_dir.
    unfold bind at 1, mkdir, lift_unit. rewrite Hmk. cbn beta iota.
    unfold try_except at 1, bind at 1. rewrite Hinit. cbn beta iota.
    unfold VolatilityRunner.execute_plugin_async.
    rewrite RunnerInvariants.build_command_layout.
    unfold bind, try_except, ret, raise, utcnow, create_subprocess_exec,
      wait_for_communicate, lift_unit, log_spawn, lift.
    rewrite Hspawn, Hcomm, Hp. simpl. eauto.
Qed.

Lemma plugin_task_success_flag_witness :
  let E := Examples.env (Ret (0%Z, "usage", "")) (Ret (0%Z, "", ""))
             (fun p => if String.eqb p "/data/mem.raw" then Content ""
                       else Missing)
             (fun _ => None) in
  returns (run_volatility_plugin default_settings
             {| ARTIFACT_DIR := "/var/forensics/artifacts";
                RESULT_DIR := "/var/forensics/results" |}
             E "job-1" "windows.pslist" "/data/mem.raw") Examples.world0
    (fun r => exists elapsed,
                r = PluginDone "windows.pslist" "success" 0 elapsed true).
Proof.
  intros E.
  apply (proj1 (plugin_task_success_flag default_settings
                  {| ARTIFACT_DIR := "/var/forensics/artifacts";
                     RESULT_DIR := "/var/forensics/results" |}
                  E "job-1" "windows.pslist" "/data/mem.raw" Examples.world0
                  0%Z "usage" "" "" "" eq_refl eq_refl eq_refl eq_refl
                  eq_refl) (None, 0)).
  reflexivity.
Defined.

(** X25. The artifact task never raises. It returns the report of the
    coordinator, for the path in the normal form of [Path], when the
    coordinator can be constructed and the size of the artifact can be
    asked for; when the coordinator cannot be constructed it returns a
    record with the text of the exception, so that an artifact gets no
    analysis at all when the binary of one tool is missing, be that tool
    disabled; and when [exists()] or [stat()] raises on the artifact it
    returns the record with the text of that exception. *)
Theorem artifact_task_outcome (settings : Settings) (storage : Storage)
  (E : Env) (st_size : string -> res Z) (artifact_path job_id : string)
  (w : World) :
  let base := path_join E (path_join E (ARTIFACT_DIR storage) job_id)
                "postprocessed" in
  let path := PyStr.posix_path artifact_path in
  let ready :=
    mkdir_outcome E (path_join E base "binwalk") = None
    /\ (exists o e, run_outcome E [BINWALK_PATH settings; "--help"]
                    = Ret (0%Z, o, e))
    /\ (exists o e, run_outcome E [EXIFTOOL_PATH settings; "-ver"]
                    = Ret (0%Z, o, e)) in
  returns (process_artifact settings storage E st_size artifact_path job_id) w
    (fun r =>
       (ready ->
        forall size, Analyzers.Processor.size_of E st_size path = Ret size ->
          exists report,
            r = ArtifactDone report
            /\ Analyzers.Processor.report_file_path report = path
            /\ Analyzers.Processor.file_size_bytes report = size)
       /\ (ready ->
           forall e, Analyzers.Processor.size_of E st_size path = Raise e ->
             r = ArtifactError (exc_str e))
       /\ (~ ready -> exists msg, r = ArtifactError msg)).
Proof.
  intros base path ready.
  pose proof (CoordinatorInvariants.coordinator_construction_iff settings E
                base w) as Hiff.
  fold ready in Hiff.
  unfold returns, process_artifact. fold base path.
  unfold try_except, bind, ret.
  destruct (Analyzers.Processor.__init__ settings E base w)
    as [[processor|e] w1] eqn:Hinit.
  - assert (Hready : ready) by (apply Hiff; eauto).
    pose proof (CoordinatorInvariants.process_artifact_outcome settings E
                  st_size processor path (BINWALK_ENABLED settings)
                  (EXIFTOOL_ENABLED settings) w1) as Hout.
    cbv zeta in Hout.
    destruct (Analyzers.Processor.size_of E st_size path) as [size|e].
    + destruct Hout as (report & w2 & -> & Hpath & Hsize & _).
      cbn [fst]. split; [|split].
      * intros _ n [= <-]. eauto.
      * intros _ e H. discriminate.
      * intros Hnot. contradiction.
    + rewrite Hout. cbn [fst]. split; [|split].
      * intros _ n H. discriminate.
      * intros _ e' [= <-]. reflexivity.
      * intros Hnot. contradiction.
  - cbn [fst]. split; [|split].
    + intros Hready. apply Hiff in Hready as (p & w' & H). congruence.
    + intros Hready. apply Hiff in Hready as (p & w' & H). congruence.
    + eauto.
Qed.

Lemma artifact_task_outcome_witness :
  let E := Examples.env (Ret (0%Z, "12.40", "")) (Ret (0%Z, "[]", ""))
             (fun _ => Inaccessible "[Errno 13] Permission denied")
             (fun _ => None) in
  returns (process_artifact Examples.disabled_settings
             {| ARTIFACT_DIR := "/var/forensics/artifacts";
                RESULT_DIR := "/var/forensics/results" |}
             E (fun _ => Ret 0%Z) "/art/dump.bin" "job-1") Examples.world0
    (fun r => r = ArtifactError "[Errno 13] Permission denied").
Proof.
  intros E.
  pose proof (artifact_task_outcome Examples.disabled_settings
                {| ARTIFACT_DIR := "/var/forensics/artifacts";
                   RESULT_DIR := "/var/forensics/results" |}
                E (fun _ => Ret 0%Z) "/art/dump.bin" "job-1" Examples.world0)
    as H.
  unfold returns in *.
  destruct (fst _) as [r|e]; [|exact H].
  destruct H as (_ & H & _).
  apply (H (conj eq_refl
              (conj (ex_intro _ "12.40" (ex_intro _ "" eq_refl))
                 (ex_intro _ "12.40" (ex_intro _ "" eq_refl))))
           (Exception "[Errno 13] Permission denied")).
  reflexivity.
Defined.

End TaskInvariants.
